(** * Gallo Connect chat orchestration core: a shallow embedding

    The development follows the TypeScript sources
      - [chatbot/services/llm.service.ts]       (class [LLMService])
      - [chatbot/mcp/mcp-sdk.service.ts]        (class [MCPSDKService])
      - [chatbot/providers/*.provider.ts]       (the provider adapters)
      - [chatbot/chatbot.service.ts]            (class [ChatbotService])

    JavaScript strings are modelled as [string] (byte strings); the
    case mapping and the whitespace classes are the ASCII ones.  Maps
    ([Map<string, _>], plain objects used as records of arguments) are
    stdpp [gmap]s.  [Date.now()] is an explicit argument [now] (in
    milliseconds), a turn being processed at one instant. *)

From Stdlib Require Import ZArith Bool Ascii String List Lia.
From stdpp Require Import base option gmap strings list fin_maps pretty.

Set Warnings "-register-all".

Local Open Scope string_scope.
Local Open Scope Z_scope.

(** ** JavaScript string primitives *)

Module Str.

Definition startsWith (s p : string) : bool := String.prefix p s.

(** [s.includes(p)] *)
Fixpoint includes (s p : string) : bool :=
  String.prefix p s ||
  match s with
  | EmptyString => false
  | String _ s' => includes s' p
  end.

Definition lower_ascii (c : ascii) : ascii :=
  let n := nat_of_ascii c in
  if ((65 <=? n)%nat && (n <=? 90)%nat)%bool then ascii_of_nat (n + 32) else c.

Fixpoint toLowerCase (s : string) : string :=
  match s with
  | EmptyString => EmptyString
  | String c s' => String (lower_ascii c) (toLowerCase s')
  end.

Definition is_space (c : ascii) : bool :=
  let n := nat_of_ascii c in
  ((n =? 32)%nat || ((9 <=? n)%nat && (n <=? 13)%nat))%bool.

Fixpoint trimStart (s : string) : string :=
  match s with
  | EmptyString => EmptyString
  | String c s' => if is_space c then trimStart s' else s
  end.

(** drops the trailing white space: a character is kept when it is
    not a space or when something is kept after it *)
Fixpoint trimEnd (s : string) : string :=
  match s with
  | EmptyString => EmptyString
  | String c s' =>
      match trimEnd s' with
      | EmptyString => if is_space c then EmptyString else String c EmptyString
      | r => String c r
      end
  end.

Definition trim (s : string) : string := trimEnd (trimStart s).

(** [s.substring(n)] *)
Fixpoint substring (s : string) (n : nat) : string :=
  match n, s with
  | O, _ => s
  | S n', String _ s' => substring s' n'
  | S _, EmptyString => EmptyString
  end.

(** [l.join(sep)] *)
Fixpoint join (sep : string) (l : list string) : string :=
  match l with
  | [] => ""
  | [x] => x
  | x :: l' => x +:+ sep +:+ join sep l'
  end.

(** [s.replace(pat, rep)] with a string pattern: the first occurrence *)
Fixpoint replace (s pat rep : string) : string :=
  if String.prefix pat s then rep +:+ substring s (String.length pat)
  else match s with
       | EmptyString => EmptyString
       | String c s' => String c (replace s' pat rep)
       end.

Definition dquote : string := String (ascii_of_nat 34) EmptyString.
Definition nl : string := String (ascii_of_nat 10) EmptyString.

(** a string is truthy when it is not empty *)
Definition truthy (s : string) : bool :=
  match s with EmptyString => false | _ => true end.

End Str.

(** ** Data model ([llm-provider.interface.ts], [mcp-server.interface.ts]) *)

(** JSON values, as far as the orchestrator looks into them.  The
    arguments of a tool call are a [Record<string, any>]: a finite map
    from property names to JSON values. *)
Inductive json : Type :=
| JNull
| JBool (b : bool)
| JNum (z : Z)
| JStr (s : string)
| JArr (l : list json)
| JObj (o : list (string * json)).

Abbreviation jobject := (gmap string json).

Inductive Role : Type := user | assistant | system | tool.

#[global] Instance Role_eq_dec : EqDecision Role.
Proof. solve_decision. Defined.

Definition is_system (r : Role) : bool :=
  match r with system => true | _ => false end.

(** [LLMToolCall]: [fn_name] and [fn_arguments] are [function.name] and
    [function.arguments] (a JSON-encoded string). *)
Record LLMToolCall : Type := mkToolCall {
  tc_id : string;
  fn_name : string;
  fn_arguments : string
}.

Record LLMMessage : Type := mkMessage {
  role : Role;
  content : string;
  timestamp : option Z;
  tool_calls : option (list LLMToolCall);
  tool_call_id : option string
}.

Record LLMFunctionDefinition : Type := mkFunctionDefinition {
  fd_name : string;
  fd_description : string;
  fd_parameters : json
}.

Record LLMResponse : Type := mkResponse {
  resp_content : string;
  resp_model : option string;
  resp_finish_reason : option string;
  resp_tool_calls : option (list LLMToolCall)
}.

Inductive ApiType : Type := ollama | openai_compatible.

Record LLMConfig : Type := mkConfig {
  apiKey : option string;
  apiUrl : option string;
  model : option string;
  maxTokens : option Z;
  timeout : option Z;
  apiType : option ApiType
}.

Inductive LLMProviderType : Type := local | openai | gemini | fallback.

#[global] Instance LLMProviderType_eq_dec : EqDecision LLMProviderType.
Proof. solve_decision. Defined.

#[global] Instance LLMProviderType_countable : Countable LLMProviderType.
Proof.
  refine (inj_countable'
    (fun p => match p with local => 0%nat | openai => 1%nat | gemini => 2%nat | fallback => 3%nat end)
    (fun n => match n with O => local | 1%nat => openai | 2%nat => gemini | _ => fallback end) _).
  intros []; reflexivity.
Defined.

Record LLMServiceConfig : Type := mkServiceConfig {
  primaryProvider : LLMProviderType;
  fallbackProvider : option LLMProviderType;
  enableFallback : bool;
  providers_config : LLMProviderType -> option LLMConfig
}.

(** MCP side *)

Record MCPTool : Type := mkTool {
  tool_name : string;
  tool_description : string;
  tool_serverId : string;
  tool_inputSchema : json
}.

Record MCPToolCall : Type := mkMCPToolCall {
  call_name : string;
  call_arguments : jobject;
  call_serverId : string
}.

Inductive ContentType : Type := ct_text | ct_image | ct_resource | ct_resource_link.

Record ContentPart : Type := mkPart {
  part_type : ContentType;
  part_text : option string;
  part_uri : option string;
  part_name : option string;
  part_description : option string
}.

(** [content] may be missing on a result's object ([!result.content]
    is tested by the formatter), [isError] is optional *)
Record MCPToolResult : Type := mkResult {
  res_content : list ContentPart;
  res_isError : option bool
}.

Record MCPServerConfig : Type := mkServerConfig {
  server_id : string;
  server_name : string;
  server_url : option string;
  server_enabled : bool
}.

(** An optional string as JavaScript's [||] and template literals see it *)
Definition or_default (o : option string) (d : string) : string :=
  match o with
  | Some s => if Str.truthy s then s else d
  | None => d
  end.

Definition opt_truthy (o : option string) : bool :=
  match o with Some s => Str.truthy s | None => false end.

(** [`${x}`] of an optional string *)
Definition template (o : option string) : string :=
  match o with Some s => s | None => "undefined" end.

(** ** The outside world

    Everything the orchestrator reaches through the network or through
    the browser is a field of [World].  Requests and replies of the
    three vendors are tagged variants; the sampling parameters
    (temperature, top-p, penalties, safety settings) are left out of
    the request bodies, no decision of the adapters reads them. *)

Record ChatRequest : Type := mkChatRequest {
  cr_model : option string;
  cr_messages : list LLMMessage;
  cr_max_tokens : option Z;
  cr_tools : option (list LLMFunctionDefinition);
  cr_tool_choice : option string
}.

Record OllamaRequest : Type := mkOllamaRequest {
  ol_model : option string;
  ol_prompt : string;
  ol_num_predict : option Z
}.

Record GeminiContent : Type := mkGeminiContent {
  gc_role : string;
  gc_text : string
}.

Record GeminiRequest : Type := mkGeminiRequest {
  gr_contents : list GeminiContent;
  gr_maxOutputTokens : option Z
}.

Inductive HttpBody : Type :=
| OpenAIChatRequest (r : ChatRequest)
| OllamaGenerateRequest (r : OllamaRequest)
| GeminiGenerateRequest (r : GeminiRequest).

Record HttpRequest : Type := mkHttpRequest {
  req_url : string;
  req_authorization : option string;
  req_body : HttpBody
}.

(** The reply body is [any] in the source; the fields below are the
    ones the adapters read through optional chaining. *)
Record HttpPayload : Type := mkPayload {
  choices0_content : option string;        (* choices?.[0]?.message?.content *)
  choices0_tool_calls : option (list LLMToolCall);
  choices0_finish_reason : option string;
  payload_model : option string;
  payload_response : option string;        (* Ollama *)
  payload_done : bool;
  candidates0_text : option string;        (* Gemini *)
  candidates0_finishReason : option string
}.

(** [HttpFailure None] is an error without a status (a timeout) *)
Inductive HttpReply : Type :=
| HttpOK (p : HttpPayload)
| HttpFailure (status : option Z).

Inductive SdkResult : Type :=
| SdkNothing
| SdkContent (parts : list ContentPart) (isError : option bool)
| SdkString (s : string)
| SdkOther (stringified : string).

(** [SdkThrows (Some m)] is an [Error] with message [m] *)
Inductive SdkReply : Type :=
| SdkOk (r : SdkResult)
| SdkThrows (e : option string).

Record World : Type := mkWorld {
  JSON_parse : string -> option jobject;          (* [None]: SyntaxError *)
  JSON_stringify : jobject -> string;
  http_post : HttpRequest -> HttpReply;
  baseSite : option string;        (* siteContextParamsService.getValue('baseSite') *)
  window_origin : option string;   (* window.location.origin *)
  access_token : option string;    (* authStorageService.getToken() *)
  activeCart_code : option string; (* activeCartFacade.getActive() *)
  predefinedMCPServers : list MCPServerConfig;
  sdk_connect : string -> bool;                   (* client.connect resolves *)
  sdk_listTools : option (list MCPTool);          (* [None]: it rejects *)
  sdk_callTool : string -> jobject -> SdkReply;
  stringify_part : ContentPart -> string          (* JSON.stringify(content, null, 2) *)
}.

(** Results of fallible code: a thrown exception or an errored
    observable carries its [message]. *)
Inductive Result (A : Type) : Type :=
| Ok (a : A)
| Err (message : string).
Arguments Ok {A} a.
Arguments Err {A} message.

(** ** Provider adapters ([openai.provider.ts], [gemini.provider.ts],
       [local-llm.provider.ts]) *)

Definition merge {A} (old new : option A) : option A :=
  match new with Some _ => new | None => old end.

(** [{ ...this.config, ...config }] *)
Definition configure (this config : LLMConfig) : LLMConfig :=
  {| apiKey := merge (apiKey this) (apiKey config);
     apiUrl := merge (apiUrl this) (apiUrl config);
     model := merge (model this) (model config);
     maxTokens := merge (maxTokens this) (maxTokens config);
     timeout := merge (timeout this) (timeout config);
     apiType := merge (apiType this) (apiType config) |}.

Definition persona_with_tools : string :=
  "You are a helpful customer service assistant for Gallo Connect, an e-commerce platform. " +:+
  "Provide helpful, friendly, and accurate responses to customer inquiries about products, orders, " +:+
  "shipping, returns, and general support. Keep responses concise but informative. " +:+
  "When available, use the provided tools to search for products, check inventory, or perform other actions.".

Definition adapter_systemMessage : LLMMessage :=
  {| role := system; content := persona_with_tools; timestamp := None;
     tool_calls := None; tool_call_id := None |}.

(** [tools && tools.length > 0] *)
Definition has_tools (tools : option (list LLMFunctionDefinition)) : bool :=
  match tools with
  | Some (_ :: _) => true
  | _ => false
  end.

(** The body both OpenAI-style adapters build *)
Definition chat_requestBody (cfg : LLMConfig) (messages : list LLMMessage)
    (tools : option (list LLMFunctionDefinition)) : ChatRequest :=
  {| cr_model := model cfg;
     cr_messages := adapter_systemMessage :: messages;
     cr_max_tokens := maxTokens cfg;
     cr_tools := if has_tools tools then tools else None;
     cr_tool_choice := if has_tools tools then Some "auto" else None |}.

Definition chat_response (p : HttpPayload) : LLMResponse :=
  {| resp_content := or_default (choices0_content p) "";
     resp_model := payload_model p;
     resp_finish_reason := choices0_finish_reason p;
     resp_tool_calls :=
       match choices0_tool_calls p with
       | Some (c :: l) => Some (c :: l)
       | _ => None
       end |}.

Definition status_is (status : option Z) (n : Z) : bool :=
  match status with Some s => s =? n | None => false end.

Module OpenAIProvider.

Definition name : string := "OpenAI ChatGPT".

Definition default_config : LLMConfig :=
  {| apiKey := None; apiUrl := Some "https://api.openai.com/v1";
     model := Some "gpt-3.5-turbo"; maxTokens := Some 1000;
     timeout := Some 30000; apiType := None |}.

Definition handleError (status : option Z) : string :=
  if status_is status 401 then "OpenAI API key is invalid or expired"
  else if status_is status 429 then "OpenAI API rate limit exceeded. Please try again later."
  else if status_is status 500 || status_is status 503
    then "OpenAI API is currently unavailable. Please try again later."
  else if status_is status 0
    then "Unable to connect to OpenAI API. Please check your internet connection."
  else "OpenAI API request failed".

Definition request (cfg : LLMConfig) (messages : list LLMMessage)
    (tools : option (list LLMFunctionDefinition)) : HttpRequest :=
  {| req_url := template (apiUrl cfg) +:+ "/chat/completions";
     req_authorization := Some ("Bearer " +:+ template (apiKey cfg));
     req_body := OpenAIChatRequest (chat_requestBody cfg messages tools) |}.

Definition generateResponse (W : World) (cfg : LLMConfig) (messages : list LLMMessage)
    (tools : option (list LLMFunctionDefinition)) : Result LLMResponse :=
  if negb (opt_truthy (apiKey cfg)) then Err "OpenAI API key not configured"
  else match http_post W (request cfg messages tools) with
       | HttpOK p => Ok (chat_response p)
       | HttpFailure status => Err (handleError status)
       end.

End OpenAIProvider.

Module GeminiProvider.

Definition name : string := "Google Gemini".

Definition default_config : LLMConfig :=
  {| apiKey := None; apiUrl := Some "https://generativelanguage.googleapis.com/v1beta";
     model := Some "gemini-pro"; maxTokens := Some 1000;
     timeout := Some 30000; apiType := None |}.

Definition systemPrompt : string :=
  "You are a helpful customer service assistant for Gallo Connect, an e-commerce platform. " +:+
  "Provide helpful, friendly, and accurate responses to customer inquiries about products, orders, " +:+
  "shipping, returns, and general support. Keep responses concise but informative.".

Fixpoint convertMessages (messages : list LLMMessage) : list GeminiContent :=
  match messages with
  | [] => []
  | m :: rest =>
      match role m with
      | user => {| gc_role := "user"; gc_text := content m |} :: convertMessages rest
      | assistant => {| gc_role := "model"; gc_text := content m |} :: convertMessages rest
      | _ => convertMessages rest
      end
  end.

Definition convertMessagesToGeminiFormat (messages : list LLMMessage) : list GeminiContent :=
  {| gc_role := "user"; gc_text := systemPrompt |} ::
  {| gc_role := "model";
     gc_text := "I understand. I'm here to help customers with their Gallo Connect inquiries." |} ::
  convertMessages messages.

Definition handleError (status : option Z) : string :=
  if status_is status 400 then "Invalid request to Gemini API. Please check your input."
  else if status_is status 401 || status_is status 403
    then "Gemini API key is invalid or unauthorized"
  else if status_is status 429 then "Gemini API rate limit exceeded. Please try again later."
  else if status_is status 500 || status_is status 503
    then "Gemini API is currently unavailable. Please try again later."
  else if status_is status 0
    then "Unable to connect to Gemini API. Please check your internet connection."
  else "Google Gemini API request failed".

(** [tools] is a parameter of the method; the request body is built
    from the messages and the configuration alone *)
Definition request (cfg : LLMConfig) (messages : list LLMMessage)
    (tools : option (list LLMFunctionDefinition)) : HttpRequest :=
  {| req_url := template (apiUrl cfg) +:+ "/models/" +:+ template (model cfg) +:+
                ":generateContent?key=" +:+ template (apiKey cfg);
     req_authorization := None;
     req_body := GeminiGenerateRequest
       {| gr_contents := convertMessagesToGeminiFormat messages;
          gr_maxOutputTokens := maxTokens cfg |} |}.

Definition generateResponse (W : World) (cfg : LLMConfig) (messages : list LLMMessage)
    (tools : option (list LLMFunctionDefinition)) : Result LLMResponse :=
  if negb (opt_truthy (apiKey cfg)) then Err "Google Gemini API key not configured"
  else match http_post W (request cfg messages tools) with
       | HttpOK p =>
           Ok {| resp_content := or_default (candidates0_text p) "";
                 resp_model := model cfg;
                 resp_finish_reason := candidates0_finishReason p;
                 resp_tool_calls := None |}
       | HttpFailure status => Err (handleError status)
       end.

End GeminiProvider.

Module LocalLLMProvider.

Definition name : string := "Local LLM".

Definition default_config : LLMConfig :=
  {| apiKey := None; apiUrl := Some "http://localhost:11434";
     model := Some "llama2"; maxTokens := Some 2048;
     timeout := Some 30000; apiType := Some ollama |}.

(** [configure]: merge, then guess the API type from the URL when
    none is set *)
Definition configure (this config : LLMConfig) : LLMConfig :=
  let merged := configure this config in
  match apiType merged with
  | Some _ => merged
  | None =>
      let guess :=
        match apiUrl merged with
        | Some u => if Str.includes u "1234" || Str.includes u "lmstudio"
                    then openai_compatible else ollama
        | None => ollama
        end in
      {| apiKey := apiKey merged; apiUrl := apiUrl merged; model := model merged;
         maxTokens := maxTokens merged; timeout := timeout merged;
         apiType := Some guess |}
  end.

Fixpoint convertMessages (messages : list LLMMessage) : string :=
  match messages with
  | [] => ""
  | m :: rest =>
      match role m with
      | user => "Customer: " +:+ content m +:+ Str.nl +:+ convertMessages rest
      | assistant => "Assistant: " +:+ content m +:+ Str.nl +:+ convertMessages rest
      | _ => convertMessages rest
      end
  end.

Definition convertMessagesToPrompt (messages : list LLMMessage) : string :=
  "You are a helpful customer service assistant for Gallo Connect, an e-commerce platform. " +:+
  "Provide helpful, friendly, and accurate responses to customer inquiries." +:+ Str.nl +:+ Str.nl +:+
  convertMessages messages +:+ "Assistant: ".

(** [`- ${tool.function.name}: ${tool.function.description}`] *)
Definition toolLine (t : LLMFunctionDefinition) : string :=
  "- " +:+ fd_name t +:+ ": " +:+ fd_description t.

Definition toolsInfo (tools : list LLMFunctionDefinition) : string :=
  Str.join Str.nl (map toolLine tools).

Definition ollama_prompt (messages : list LLMMessage)
    (tools : option (list LLMFunctionDefinition)) : string :=
  let prompt := convertMessagesToPrompt messages in
  match tools with
  | Some (t :: l) =>
      prompt +:+ Str.nl +:+ Str.nl +:+ "Available tools:" +:+ Str.nl +:+
      toolsInfo (t :: l) +:+ Str.nl +:+ Str.nl +:+
      "Note: If you need to use any of these tools, please indicate which tool you would like to use and with what parameters."
  | _ => prompt
  end.

Definition handleError (status : option Z) : string :=
  if status_is status 0
    then "Unable to connect to local LLM server. Please ensure it is running."
  else if match status with Some s => 500 <=? s | None => false end
    then "Local LLM server error. Please check server logs."
  else if status_is status 404
    then "Local LLM model not found. Please check model configuration."
  else "Local LLM request failed".

Definition openAICompatibleRequest (cfg : LLMConfig) (messages : list LLMMessage)
    (tools : option (list LLMFunctionDefinition)) : HttpRequest :=
  {| req_url := template (apiUrl cfg) +:+ "/v1/chat/completions";
     req_authorization := None;
     req_body := OpenAIChatRequest (chat_requestBody cfg messages tools) |}.

Definition ollamaRequest (cfg : LLMConfig) (messages : list LLMMessage)
    (tools : option (list LLMFunctionDefinition)) : HttpRequest :=
  {| req_url := template (apiUrl cfg) +:+ "/api/generate";
     req_authorization := None;
     req_body := OllamaGenerateRequest
       {| ol_model := model cfg;
          ol_prompt := ollama_prompt messages tools;
          ol_num_predict := maxTokens cfg |} |}.

Definition request (cfg : LLMConfig) (messages : list LLMMessage)
    (tools : option (list LLMFunctionDefinition)) : HttpRequest :=
  match apiType cfg with
  | Some openai_compatible => openAICompatibleRequest cfg messages tools
  | _ => ollamaRequest cfg messages tools
  end.

Definition generateResponse (W : World) (cfg : LLMConfig) (messages : list LLMMessage)
    (tools : option (list LLMFunctionDefinition)) : Result LLMResponse :=
  if negb (opt_truthy (apiUrl cfg)) || negb (opt_truthy (model cfg))
  then Err "Local LLM not properly configured"
  else match apiType cfg with
       | Some openai_compatible =>
           match http_post W (openAICompatibleRequest cfg messages tools) with
           | HttpOK p => Ok (chat_response p)
           | HttpFailure status => Err (handleError status)
           end
       | _ =>
           match http_post W (ollamaRequest cfg messages tools) with
           | HttpOK p =>
               Ok {| resp_content := or_default (payload_response p) "";
                     resp_model := payload_model p;
                     resp_finish_reason := Some (if payload_done p then "stop" else "length");
                     resp_tool_calls := None |}
           | HttpFailure status => Err (handleError status)
           end
       end.

End LocalLLMProvider.

(** What reaches the backend about the tools *)

Definition structured_tools (r : HttpRequest) : option (list LLMFunctionDefinition) :=
  match req_body r with
  | OpenAIChatRequest b => cr_tools b
  | _ => None
  end.

(** All the text of a request: message contents, the prompt, the
    parts of the contents *)
Definition request_texts (r : HttpRequest) : list string :=
  match req_body r with
  | OpenAIChatRequest b => map content (cr_messages b)
  | OllamaGenerateRequest b => [ol_prompt b]
  | GeminiGenerateRequest b => map gc_text (gr_contents b)
  end.

Definition text_mentions (r : HttpRequest) (s : string) : bool :=
  existsb (fun t => Str.includes t s) (request_texts r).

(** ** State of the services *)

Record MCPSDKService : Type := mkMCP {
  client : bool;                         (* [this.client !== null] *)
  serverConfig : option MCPServerConfig;
  availableTools : list MCPTool
}.

Record CacheEntry : Type := mkCacheEntry {
  available : bool;
  lastCheck : Z;
  observable : option nat               (* the pending check, by number *)
}.

Record PendingOrderOperation : Type := mkPending {
  originalToolCall : LLMToolCall;
  waitingForTermsAcceptance : bool;
  termsMessage : option string
}.

Inductive Step : Type := payment | address | delivery | confirmation | complete.

#[global] Instance Step_eq_dec : EqDecision Step.
Proof. solve_decision. Defined.

Record OrderFlow : Type := mkOrderFlow {
  isActive : bool;
  currentStep : Step;
  collectedData : jobject;
  availableOptions : jobject
}.

Record SessionContext : Type := mkContext {
  pendingOrderOperation : option PendingOrderOperation;
  orderFlow : option OrderFlow
}.

(** What the service does to the outside, in order (newest last) *)
Inductive Event : Type :=
| EvGenerate (p : LLMProviderType) (messages : list LLMMessage)
             (tools : option (list LLMFunctionDefinition))
| EvCallTool (name : string) (arguments : jobject)
| EvProbe (p : LLMProviderType) (obs : nat)
| EvLogTermsDetected (originalName : string).

Record LLMService : Type := mkService {
  currentProvider : LLMProviderType;
  config : option LLMServiceConfig;
  localProvider : LLMConfig;
  openaiProvider : LLMConfig;
  geminiProvider : LLMConfig;
  availabilityCache : gmap LLMProviderType CacheEntry;
  conversationHistory : gmap string (list LLMMessage);
  sessionContext : gmap string SessionContext;
  mcpService : MCPSDKService;
  trace : list Event
}.


Definition set_availabilityCache (c : gmap LLMProviderType CacheEntry) (s : LLMService) : LLMService :=
  mkService (currentProvider s) (config s) (localProvider s) (openaiProvider s) (geminiProvider s)
    c (conversationHistory s) (sessionContext s) (mcpService s) (trace s).

Definition set_conversationHistory (h : gmap string (list LLMMessage)) (s : LLMService) : LLMService :=
  mkService (currentProvider s) (config s) (localProvider s) (openaiProvider s) (geminiProvider s)
    (availabilityCache s) h (sessionContext s) (mcpService s) (trace s).

Definition set_sessionContext (c : gmap string SessionContext) (s : LLMService) : LLMService :=
  mkService (currentProvider s) (config s) (localProvider s) (openaiProvider s) (geminiProvider s)
    (availabilityCache s) (conversationHistory s) c (mcpService s) (trace s).

Definition set_mcpService (m : MCPSDKService) (s : LLMService) : LLMService :=
  mkService (currentProvider s) (config s) (localProvider s) (openaiProvider s) (geminiProvider s)
    (availabilityCache s) (conversationHistory s) (sessionContext s) m (trace s).

Definition emit (e : Event) (s : LLMService) : LLMService :=
  mkService (currentProvider s) (config s) (localProvider s) (openaiProvider s) (geminiProvider s)
    (availabilityCache s) (conversationHistory s) (sessionContext s) (mcpService s) (trace s ++ [e]).

(** ** A state and error monad for the service

    A computation reads and writes the service and either returns or
    fails; the state written before a failure stays written, as in
    JavaScript. *)

Definition M (A : Type) : Type := LLMService -> Result A * LLMService.

Definition ret {A} (a : A) : M A := fun s => (Ok a, s).
Definition throwError {A} (e : string) : M A := fun s => (Err e, s).
Definition bind {A B} (m : M A) (k : A -> M B) : M B :=
  fun s => match m s with
           | (Ok a, s') => k a s'
           | (Err e, s') => (Err e, s')
           end.
Definition catchError {A} (m : M A) (h : string -> M A) : M A :=
  fun s => match m s with
           | (Ok a, s') => (Ok a, s')
           | (Err e, s') => h e s'
           end.
Definition gets {A} (f : LLMService -> A) : M A := fun s => (Ok (f s), s).
Definition modify (f : LLMService -> LLMService) : M unit := fun s => (Ok tt, f s).

Declare Scope service_scope.
Delimit Scope service_scope with service.
Notation "x <- m ;; k" := (bind m (fun x => k))
  (at level 100, m at next level, right associativity) : service_scope.
Notation "m ;; k" := (bind m (fun _ => k))
  (at level 100, right associativity) : service_scope.
Local Open Scope service_scope.

Fixpoint mapM {A B} (f : A -> M B) (l : list A) : M (list B) :=
  match l with
  | [] => ret []
  | a :: l' => b <- f a ;; bs <- mapM f l' ;; ret (b :: bs)
  end.

(** ** The rule-based responder ([LLMService.getFallbackResponse]) *)

Definition greeting : string :=
  "Hello! Welcome to Gallo Connect. I'm here to help you with any questions about our products, orders, or services. How can I assist you today?".

Definition getFallbackResponse (userMessage : string) (error : option string) : string :=
  let message := Str.toLowerCase userMessage in
  if opt_truthy error then
    "I apologize, but I'm experiencing some technical difficulties with my AI assistant. However, I'm still here to help! You asked about "
    +:+ Str.dquote +:+ userMessage +:+ Str.dquote +:+
    " - could you please rephrase your question or let me know how I can assist you?"
  else if Str.includes message "hello" || Str.includes message "hi" then greeting
  else if Str.includes message "help" then
    "I'm here to help! I can assist you with:" +:+ Str.nl +:+
    "• Product information and recommendations" +:+ Str.nl +:+
    "• Order status and tracking" +:+ Str.nl +:+
    "• Shipping and delivery questions" +:+ Str.nl +:+
    "• Returns and exchanges" +:+ Str.nl +:+
    "• Account support" +:+ Str.nl +:+ Str.nl +:+
    "What would you like to know more about?"
  else if Str.includes message "product" || Str.includes message "item" || Str.includes message "buy" then
    "I'd be happy to help you find the perfect product! You can browse our full catalog on the website, or tell me what specific type of item you're looking for and I'll guide you in the right direction."
  else if Str.includes message "order" || Str.includes message "shipping" || Str.includes message "delivery" then
    "For order-related inquiries, you can check your order status in your account dashboard. If you need help tracking a shipment or have questions about delivery times, I can guide you through the process. What specific information do you need?"
  else if Str.includes message "return" || Str.includes message "refund" || Str.includes message "exchange" then
    "Our return policy allows returns within 30 days of purchase. I can help you start a return request or answer any questions about our return process. Would you like me to guide you through the steps?"
  else if Str.includes message "contact" || Str.includes message "support" || Str.includes message "phone" then
    "You can reach our customer support team at:" +:+ Str.nl +:+
    "• Email: support@galloconnect.com" +:+ Str.nl +:+
    "• Phone: 1-800-GALLO-1" +:+ Str.nl +:+
    "• Hours: Monday-Friday 9AM-6PM EST" +:+ Str.nl +:+ Str.nl +:+
    "Or I can try to help you right here! What do you need assistance with?"
  else if Str.includes message "bye" || Str.includes message "goodbye" || Str.includes message "thanks" then
    "Thank you for choosing Gallo Connect! Have a wonderful day, and don't hesitate to reach out if you need any more assistance."
  else
    "Thank you for your question! While I'm working to understand your request better, I'd be happy to help you find what you need. Could you provide a bit more detail about what you're looking for? You can also browse our website or contact our support team at support@galloconnect.com for immediate assistance.".

(** ** Session stores ([LLMService]) *)

Definition MAX_CONVERSATION_LENGTH : nat := 20.
Definition SESSION_TIMEOUT : Z := 30 * 60 * 1000.
Definition CACHE_DURATION : Z := 30000.

(** [history.slice(-n)]: the last [n] elements *)
Definition slice_last {A} (n : nat) (l : list A) : list A :=
  skipn (length l - n) l.

Definition find_system (history : list LLMMessage) : option LLMMessage :=
  List.find (fun msg => is_system (role msg)) history.

(** The array after [history.push(message)]; it is the caller's array
    too, whatever the map holds afterwards. *)
Definition pushed (history : list LLMMessage) (message : LLMMessage) : list LLMMessage :=
  history ++ [message].

Definition trimHistory (history : list LLMMessage) : list LLMMessage :=
  if (MAX_CONVERSATION_LENGTH <? length history)%nat then
    let recentMessages := slice_last (MAX_CONVERSATION_LENGTH - 1) history in
    match find_system history with
    | Some systemMessage => systemMessage :: recentMessages
    | None => recentMessages
    end
  else history.

(** [getConversationHistory]: the stored array, created when missing *)
Definition history_of (sessionId : string) (s : LLMService) : list LLMMessage :=
  default [] (conversationHistory s !! sessionId).

Definition getConversationHistory (sessionId : string) : M (list LLMMessage) :=
  fun s =>
    match conversationHistory s !! sessionId with
    | Some h => (Ok h, s)
    | None => (Ok [], set_conversationHistory (<[sessionId := []]> (conversationHistory s)) s)
    end.

Definition addToConversationHistory (sessionId : string) (message : LLMMessage) : M unit :=
  history <- getConversationHistory sessionId ;;
  modify (fun s =>
    set_conversationHistory
      (<[sessionId := trimHistory (pushed history message)]> (conversationHistory s)) s).

Definition clearConversationHistory (sessionId : string) (s : LLMService) : LLMService :=
  set_sessionContext (delete sessionId (sessionContext s))
    (set_conversationHistory (delete sessionId (conversationHistory s)) s).

Definition emptyContext : SessionContext :=
  {| pendingOrderOperation := None; orderFlow := None |}.

(** [this.sessionContext.get(sessionId)], created when missing *)
Definition context_or_new (sessionId : string) (s : LLMService) : SessionContext :=
  default emptyContext (sessionContext s !! sessionId).

Definition setPendingOrderContext (sessionId : string) (toolCall : LLMToolCall)
    (termsMessage : option string) (s : LLMService) : LLMService :=
  let context := context_or_new sessionId s in
  set_sessionContext
    (<[sessionId := {| pendingOrderOperation :=
                         Some {| originalToolCall := toolCall;
                                 waitingForTermsAcceptance := true;
                                 termsMessage := termsMessage |};
                       orderFlow := orderFlow context |}]> (sessionContext s)) s.

Definition pendingOrder_of (sessionId : string) (s : LLMService) : option PendingOrderOperation :=
  context ← sessionContext s !! sessionId; pendingOrderOperation context.

Definition isWaitingForTermsAcceptance (sessionId : string) (s : LLMService) : bool :=
  match pendingOrder_of sessionId s with
  | Some p => waitingForTermsAcceptance p
  | None => false
  end.

Definition clearPendingOrderContext (sessionId : string) (s : LLMService) : LLMService :=
  match sessionContext s !! sessionId with
  | Some context =>
      match pendingOrderOperation context with
      | Some _ =>
          set_sessionContext
            (<[sessionId := {| pendingOrderOperation := None;
                               orderFlow := orderFlow context |}]> (sessionContext s)) s
      | None => s
      end
  | None => s
  end.

(** *** The order flow *)

Definition orderFlow_of (sessionId : string) (s : LLMService) : option OrderFlow :=
  context ← sessionContext s !! sessionId; orderFlow context.

Definition set_orderFlow (sessionId : string) (context : SessionContext)
    (flow : option OrderFlow) (s : LLMService) : LLMService :=
  set_sessionContext
    (<[sessionId := {| pendingOrderOperation := pendingOrderOperation context;
                       orderFlow := flow |}]> (sessionContext s)) s.

Definition initializeOrderFlow (sessionId : string) (s : LLMService) : LLMService :=
  set_orderFlow sessionId (context_or_new sessionId s)
    (Some {| isActive := true; currentStep := payment;
             collectedData := ∅; availableOptions := ∅ |}) s.

Definition hasActiveOrderFlow (sessionId : string) (s : LLMService) : bool :=
  match orderFlow_of sessionId s with
  | Some flow => isActive flow
  | None => false
  end.

Definition getCurrentOrderStep (sessionId : string) (s : LLMService) : option Step :=
  currentStep <$> orderFlow_of sessionId s.

Definition stepOrder : list Step := [payment; address; delivery; confirmation; complete].

(** [stepOrder.indexOf(x)], [-1] when absent *)
Fixpoint indexOf (l : list Step) (x : Step) : Z :=
  match l with
  | [] => -1
  | y :: l' =>
      if decide (y = x) then 0
      else let i := indexOf l' x in if i <? 0 then -1 else i + 1
  end.

(** The step [advanceOrderStep] assigns, if it assigns one:
    [stepOrder[currentIndex + 1]] when [currentIndex] is found and is
    not the last index *)
Definition advancedStep (currentStep : Step) : option Step :=
  let currentIndex := indexOf stepOrder currentStep in
  if (0 <=? currentIndex) && (currentIndex <? Z.of_nat (length stepOrder) - 1)
  then stepOrder !! Z.to_nat (currentIndex + 1)
  else None.

Definition advanceOrderStep (sessionId : string) (s : LLMService) : LLMService :=
  match sessionContext s !! sessionId with
  | Some context =>
      match orderFlow context with
      | Some flow =>
          match advancedStep (currentStep flow) with
          | Some next =>
              set_orderFlow sessionId context
                (Some {| isActive := isActive flow; currentStep := next;
                         collectedData := collectedData flow;
                         availableOptions := availableOptions flow |}) s
          | None => s
          end
      | None => s
      end
  | None => s
  end.

(** [{ ...collectedData, ...data }]: the keys of [data] win *)
Definition updateOrderFlowData (sessionId : string) (data : jobject) (s : LLMService) : LLMService :=
  match sessionContext s !! sessionId with
  | Some context =>
      match orderFlow context with
      | Some flow =>
          set_orderFlow sessionId context
            (Some {| isActive := isActive flow; currentStep := currentStep flow;
                     collectedData := data ∪ collectedData flow;
                     availableOptions := availableOptions flow |}) s
      | None => s
      end
  | None => s
  end.

Definition clearOrderFlow (sessionId : string) (s : LLMService) : LLMService :=
  match sessionContext s !! sessionId with
  | Some context =>
      match orderFlow context with
      | Some _ => set_orderFlow sessionId context None s
      | None => s
      end
  | None => s
  end.

Definition startOrderFlow := initializeOrderFlow.
Definition cancelOrderFlow := clearOrderFlow.

(** *** The periodic sweep ([cleanupOldSessions], run every five
        minutes by [ChatbotService]) *)

Definition expired (now : Z) (history : list LLMMessage) : bool :=
  match last history with
  | Some lastMessage =>
      match timestamp lastMessage with
      | Some t => SESSION_TIMEOUT <? now - t
      | None => false
      end
  | None => false
  end.

Definition cleanupOldSessions (now : Z) (s : LLMService) : LLMService :=
  set_conversationHistory
    (filter (fun kv => expired now kv.2 = false) (conversationHistory s)) s.

(** ** Availability checks ([checkProviderAvailabilityWithCache])

    A check either answers at once ([of(value)]) or hands out the
    observable of a probe, which settles later.  The probe is counted
    when its observable is made: every caller in the sources that keeps
    the observable subscribes to it, [shareReplay(1)] making all
    subscribers share the one request. *)

Inductive Availability : Type :=
| Immediate (b : bool)
| Shared (obs : nat).

Definition providers_has (p : LLMProviderType) : bool :=
  match p with fallback => false | _ => true end.

Definition probes (s : LLMService) : list (LLMProviderType * nat) :=
  omap (fun e => match e with EvProbe p o => Some (p, o) | _ => None end) (trace s).

(** The last part of the method: a new probe, whose observable is
    cached with the temporary value [false] *)
Definition freshAvailabilityCheck (providerType : LLMProviderType) (now : Z)
    (s : LLMService) : Availability * LLMService :=
  if providers_has providerType then
    let obs := length (probes s) in
    (Shared obs,
     set_availabilityCache
       (<[providerType := {| available := false; lastCheck := now;
                             observable := Some obs |}]> (availabilityCache s))
       (emit (EvProbe providerType obs) s))
  else (Immediate false, s).

Definition checkProviderAvailabilityWithCache (providerType : LLMProviderType) (now : Z)
    (s : LLMService) : Availability * LLMService :=
  let cached := availabilityCache s !! providerType in
  match cached with
  | Some c =>
      if now - lastCheck c <? CACHE_DURATION then (Immediate (available c), s) else
      match observable c with
      | Some obs => (Shared obs, s)
      | None => freshAvailabilityCheck providerType now s
      end
  | None => freshAvailabilityCheck providerType now s
  end.

(** The probe of [providerType] delivers [result] at time [now]
    (the [map] and [catchError] callbacks of the check) *)
Definition availabilitySettled (providerType : LLMProviderType) (result : bool) (now : Z)
    (s : LLMService) : LLMService :=
  set_availabilityCache
    (<[providerType := {| available := result; lastCheck := now; observable := None |}]>
       (availabilityCache s)) s.

(** What a caller sees once the probes have delivered [outcome] *)
Definition observed (a : Availability) (outcome : nat -> bool) : bool :=
  match a with
  | Immediate b => b
  | Shared obs => outcome obs
  end.

(** ** The tool client ([MCPSDKService]) *)

Definition text_part (s : string) : ContentPart :=
  {| part_type := ct_text; part_text := Some s; part_uri := None;
     part_name := None; part_description := None |}.

Module MCP.

Definition configureServer (cfg : MCPServerConfig) (m : MCPSDKService) : MCPSDKService :=
  {| client := client m; serverConfig := Some cfg; availableTools := availableTools m |}.

Definition isReady (m : MCPSDKService) : bool :=
  client m && (0 <? length (availableTools m))%nat.

Definition discoverTools (W : World) (serverId : string) (m : MCPSDKService) : MCPSDKService :=
  if client m then
    {| client := client m; serverConfig := serverConfig m;
       availableTools :=
         match sdk_listTools W with
         | Some tools =>
             map (fun t => {| tool_name := tool_name t;
                              tool_description := tool_description t;
                              tool_serverId := serverId;
                              tool_inputSchema := tool_inputSchema t |}) tools
         | None => []
         end |}
  else m.

(** The client is made before the connection is tried and stays when
    the connection fails. *)
Definition initializeConnection (W : World) (m : MCPSDKService) : bool * MCPSDKService :=
  match serverConfig m with
  | None => (false, m)
  | Some cfg =>
      let m1 := {| client := true; serverConfig := serverConfig m;
                   availableTools := availableTools m |} in
      match server_url cfg with
      | Some url =>
          if sdk_connect W url then
            let m2 := discoverTools W (server_id cfg) m1 in
            ((0 <? length (availableTools m2))%nat, m2)
          else (false, m1)
      | None => (false, m1)
      end
  end.

Definition getToolsForLLM (m : MCPSDKService) : list LLMFunctionDefinition :=
  map (fun tool => {| fd_name := "mcp_" +:+ tool_name tool;
                      fd_description := tool_description tool;
                      fd_parameters := tool_inputSchema tool |})
      (availableTools m).

Definition formatToolResult (result : SdkResult) : MCPToolResult :=
  match result with
  | SdkNothing =>
      {| res_content := [text_part "No result returned from tool"]; res_isError := None |}
  | SdkContent parts isError =>
      {| res_content := parts; res_isError := Some (default false isError) |}
  | SdkString s => {| res_content := [text_part s]; res_isError := None |}
  | SdkOther stringified => {| res_content := [text_part stringified]; res_isError := None |}
  end.

Definition isCartOperation (name : string) : bool :=
  Str.includes name "add-to-cart" || Str.includes name "place-order" ||
  Str.includes name "cart" || Str.includes name "checkout".

Definition inject (key : string) (value : option string) (args : jobject) : jobject :=
  match value with
  | Some v => if Str.truthy v then <[key := JStr v]> args else args
  | None => args
  end.

(** The arguments as sent: site URL, credential and, for cart
    operations, the active cart *)
Definition enhancedArguments (W : World) (toolCall : MCPToolCall) : jobject :=
  let a1 := inject "baseSiteUrl" (window_origin W) (call_arguments toolCall) in
  let a2 := inject "access_token" (access_token W) a1 in
  if isCartOperation (call_name toolCall)
  then inject "cartId" (activeCart_code W) a2
  else a2.

(** [callTool]: the result, and the request made of the tool server
    when there is one *)
Definition callTool (W : World) (m : MCPSDKService) (toolCall : MCPToolCall)
    : Result MCPToolResult * list Event :=
  if negb (client m) then (Err "MCP client not initialized", [])
  else
    let args := enhancedArguments W toolCall in
    (Ok match sdk_callTool W (call_name toolCall) args with
        | SdkOk result => formatToolResult result
        | SdkThrows e =>
            {| res_content :=
                 [text_part ("Error executing tool: " +:+ default "Unknown error" e)];
               res_isError := Some true |}
        end,
     [EvCallTool (call_name toolCall) args]).

End MCP.

(** ** The orchestrator ([LLMService]) *)

Record TurnResult : Type := mkTurnResult {
  response : string;
  sessionId : string
}.

(** [SYSTEM_PROMPT], line by line *)
Definition SYSTEM_PROMPT : string :=
  Str.join Str.nl
    ["You are a helpful AI assistant for Gallo Connect, a modern SAP Commerce (Spartacus) based e-commerce platform. You are knowledgeable, professional, and focused on helping customers with their shopping and account needs.";
     "";
     "**Your Role & Personality:**";
     "- You are the official Gallo Connect AI shopping assistant";
     "- Be helpful, friendly, and professional";
     "- Provide accurate information about products, orders, and services";
     "- When you don't know something specific, acknowledge it and offer alternative ways to help";
     "- Always prioritize customer satisfaction and security";
     "";
     "**Your Capabilities:**";
     "- Access real-time product information from the SAP Commerce backend";
     "- Retrieve order status and history for authenticated users";
     "- Provide shipping and delivery information";
     "- Help with account management (when user is logged in)";
     "- Assist with product recommendations and comparisons";
     "- Guide users through the shopping process";
     "- Answer questions about policies (returns, shipping, etc.)";
     "";
     "**Important Guidelines:**";
     "- Always verify user authentication before accessing personal data (orders, account info)";
     "- Never share or request sensitive information like passwords or payment details";
     "- If you encounter errors or cannot access information, explain clearly and offer alternatives";
     "- Use the available tools to get real-time data rather than making assumptions";
     "- Format responses clearly with bullet points, lists, or structured information when helpful";
     "- Keep responses conversational but informative";
     ("- When providing links to the user, make sure to include the full URL in the response.  The tools may return a URL, but it may not be the full URL.  You can use the baseSiteUrl to construct the full URL.  If providing links to products, you can simply create a " +:+ Str.dquote +:+ "View Product" +:+ Str.dquote +:+ " link that will open the product page in a new tab using the constructed URL.");
     "";
     "**Order Placement Process:**";
     "When a user wants to place an order, follow this structured 4-step process to collect all required information:";
     "";
     "**Step 1 - Payment Information:**";
     ("- Ask for payment type: " +:+ Str.dquote +:+ "Account" +:+ Str.dquote +:+ " or " +:+ Str.dquote +:+ "Credit Card" +:+ Str.dquote);
     ("- Ask for purchase order number (optional): " +:+ Str.dquote +:+ "Would you like to add a purchase order number for this order?" +:+ Str.dquote);
     "- If user says Account payment, proceed to Step 2";
     "- If user says Credit Card, inform them that credit card processing will be handled during checkout";
     "";
     "**Step 2 - Shipping Address:**";
     ("- Use " +:+ Str.dquote +:+ "get-organization-addresses" +:+ Str.dquote +:+ " tool to retrieve saved addresses for the organization");
     ("- Present options: " +:+ Str.dquote +:+ "Please select a shipping address" +:+ Str.dquote +:+ " with numbered list of saved addresses, or " +:+ Str.dquote +:+ "Would you like to use a saved address or enter a new one?" +:+ Str.dquote);
     "- If user wants new address, collect: street, city, state/province, postal code, country";
     "- If no saved addresses available, collect new address information";
     "";
     "**Step 3 - Delivery Mode:**";
     ("- Use " +:+ Str.dquote +:+ "get-delivery-modes" +:+ Str.dquote +:+ " tool to retrieve available delivery options");
     ("- Present options: " +:+ Str.dquote +:+ "Please select your preferred delivery method" +:+ Str.dquote +:+ " with numbered list showing delivery modes and any associated costs");
     ("- Common options are usually " +:+ Str.dquote +:+ "Standard" +:+ Str.dquote +:+ " and " +:+ Str.dquote +:+ "Premium" +:+ Str.dquote +:+ " delivery");
     "";
     "**Step 4 - Order Confirmation:**";
     "- Summarize all collected information: payment method, PO number (if provided), shipping address, delivery mode";
     ("- Ask for final confirmation: " +:+ Str.dquote +:+ "I have all the information needed. Shall I proceed to place your order?" +:+ Str.dquote);
     "- Only call the place order tool after receiving explicit confirmation";
     "";
     "**Important Order Flow Rules:**";
     "- Always collect information in this exact order (Payment → Address → Delivery → Confirmation)";
     "- Don't skip steps even if user provides information out of order - confirm each step";
     "- If user provides information for multiple steps at once, acknowledge it but still walk through each step for confirmation";
     "- Use available tools to provide real options rather than asking open-ended questions";
     "- If any step fails or user changes their mind, restart from that step";
     "";
     "**Terms and Conditions Handling:**";
     "- If a place order operation fails due to terms and conditions requirements, ask the user if they agree to the terms";
     ("- When the user responds with " +:+ Str.dquote +:+ "yes" +:+ Str.dquote +:+ ", " +:+ Str.dquote +:+ "I agree" +:+ Str.dquote +:+ ", " +:+ Str.dquote +:+ "accept" +:+ Str.dquote +:+ ", or similar affirmative responses, retry the place order tool with " +:+ Str.dquote +:+ "termsChecked" +:+ Str.dquote +:+ ": true parameter");
     ("- When the user responds with " +:+ Str.dquote +:+ "no" +:+ Str.dquote +:+ ", " +:+ Str.dquote +:+ "decline" +:+ Str.dquote +:+ ", or similar negative responses, inform them that the order cannot be placed without accepting the terms");
     "- Always be clear about what terms they are agreeing to if that information is available from the error response";
     "";
     "**Context Information:**";
     "- You have access to the current user's site context and authentication status";
     "- You can search products, check inventory, create carts, place orders, and retrieve order information through integrated tools";
     "- The current site is powered by SAP Commerce Cloud with Spartacus storefront";
     "- Base site: {{baseSite}}";
     "- Current URL: {{baseSiteUrl}}";
     "- The current site is a B2B site so when using tools, you need to make sure that the B2B versions of tools are used.  For example, if you need to create a cart, you need to use the B2B create cart tool.";
     "- ONLY use the B2B tools.  Do not use the B2C tools.";
     "";
     "Remember: Always aim to solve the customer's needs efficiently while maintaining a positive, helpful tone. If you need to use tools to get information, explain what you're doing so the user understands the process."].

Definition mcpPrefix : string := "mcp_".

Definition mk_msg (r : Role) (c : string) (now : Z) : LLMMessage :=
  {| role := r; content := c; timestamp := Some now; tool_calls := None; tool_call_id := None |}.

Definition mk_tool_msg (c : string) (id : string) (now : Z) : LLMMessage :=
  {| role := tool; content := c; timestamp := Some now; tool_calls := None;
     tool_call_id := Some id |}.

Definition part_text_or_empty (c : ContentPart) : string := default "" (part_text c).

(** The test of [executeMCPTool] on a tool result: an error of an
    order-placement tool that speaks of terms and of conditions *)
Definition isTermsAndConditionsError (originalName : string) (result : MCPToolResult) : bool :=
  default false (res_isError result) && Str.includes originalName "place-order" &&
  (let errorText := Str.toLowerCase (Str.join " " (map part_text_or_empty (res_content result))) in
   Str.includes errorText "terms" && Str.includes errorText "condition").

(** [session_${Date.now()}_${random}] *)
Definition generateSessionId (now : Z) (rnd : string) : string :=
  "session_" +:+ pretty now +:+ "_" +:+ rnd.

Definition orderKeywords : list string :=
  ["place order"; "place my order"; "checkout"; "complete order"; "finish order"; "buy now"].

Definition isOrderRequest (userMessage : string) : bool :=
  let userMessageLower := Str.toLowerCase userMessage in
  existsb (fun keyword => Str.includes userMessageLower keyword) orderKeywords.

Definition isAccepted (userMessage : string) : bool :=
  let userResponse := Str.trim (Str.toLowerCase userMessage) in
  Str.includes userResponse "yes" || Str.includes userResponse "accept" ||
  Str.includes userResponse "agree" || Str.includes userResponse "ok" ||
  bool_decide (userResponse = "y").

Definition stepName (st : Step) : string :=
  match st with
  | payment => "payment"
  | address => "address"
  | delivery => "delivery"
  | confirmation => "confirmation"
  | complete => "complete"
  end.

Definition refusal : string :=
  "I understand you don't wish to accept the terms and conditions. Unfortunately, I cannot proceed with placing the order without your acceptance of the terms. Is there anything else I can help you with?".

Section Orchestrator.

Context (W : World).

Definition createSystemPrompt (now : Z) : LLMMessage :=
  let currentBaseSite := or_default (baseSite W) "unknown" in
  let currentOrigin := default "unknown" (window_origin W) in
  mk_msg system
    (Str.replace (Str.replace SYSTEM_PROMPT "{{baseSite}}" currentBaseSite)
                 "{{baseSiteUrl}}" currentOrigin) now.

(** [LLMService.formatToolResult] *)
Definition formatContent (c : ContentPart) : string :=
  match part_type c with
  | ct_text => or_default (part_text c) ""
  | ct_resource | ct_resource_link =>
      "📄 Resource: " +:+
      or_default (part_name c) (or_default (part_uri c) "Unknown") +:+ Str.nl +:+
      or_default (part_text c) (or_default (part_description c) "")
  | ct_image => stringify_part W c
  end.

Definition formatToolResult (result : MCPToolResult) : string :=
  if default false (res_isError result) then
    "❌ Tool Error: " +:+ Str.join Str.nl (map part_text_or_empty (res_content result))
  else match res_content result with
       | [] => "✅ Tool executed successfully (no output)"
       | parts =>
           "✅ Tool Result:" +:+ Str.nl +:+
           Str.join (Str.nl +:+ Str.nl) (map formatContent parts)
       end.

(** [provider.generateResponse(messages, undefined, tools)] of the
    adapter registered under [p] *)
Definition provider_generateResponse (p : LLMProviderType) (messages : list LLMMessage)
    (tools : option (list LLMFunctionDefinition)) : M LLMResponse :=
  fun s =>
    let s' := emit (EvGenerate p messages tools) s in
    match p with
    | local => (LocalLLMProvider.generateResponse W (localProvider s) messages tools, s')
    | openai => (OpenAIProvider.generateResponse W (openaiProvider s) messages tools, s')
    | gemini => (GeminiProvider.generateResponse W (geminiProvider s) messages tools, s')
    | fallback => (Err "no provider", s)
    end.

Definition reinitializeMCPConnection : M bool :=
  fun s =>
    match predefinedMCPServers W with
    | [] => (Ok false, s)
    | serverConfig :: _ =>
        let '(success, m) :=
          MCP.initializeConnection W (MCP.configureServer serverConfig (mcpService s)) in
        (Ok success, set_mcpService m s)
    end.

Definition ensureMCPConnection : M bool :=
  ready <- gets (fun s => MCP.isReady (mcpService s)) ;;
  if ready then ret true else reinitializeMCPConnection.

Definition mcp_callTool (toolCall : MCPToolCall) : M MCPToolResult :=
  fun s =>
    let '(r, events) := MCP.callTool W (mcpService s) toolCall in
    (r, fold_left (fun s e => emit e s) events s).

Definition executeMCPTool (toolCall : LLMToolCall) : M MCPToolResult :=
  let functionName := fn_name toolCall in
  if negb (Str.startsWith functionName mcpPrefix)
  then throwError ("Invalid MCP function name: " +:+ functionName)
  else
    let originalName := Str.substring functionName (String.length mcpPrefix) in
    let args := default ∅ (JSON_parse W (fn_arguments toolCall)) in
    let args := MCP.inject "baseSiteId" (baseSite W) args in
    let mcpToolCall := {| call_name := originalName; call_arguments := args;
                          call_serverId := "default" |} in
    connectionHealthy <- ensureMCPConnection ;;
    if negb connectionHealthy
    then throwError "MCP connection could not be established"
    else
      result <- mcp_callTool mcpToolCall ;;
      (if isTermsAndConditionsError originalName result
       then modify (emit (EvLogTermsDetected originalName))
       else ret tt) ;;
      ret result.

(** One entry of the batch: the tool message of the call, carrying
    the formatted result or the description of the failure *)
Definition toolExecution (now : Z) (toolCall : LLMToolCall) : M LLMMessage :=
  catchError
    (result <- executeMCPTool toolCall ;;
     ret (mk_tool_msg (formatToolResult result) (tc_id toolCall) now))
    (fun error =>
       ret (mk_tool_msg ("Error executing tool " +:+ fn_name toolCall +:+ ": " +:+ error)
                        (tc_id toolCall) now)).

(** [Promise.all] over the executions: they interleave at their
    awaits only, the replies of the world depend on the request
    alone, so the results are those of the calls taken in order. *)
Definition executeToolCalls (now : Z) (toolCalls : list LLMToolCall)
    (messages : list LLMMessage) (originalResponse : LLMResponse) : M string :=
  let assistantMessage :=
    {| role := assistant; content := resp_content originalResponse;
       timestamp := Some now; tool_calls := Some toolCalls; tool_call_id := None |} in
  let updatedMessages := (messages ++ [assistantMessage])%list in
  toolResults <- mapM (toolExecution now) toolCalls ;;
  let messagesWithToolResults := (updatedMessages ++ toolResults)%list in
  currentProvider <- gets currentProvider ;;
  if negb (providers_has currentProvider)
  then ret "Tool execution completed, but unable to generate follow-up response."
  else
    catchError
      (followupResponse <- provider_generateResponse currentProvider messagesWithToolResults None ;;
       ret (resp_content followupResponse))
      (fun error =>
         ret ("Tools executed successfully, but follow-up response failed: " +:+ error)).

Definition handleLLMResponse (now : Z) (response : LLMResponse)
    (messages : list LLMMessage) : M string :=
  match resp_tool_calls response with
  | Some (tc :: tcs) => executeToolCalls now (tc :: tcs) messages response
  | _ => ret (resp_content response)
  end.

Definition last_content (messages : list LLMMessage) : string :=
  match last messages with
  | Some m => content m
  | None => ""
  end.

Definition tryFallbackProvider (messages : list LLMMessage)
    (fallbackType : LLMProviderType) : M string :=
  if negb (providers_has fallbackType)
  then ret (getFallbackResponse (last_content messages) None)
  else
    catchError
      (response <- provider_generateResponse fallbackType messages None ;;
       ret (resp_content response))
      (fun _ => ret (getFallbackResponse (last_content messages) None)).

Definition generateResponse (now : Z) (userMessage : string)
    (conversationHistory : list LLMMessage) : M string :=
  config <- gets config ;;
  match config with
  | None => ret (getFallbackResponse userMessage None)
  | Some config =>
      let systemPrompt := createSystemPrompt now in
      let userMsg := mk_msg user userMessage now in
      let messages := (systemPrompt :: conversationHistory ++ [userMsg])%list in
      currentProvider <- gets currentProvider ;;
      if negb (providers_has currentProvider)
      then ret (getFallbackResponse userMessage None)
      else
        catchError
          (ensureMCPConnection ;;
           mcpTools <- gets (fun s => MCP.getToolsForLLM (mcpService s)) ;;
           catchError
             (response <- provider_generateResponse currentProvider messages (Some mcpTools) ;;
              handleLLMResponse now response messages)
             (fun error =>
                match fallbackProvider config with
                | Some fallbackType =>
                    if enableFallback config && bool_decide (fallbackType ≠ currentProvider)
                    then tryFallbackProvider messages fallbackType
                    else ret (getFallbackResponse userMessage (Some error))
                | None => ret (getFallbackResponse userMessage (Some error))
                end))
          (fun error =>
             catchError
               (response <- provider_generateResponse currentProvider messages (Some []) ;;
                handleLLMResponse now response messages)
               (fun providerError =>
                  ret (getFallbackResponse userMessage
                         (Some (error +:+ "; " +:+ providerError)))))
  end.

(** The ordinary path of a turn (the part of
    [generateResponseWithSession] after the terms check) *)
Definition ordinaryTurn (now : Z) (userMessage : string) (sessionId : string) : M TurnResult :=
  (if isOrderRequest userMessage
   then active <- gets (hasActiveOrderFlow sessionId) ;;
        if active then ret tt else modify (initializeOrderFlow sessionId)
   else ret tt) ;;
  conversationHistory <- getConversationHistory sessionId ;;
  let userMsg := mk_msg user userMessage now in
  addToConversationHistory sessionId userMsg ;;
  (* [conversationHistory] is the array that was pushed to *)
  let conversationHistory := pushed conversationHistory userMsg in
  flow <- gets (orderFlow_of sessionId) ;;
  let enhancedHistory :=
    match flow with
    | Some f =>
        if isActive f then
          (conversationHistory ++
           [mk_msg system
              ("[ORDER FLOW CONTEXT] Current step: " +:+ stepName (currentStep f) +:+
               ", Collected data: " +:+ JSON_stringify W (collectedData f) +:+
               ", Available options: " +:+ JSON_stringify W (availableOptions f)) now])%list
        else conversationHistory
    | None => conversationHistory
    end in
  catchError
    (response <- generateResponse now userMessage enhancedHistory ;;
     addToConversationHistory sessionId (mk_msg assistant response now) ;;
     ret {| response := response; sessionId := sessionId |})
    (fun error =>
       addToConversationHistory sessionId
         (mk_msg assistant (getFallbackResponse userMessage (Some error)) now) ;;
       ret {| response := getFallbackResponse userMessage (Some error);
              sessionId := sessionId |}).

(** [handleTermsAcceptanceResponse].  Without a pending operation the
    method re-enters [generateResponseWithSession], which then takes
    the ordinary path ([isWaitingForTermsAcceptance] is false). *)
Definition handleTermsAcceptanceResponse (now : Z) (userMessage : string)
    (sessionId : string) : M TurnResult :=
  pendingOrder <- gets (pendingOrder_of sessionId) ;;
  match pendingOrder with
  | None => ordinaryTurn now userMessage sessionId
  | Some pendingOrder =>
      if isAccepted userMessage then
        modify (clearPendingOrderContext sessionId) ;;
        addToConversationHistory sessionId (mk_msg user userMessage now) ;;
        let original := originalToolCall pendingOrder in
        (* [JSON.parse] is not guarded here: a syntax error leaves the method *)
        match JSON_parse W (fn_arguments original) with
        | None => throwError "SyntaxError"
        | Some parsed =>
            let modifiedToolCall :=
              {| tc_id := tc_id original; fn_name := fn_name original;
                 fn_arguments :=
                   JSON_stringify W (<["termsChecked" := JBool true]> parsed) |} in
            catchError
              (result <- executeMCPTool modifiedToolCall ;;
               let text := "Thank you for accepting the terms and conditions. " +:+
                           formatToolResult result in
               addToConversationHistory sessionId (mk_msg assistant text now) ;;
               ret {| response := text; sessionId := sessionId |})
              (fun error =>
                 let errorResponse :=
                   "I've processed your acceptance of the terms, but encountered an error while placing the order: "
                   +:+ error in
                 addToConversationHistory sessionId (mk_msg assistant errorResponse now) ;;
                 ret {| response := errorResponse; sessionId := sessionId |})
        end
      else
        modify (clearPendingOrderContext sessionId) ;;
        addToConversationHistory sessionId (mk_msg user userMessage now) ;;
        addToConversationHistory sessionId (mk_msg assistant refusal now) ;;
        ret {| response := refusal; sessionId := sessionId |}
  end.

(** The session a turn runs in: the given one, or a new one when the
    argument is missing or empty *)
Definition effectiveSessionId (now : Z) (rnd : string) (sessionId : option string) : string :=
  match sessionId with
  | Some id => if Str.truthy id then id else generateSessionId now rnd
  | None => generateSessionId now rnd
  end.

Definition generateResponseWithSession (now : Z) (rnd : string) (userMessage : string)
    (sessionId : option string) : M TurnResult :=
  let sessionId := effectiveSessionId now rnd sessionId in
  waiting <- gets (isWaitingForTermsAcceptance sessionId) ;;
  if waiting
  then handleTermsAcceptanceResponse now userMessage sessionId
  else ordinaryTurn now userMessage sessionId.

End Orchestrator.

(** The service as the field initialisers of the classes leave it *)
Definition initial : LLMService :=
  {| currentProvider := fallback; config := None;
     localProvider := LocalLLMProvider.default_config;
     openaiProvider := OpenAIProvider.default_config;
     geminiProvider := GeminiProvider.default_config;
     availabilityCache := ∅; conversationHistory := ∅; sessionContext := ∅;
     mcpService := {| client := false; serverConfig := None; availableTools := [] |};
     trace := [] |}.

(** ** A small world and service for running the model *)

Module Demo.

Definition placeOrderTool : MCPTool :=
  {| tool_name := "place-order"; tool_description := "Places the order of the active cart";
     tool_serverId := "sap"; tool_inputSchema := JObj [] |}.

Definition searchTool : MCPTool :=
  {| tool_name := "search-products"; tool_description := "Searches the catalog";
     tool_serverId := "sap"; tool_inputSchema := JObj [] |}.

Definition placeOrderCall : LLMToolCall :=
  {| tc_id := "call_1"; fn_name := "mcp_place-order"; fn_arguments := "{}" |}.

Definition searchCall : LLMToolCall :=
  {| tc_id := "call_2"; fn_name := "mcp_search-products"; fn_arguments := "{}" |}.

Definition unprefixedCall : LLMToolCall :=
  {| tc_id := "call_3"; fn_name := "place-order"; fn_arguments := "{}" |}.

Definition termsError : string := "Order requires terms and conditions acceptance".

(** The model asks for the tools as long as it has seen no tool
    message, and answers in text afterwards. *)
Definition has_tool_message (messages : list LLMMessage) : bool :=
  existsb (fun m => bool_decide (role m = tool)) messages.

Definition reply (calls : list LLMToolCall) (request : HttpRequest) : HttpReply :=
  match req_body request with
  | OpenAIChatRequest b =>
      if has_tool_message (cr_messages b)
      then HttpOK {| choices0_content := Some "Your order needs your consent.";
                     choices0_tool_calls := Some calls; choices0_finish_reason := Some "stop";
                     payload_model := None; payload_response := None; payload_done := true;
                     candidates0_text := None; candidates0_finishReason := None |}
      else HttpOK {| choices0_content := None;
                     choices0_tool_calls := Some calls; choices0_finish_reason := Some "tool_calls";
                     payload_model := None; payload_response := None; payload_done := true;
                     candidates0_text := None; candidates0_finishReason := None |}
  | GeminiGenerateRequest _ =>
      HttpOK {| choices0_content := None; choices0_tool_calls := None;
                choices0_finish_reason := None; payload_model := None;
                payload_response := None; payload_done := true;
                candidates0_text := Some "Your order is on its way.";
                candidates0_finishReason := Some "STOP" |}
  | OllamaGenerateRequest _ => HttpFailure (Some 503)
  end.

(** A toy JSON codec over objects without values but [termsChecked] *)
Definition parse (text : string) : option jobject :=
  if bool_decide (text = "{}") then Some ∅
  else if bool_decide (text = "{termsChecked}") then Some {["termsChecked" := JBool true]}
  else None.

Definition stringify (o : jobject) : string :=
  "{" +:+ Str.join "," (map fst (map_to_list o)) +:+ "}".

Definition world (calls : list LLMToolCall) : World :=
  {| JSON_parse := parse;
     JSON_stringify := stringify;
     http_post := reply calls;
     baseSite := Some "powertools-spa";
     window_origin := Some "https://localhost:4200";
     access_token := None;
     activeCart_code := Some "00001";
     predefinedMCPServers := [];
     sdk_connect := fun _ => true;
     sdk_listTools := Some [placeOrderTool; searchTool];
     sdk_callTool := fun name _ =>
       if Str.includes name "place-order"
       then SdkOk (SdkContent [text_part termsError] (Some true))
       else SdkThrows (Some "network error");
     stringify_part := fun _ => "{}" |}.

Definition serviceConfig : LLMServiceConfig :=
  {| primaryProvider := openai; fallbackProvider := None; enableFallback := false;
     providers_config := fun _ => None |}.

(** OpenAI is active and configured, the tool client is connected *)
Definition connected : LLMService :=
  {| currentProvider := openai; config := Some serviceConfig;
     localProvider := LocalLLMProvider.default_config;
     openaiProvider := configure OpenAIProvider.default_config
                         {| apiKey := Some "sk-test"; apiUrl := None; model := None;
                            maxTokens := None; timeout := None; apiType := None |};
     geminiProvider := GeminiProvider.default_config;
     availabilityCache := ∅; conversationHistory := ∅; sessionContext := ∅;
     mcpService := {| client := true; serverConfig := None;
                      availableTools := [placeOrderTool; searchTool] |};
     trace := [] |}.

End Demo.

(** ** Relations between the states before and after a computation *)

Definition frames (R : relation LLMService) {A} (m : M A) : Prop :=
  forall s, R s (m s).2.

(** Everything but the tool client and the record of calls *)
Definition untouched (s s' : LLMService) : Prop :=
  currentProvider s' = currentProvider s /\ config s' = config s /\
  localProvider s' = localProvider s /\ openaiProvider s' = openaiProvider s /\
  geminiProvider s' = geminiProvider s /\
  availabilityCache s' = availabilityCache s /\
  conversationHistory s' = conversationHistory s /\
  sessionContext s' = sessionContext s.

(** The bound as an invariant of the store *)
Definition capped (s : LLMService) : Prop :=
  forall sessionId history,
    conversationHistory s !! sessionId = Some history ->
    (length history <= MAX_CONVERSATION_LENGTH)%nat.

Definition keeps_capped (s s' : LLMService) : Prop := capped s -> capped s'.

Definition C3_system : LLMMessage := mk_msg system "grounding" 0.
Definition C3_user : LLMMessage := mk_msg user "hi" 1.


(** The calls made of the providers and of the tool server, read off
    the record *)
Definition is_generate (e : Event) : bool :=
  match e with EvGenerate _ _ _ => true | _ => false end.

Definition generations (s : LLMService) : list Event := List.filter is_generate (trace s).

Definition dispatched (s : LLMService) : list string :=
  omap (fun e => match e with EvCallTool name _ => Some name | _ => None end) (trace s).

Definition same_generations (s s' : LLMService) : Prop := generations s' = generations s.

(** A batch of tool calls, call by call: each call is run by
    [executeMCPTool] and leaves one tool message, the formatted result
    or the description of its failure. *)
Inductive batch (W : World) (now : Z) :
  LLMService -> list LLMToolCall -> list LLMMessage -> LLMService -> Prop :=
| batch_nil s : batch W now s [] [] s
| batch_result s toolCall result s1 toolCalls messages s2 :
    executeMCPTool W toolCall s = (Ok result, s1) ->
    batch W now s1 toolCalls messages s2 ->
    batch W now s (toolCall :: toolCalls)
      (mk_tool_msg (formatToolResult W result) (tc_id toolCall) now :: messages) s2
| batch_error s toolCall error s1 toolCalls messages s2 :
    executeMCPTool W toolCall s = (Err error, s1) ->
    batch W now s1 toolCalls messages s2 ->
    batch W now s (toolCall :: toolCalls)
      (mk_tool_msg ("Error executing tool " +:+ fn_name toolCall +:+ ": " +:+ error)
                   (tc_id toolCall) now :: messages) s2.

(** The assistant message that opens the tool round *)
Definition assistantToolMessage (now : Z) (toolCalls : list LLMToolCall)
    (originalResponse : LLMResponse) : LLMMessage :=
  {| role := assistant; content := resp_content originalResponse;
     timestamp := Some now; tool_calls := Some toolCalls; tool_call_id := None |}.


(** The retried call of the accept branch: the stored call with
    [termsChecked: true] put into its parsed arguments *)
Definition termsCheckedCall (W : World) (original : LLMToolCall) (parsed : jobject) : LLMToolCall :=
  {| tc_id := tc_id original; fn_name := fn_name original;
     fn_arguments := JSON_stringify W (<["termsChecked" := JBool true]> parsed) |}.

(** The text the accept branch answers with *)
Definition acceptanceText (W : World) (outcome : Result MCPToolResult) : string :=
  match outcome with
  | Ok result =>
      "Thank you for accepting the terms and conditions. " +:+ formatToolResult W result
  | Err error =>
      "I've processed your acceptance of the terms, but encountered an error while placing the order: "
      +:+ error
  end.

(** No session starts awaiting a terms decision *)
Definition no_new_interrupt (s s' : LLMService) : Prop :=
  forall sessionId,
    isWaitingForTermsAcceptance sessionId s' = true ->
    isWaitingForTermsAcceptance sessionId s = true.

(** A session that awaits the decision on the stored call *)
Definition C2_waiting : LLMService :=
  setPendingOrderContext "s1" Demo.placeOrderCall (Some Demo.termsError) Demo.connected.

Definition C6_response : LLMResponse :=
  {| resp_content := ""; resp_model := None; resp_finish_reason := Some "tool_calls";
     resp_tool_calls := Some [Demo.placeOrderCall; Demo.unprefixedCall] |}.

(** The operations on the order flow of a session *)
Inductive FlowOp : Type :=
| OpAdvance
| OpUpdate (data : jobject)
| OpStart
| OpCancel
| OpClearSession.

Definition applyOp (sessionId : string) (op : FlowOp) (s : LLMService) : LLMService :=
  match op with
  | OpAdvance => advanceOrderStep sessionId s
  | OpUpdate data => updateOrderFlowData sessionId data s
  | OpStart => startOrderFlow sessionId s
  | OpCancel => cancelOrderFlow sessionId s
  | OpClearSession => clearConversationHistory sessionId s
  end.

Definition applyOps (sessionId : string) (ops : list FlowOp) (s : LLMService) : LLMService :=
  fold_left (fun s op => applyOp sessionId op s) ops s.

Definition is_start (op : FlowOp) : bool :=
  match op with OpStart => true | _ => false end.

(** The place of a step in the fixed sequence *)
Definition rank (st : Step) : nat :=
  match st with
  | payment => 0
  | address => 1
  | delivery => 2
  | confirmation => 3
  | complete => 4
  end.

Definition nextStep (st : Step) : Step :=
  match st with
  | payment => address
  | address => delivery
  | delivery => confirmation
  | confirmation => complete
  | complete => complete
  end.

(** An operation that takes the step of a flow neither backwards nor
    over a step *)
Definition step_monotone (sessionId : string) (op : FlowOp) (s : LLMService) : Prop :=
  forall a b,
    getCurrentOrderStep sessionId s = Some a ->
    getCurrentOrderStep sessionId (applyOp sessionId op s) = Some b ->
    (rank a <= rank b <= rank a + 1)%nat.

(** An active flow is left as it is *)
Definition keeps_active_flows (s s' : LLMService) : Prop :=
  forall sessionId,
    hasActiveOrderFlow sessionId s = true ->
    orderFlow_of sessionId s' = orderFlow_of sessionId s.

(** A flow that was started and advanced once *)
Definition C8_at_address : LLMService :=
  advanceOrderStep "s1" (startOrderFlow "s1" initial).

(** A session with a history and an order flow, made by a turn at
    time 0 while no provider is active *)
Definition C9_session : LLMService :=
  (generateResponseWithSession (Demo.world []) 0 "r" "I want to place my order" (Some "s1")
     initial).2.

Definition C9_later : Z := SESSION_TIMEOUT + 1.

(** The tools of the demo as the model is shown them *)
Definition C7_tools : list LLMFunctionDefinition :=
  MCP.getToolsForLLM (mcpService Demo.connected).

Definition C7_messages : list LLMMessage := [mk_msg user "Where is my order?" 7].

Definition C7_gemini : LLMConfig :=
  configure GeminiProvider.default_config
    {| apiKey := Some "key"; apiUrl := None; model := None;
       maxTokens := None; timeout := None; apiType := None |}.


(** * Further parts of the services *)

(** ** [LLMService]: summaries and the two halves of a turn *)

Record ConversationSummary : Type := mkSummary {
  messageCount : nat;
  systemPrompt : bool;
  lastActivity : option Z
}.

Definition getConversationSummary (sessionId : string) (s : LLMService) : ConversationSummary :=
  let history := default [] (conversationHistory s !! sessionId) in
  {| messageCount := length history;
     systemPrompt := existsb (fun msg => is_system (role msg)) history;
     lastActivity := match last history with
                     | Some lastMessage => timestamp lastMessage
                     | None => None
                     end |}.

Record OrderFlowSummary : Type := mkFlowSummary {
  sum_isActive : bool;
  sum_currentStep : option Step;
  sum_collectedData : jobject;
  sum_availableOptions : jobject
}.

Definition getOrderFlowSummary (sessionId : string) (s : LLMService) : OrderFlowSummary :=
  let flow := orderFlow_of sessionId s in
  {| sum_isActive := default false (isActive <$> flow);
     sum_currentStep := currentStep <$> flow;
     sum_collectedData := default ∅ (collectedData <$> flow);
     sum_availableOptions := default ∅ (availableOptions <$> flow) |}.

(** The order-initiation check that opens [ordinaryTurn] *)
Definition orderDetection (userMessage : string) (sessionId : string) : M unit :=
  if isOrderRequest userMessage
  then active <- gets (hasActiveOrderFlow sessionId) ;;
       if active then ret tt else modify (initializeOrderFlow sessionId)
  else ret tt.

(** The order-flow context message of a request *)
Definition orderContextMessage (W : World) (now : Z) (f : OrderFlow) : LLMMessage :=
  mk_msg system
    ("[ORDER FLOW CONTEXT] Current step: " +:+ stepName (currentStep f) +:+
     ", Collected data: " +:+ JSON_stringify W (collectedData f) +:+
     ", Available options: " +:+ JSON_stringify W (availableOptions f)) now.

(** The history handed to [generateResponse]: the pushed array, with
    the order-flow context behind it while a flow is active *)
Definition enhancedHistory (W : World) (now : Z) (conversationHistory : list LLMMessage)
    (flow : option OrderFlow) : list LLMMessage :=
  match flow with
  | Some f =>
      if isActive f
      then (conversationHistory ++ [orderContextMessage W now f])%list
      else conversationHistory
  | None => conversationHistory
  end.

(** [ordinaryTurn] after the order-initiation check *)
Definition conversationStep (W : World) (now : Z) (userMessage : string)
    (sessionId : string) : M TurnResult :=
  conversationHistory <- getConversationHistory sessionId ;;
  let userMsg := mk_msg user userMessage now in
  addToConversationHistory sessionId userMsg ;;
  let conversationHistory := pushed conversationHistory userMsg in
  flow <- gets (orderFlow_of sessionId) ;;
  catchError
    (response <- generateResponse W now userMessage
                   (enhancedHistory W now conversationHistory flow) ;;
     addToConversationHistory sessionId (mk_msg assistant response now) ;;
     ret {| response := response; sessionId := sessionId |})
    (fun error =>
       addToConversationHistory sessionId
         (mk_msg assistant (getFallbackResponse userMessage (Some error)) now) ;;
       ret {| response := getFallbackResponse userMessage (Some error);
              sessionId := sessionId |}).

(** ** Ways of speaking about computations *)

(** A computation that lets no exception out *)
Definition succeeds {A} (m : M A) : Prop :=
  forall s, exists a, (m s).1 = Ok a.

(** From a state in [P], the computation returns in [Q] or fails in [E] *)
Definition triple {A} (P : LLMService -> Prop) (m : M A)
    (Q : A -> LLMService -> Prop) (E : string -> LLMService -> Prop) : Prop :=
  forall s, P s ->
    match m s with
    | (Ok a, s') => Q a s'
    | (Err e, s') => E e s'
    end.

(** The stored history of the session ends with the messages [tail] *)
Definition history_ends (sessionId : string) (tail : list LLMMessage) (s : LLMService) : Prop :=
  exists front, history_of sessionId s = (front ++ tail)%list.

(** The record of calls only grows *)
Definition trace_extends (s s' : LLMService) : Prop :=
  exists events, trace s' = (trace s ++ events)%list.

(** The sessions other than [sessionId] are as they were *)
Definition others_same (sessionId : string) (s s' : LLMService) : Prop :=
  forall other, other <> sessionId ->
    conversationHistory s' !! other = conversationHistory s !! other /\
    sessionContext s' !! other = sessionContext s !! other.

(** Stored histories hold the dialogue only: user and assistant messages *)
Definition is_dialogue (m : LLMMessage) : bool :=
  match role m with user | assistant => true | _ => false end.

Definition only_dialogue (s : LLMService) : Prop :=
  forall sessionId history,
    conversationHistory s !! sessionId = Some history ->
    forallb is_dialogue history = true.

Definition keeps_only_dialogue (s s' : LLMService) : Prop :=
  only_dialogue s -> only_dialogue s'.

(** A history of twenty-one messages whose system message is among the
    last nineteen *)
Definition X_late_system : list LLMMessage :=
  (replicate 10 C3_user ++ C3_system :: replicate 10 C3_user)%list.

(** A session that awaits the decision on a call whose arguments are
    not JSON *)
Definition X_malformedCall : LLMToolCall :=
  {| tc_id := "call_9"; fn_name := "mcp_place-order"; fn_arguments := "{cartId:" |}.

Definition X_waiting_malformed : LLMService :=
  setPendingOrderContext "s1" X_malformedCall None Demo.connected.

(** Two sessions side by side *)
Definition X_two_sessions : LLMService :=
  (generateResponseWithSession (Demo.world []) 10 "r" "checkout please" (Some "s2")
     C2_waiting).2.

(** The turn was answered in [session]: the result names the session,
    whose stored history ends with the utterance and the answer *)
Definition answered (now : Z) (userMessage : string) (session : string)
    (r : TurnResult) (s : LLMService) : Prop :=
  sessionId r = session /\
  history_ends session [mk_msg user userMessage now; mk_msg assistant (response r) now] s.

(** The state after the order-initiation check *)
Definition afterDetection (userMessage sessionId : string) (s : LLMService) : LLMService :=
  if isOrderRequest userMessage && negb (hasActiveOrderFlow sessionId s)
  then initializeOrderFlow sessionId s
  else s.

(** The messages of the first request of an ordinary turn: the system
    prompt, the stored history with the utterance pushed, the order-flow
    context if a flow is active, and the utterance *)
Definition requestMessages (W : World) (now : Z) (userMessage : string)
    (stored : list LLMMessage) (flow : option OrderFlow) : list LLMMessage :=
  let userMsg := mk_msg user userMessage now in
  (createSystemPrompt W now :: enhancedHistory W now (pushed stored userMsg) flow ++ [userMsg])%list.

(** The record of calls continues [base] with a request of [p] over
    [messages], with some tool definitions *)
Definition requested (base : list Event) (p : LLMProviderType) (messages : list LLMMessage)
    (s : LLMService) : Prop :=
  exists tools events,
    trace s = (base ++ EvGenerate p messages (Some tools) :: events)%list.

(** ** Order flows under turns *)

(** The flow that [initializeOrderFlow] stores *)
Definition freshFlow : OrderFlow :=
  {| isActive := true; currentStep := payment; collectedData := ∅; availableOptions := ∅ |}.

Definition same_flows (s s' : LLMService) : Prop :=
  forall sid, orderFlow_of sid s' = orderFlow_of sid s.

(** The input of one turn: the clock, the random part of a new session
    id, the utterance and the session id given *)
Record Turn : Type := mkTurn {
  turn_now : Z;
  turn_rnd : string;
  turn_message : string;
  turn_session : option string
}.

(** The service after one turn, whether the turn returned or threw *)
Definition afterTurn (W : World) (s : LLMService) (t : Turn) : LLMService :=
  (generateResponseWithSession W (turn_now t) (turn_rnd t) (turn_message t)
     (turn_session t) s).2.

Definition runTurns (W : World) (inputs : list Turn) (s : LLMService) : LLMService :=
  fold_left (afterTurn W) inputs s.

(** Every stored flow is as [initializeOrderFlow] made it *)
Definition only_fresh_flows (s : LLMService) : Prop :=
  forall sid f, orderFlow_of sid s = Some f -> f = freshFlow.

Definition X_three_turns : list Turn :=
  [ {| turn_now := 5; turn_rnd := "r"; turn_message := "checkout"; turn_session := Some "s1" |};
    {| turn_now := 6; turn_rnd := "r"; turn_message := "Account"; turn_session := Some "s1" |};
    {| turn_now := 7; turn_rnd := "r"; turn_message := "place my order"; turn_session := None |} ].

(** ** Failing providers *)

(** What the adapter registered under [p] answers to a request *)
Definition adapterAnswer (W : World) (s : LLMService) (p : LLMProviderType)
    (messages : list LLMMessage) (tools : option (list LLMFunctionDefinition))
    : Result LLMResponse :=
  (provider_generateResponse W p messages tools s).1.

(** The tool definitions of a request: those of the tool client after
    the connection check *)
Definition toolsOffered (W : World) (s : LLMService) : list LLMFunctionDefinition :=
  MCP.getToolsForLLM (mcpService (ensureMCPConnection W s).2).

(** The local model is active, Gemini is the provider to fall back to *)
Definition X_failover_config : LLMServiceConfig :=
  {| primaryProvider := local; fallbackProvider := Some gemini; enableFallback := true;
     providers_config := fun _ => None |}.

Definition X_local_active : LLMService :=
  {| currentProvider := local; config := Some X_failover_config;
     localProvider := LocalLLMProvider.default_config;
     openaiProvider := OpenAIProvider.default_config;
     geminiProvider := C7_gemini;
     availabilityCache := ∅; conversationHistory := ∅; sessionContext := ∅;
     mcpService := {| client := true; serverConfig := None;
                      availableTools := [Demo.placeOrderTool; Demo.searchTool] |};
     trace := [] |}.

(** Between [s] and [s'] at most [n] requests are made of providers *)
Definition asks (n : nat) (s s' : LLMService) : Prop :=
  exists new, generations s' = (generations s ++ new)%list /\ (length new <= n)%nat.

(** ** The tool client *)

(** The call that [executeMCPTool] hands to the tool client for the
    tool [originalName]: the parsed arguments, or none when they do not
    parse, with the base site put in *)
Definition mcpToolCall (W : World) (originalName : string) (arguments : string) : MCPToolCall :=
  {| call_name := originalName;
     call_arguments := MCP.inject "baseSiteId" (baseSite W) (default ∅ (JSON_parse W arguments));
     call_serverId := "default" |}.


(** A tool client that knows tools of an earlier connection *)
Definition X_stale : MCPSDKService :=
  {| client := true;
     serverConfig := Some {| server_id := "sap"; server_name := "SAP Commerce";
                             server_url := Some "https://mcp.example"; server_enabled := true |};
     availableTools := [Demo.placeOrderTool] |}.

(** A world whose tool server cannot be reached *)
Definition X_unreachable : World :=
  {| JSON_parse := Demo.parse;
     JSON_stringify := Demo.stringify;
     http_post := Demo.reply [];
     baseSite := Some "powertools-spa";
     window_origin := Some "https://localhost:4200";
     access_token := Some "token-1";
     activeCart_code := Some "00001";
     predefinedMCPServers := [{| server_id := "sap"; server_name := "SAP Commerce";
                                 server_url := Some "https://mcp.example";
                                 server_enabled := true |}];
     sdk_connect := fun _ => false;
     sdk_listTools := None;
     sdk_callTool := fun _ _ => SdkThrows (Some "Not connected");
     stringify_part := fun _ => "{}" |}.

(** The class invariant of the tool client: without a client object it
    knows no tools *)
Definition tools_need_client (m : MCPSDKService) : Prop :=
  client m = false -> availableTools m = [].

(** The service of [Demo.connected] before any connection *)
Definition X_disconnected : LLMService :=
  set_mcpService {| client := false; serverConfig := None; availableTools := [] |}
    Demo.connected.

(** ** The availability cache *)

Definition clearAvailabilityCache (s : LLMService) : LLMService :=
  set_availabilityCache ∅ s.

Definition clearProviderAvailabilityCache (providerType : LLMProviderType)
    (s : LLMService) : LLMService :=
  set_availabilityCache (delete providerType (availabilityCache s)) s.

(** ** Words in utterances *)

(** The string is not empty and its last character is no white space *)
Fixpoint ends_nonspace (p : string) : bool :=
  match p with
  | EmptyString => false
  | String c EmptyString => negb (Str.is_space c)
  | String _ p' => ends_nonspace p'
  end.

Definition starts_nonspace (p : string) : bool :=
  match p with
  | EmptyString => false
  | String c _ => negb (Str.is_space c)
  end.

Definition acceptanceWords : list string := ["yes"; "accept"; "agree"; "ok"].

(** The answer of the rule-based responder on orders and deliveries *)
Definition orderAnswer : string :=
  "For order-related inquiries, you can check your order status in your account dashboard. If you need help tracking a shipment or have questions about delivery times, I can guide you through the process. What specific information do you need?".

(** ** The chat window ([ChatbotService]) *)

Module ChatbotService.

Inductive Sender : Type := user_sender | bot_sender.

Record ChatMessage : Type := mkChatMessage {
  msg_id : string;
  msg_text : string;
  msg_sender : Sender;
  msg_timestamp : Z
}.

Record ChatbotState : Type := mkChatbotState {
  isOpen : bool;
  messages : list ChatMessage;
  isTyping : bool;
  state_sessionId : option string
}.

(** [Date.now()] and the random part of an id, at one moment *)
Record Moment : Type := mkMoment {
  clock : Z;
  random : string
}.

Definition generateMessageId (t : Moment) : string :=
  "msg_" +:+ pretty (clock t) +:+ "_" +:+ random t.

Definition addMessage (message : ChatMessage) (currentState : ChatbotState) : ChatbotState :=
  {| isOpen := isOpen currentState;
     messages := messages currentState ++ [message];
     isTyping := isTyping currentState;
     state_sessionId := state_sessionId currentState |}.

Definition setTyping (typing : bool) (currentState : ChatbotState) : ChatbotState :=
  {| isOpen := isOpen currentState;
     messages := messages currentState;
     isTyping := typing;
     state_sessionId := state_sessionId currentState |}.

Definition welcomeMessage (t : Moment) : ChatMessage :=
  {| msg_id := generateMessageId t; msg_text := "Hello! How can I help you today?";
     msg_sender := bot_sender; msg_timestamp := clock t |}.

Definition initializeChat (t : Moment) (currentState : ChatbotState) : ChatbotState :=
  addMessage (welcomeMessage t) currentState.

(** The state the constructor leaves *)
Definition created (t : Moment) : ChatbotState :=
  initializeChat t {| isOpen := false; messages := []; isTyping := false;
                      state_sessionId := None |}.

Definition toggleChat (currentState : ChatbotState) : ChatbotState :=
  {| isOpen := negb (isOpen currentState);
     messages := messages currentState;
     isTyping := isTyping currentState;
     state_sessionId := state_sessionId currentState |}.

Definition closeChat (currentState : ChatbotState) : ChatbotState :=
  {| isOpen := false;
     messages := messages currentState;
     isTyping := isTyping currentState;
     state_sessionId := state_sessionId currentState |}.

Definition userMessage (t : Moment) (text : string) : ChatMessage :=
  {| msg_id := generateMessageId t; msg_text := Str.trim text;
     msg_sender := user_sender; msg_timestamp := clock t |}.

(** [sendMessage]: the new state, and the text the timer will ask the
    orchestrator about, if any *)
Definition sendMessage (t : Moment) (text : string) (currentState : ChatbotState)
    : ChatbotState * option string :=
  if negb (Str.truthy (Str.trim text)) then (currentState, None)
  else (setTyping true (addMessage (userMessage t text) currentState), Some (Str.trim text)).

Definition botMessage (t : Moment) (result : TurnResult) : ChatMessage :=
  {| msg_id := generateMessageId t; msg_text := response result;
     msg_sender := bot_sender; msg_timestamp := clock t |}.

Definition errorMessage (t : Moment) : ChatMessage :=
  {| msg_id := generateMessageId t;
     msg_text := "I apologize, but I'm having trouble processing your request right now. Please try again or contact our support team at support@galloconnect.com.";
     msg_sender := bot_sender; msg_timestamp := clock t |}.

(** The callbacks of [generateBotResponse].  [currentState] is the state
    read when the request was made; [arrival] is the state of the chat
    when the answer arrives. *)
Definition answerArrived (t : Moment) (currentState : ChatbotState)
    (result : Result TurnResult) (arrival : ChatbotState) : ChatbotState :=
  match result with
  | Ok result =>
      if negb (opt_truthy (state_sessionId currentState))
      then {| isOpen := isOpen currentState;
              messages := messages currentState ++ [botMessage t result];
              isTyping := false;
              state_sessionId := Some (sessionId result) |}
      else addMessage (botMessage t result) (setTyping false arrival)
  | Err _ => addMessage (errorMessage t) (setTyping false arrival)
  end.

(** [generateBotResponse], the answer arriving before anything else
    happens to the chat *)
Definition generateBotResponse (W : World) (asked answered : Moment) (text : string)
    (currentState : ChatbotState) (llm : LLMService) : ChatbotState * LLMService :=
  let turn := generateResponseWithSession W (clock asked) (random asked) text
                (state_sessionId currentState) llm in
  (answerArrived answered currentState turn.1 currentState, turn.2).

Definition clearMessages (t : Moment) (currentState : ChatbotState) (llm : LLMService)
    : ChatbotState * LLMService :=
  (initializeChat t {| isOpen := isOpen currentState; messages := [];
                       isTyping := isTyping currentState; state_sessionId := None |},
   match state_sessionId currentState with
   | Some id => if Str.truthy id then clearConversationHistory id llm else llm
   | None => llm
   end).

(** One exchange that runs to its end: the user sends [typed], the
    timer fires, the answer arrives *)
Record Exchange : Type := mkExchange {
  sent : Moment;
  asked : Moment;
  answered : Moment;
  typed : string
}.

Definition exchange (W : World) (x : Exchange) (currentState : ChatbotState)
    (llm : LLMService) : ChatbotState * LLMService :=
  match sendMessage (sent x) (typed x) currentState with
  | (waiting, Some text) => generateBotResponse W (asked x) (answered x) text waiting llm
  | (same, None) => (same, llm)
  end.

End ChatbotService.

(** A chat that has just been opened, and the moments of an exchange *)
Definition X_opened : ChatbotService.ChatbotState :=
  ChatbotService.toggleChat
    (ChatbotService.created {| ChatbotService.clock := 1; ChatbotService.random := "a" |}).

Definition X_exchange (typed : string) : ChatbotService.Exchange :=
  {| ChatbotService.sent := {| ChatbotService.clock := 10; ChatbotService.random := "b" |};
     ChatbotService.asked := {| ChatbotService.clock := 1010; ChatbotService.random := "c" |};
     ChatbotService.answered := {| ChatbotService.clock := 1500; ChatbotService.random := "d" |};
     ChatbotService.typed := typed |}.

(** ** The configuration as shipped ([ChatbotConfigService]) and the
       constructor of [LLMService] *)

Module ChatbotConfigService.

(** [loadConfiguration().llmConfig.forcedProvider] *)
Definition forcedProvider (isDevelopment : bool) : option LLMProviderType :=
  if isDevelopment then None else Some local.


Definition getForcedLLMProvider (isDevelopment : bool) : option LLMProviderType :=
  forcedProvider isDevelopment.



End ChatbotConfigService.




(** [initializeMCPServers], once the connection has been tried *)
Definition initializeMCPServers (W : World) (s : LLMService) : LLMService :=
  match predefinedMCPServers W with
  | [] => s
  | serverConfig :: _ =>
      set_mcpService
        (MCP.initializeConnection W (MCP.configureServer serverConfig (mcpService s))).2 s
  end.


(** The provider, the configuration and the adapters' settings *)
Definition same_setup (s s' : LLMService) : Prop :=
  currentProvider s' = currentProvider s /\ config s' = config s /\
  localProvider s' = localProvider s /\ openaiProvider s' = openaiProvider s /\
  geminiProvider s' = geminiProvider s.


(** ** Setting up the tool client ([ChatbotInitializationService] and
       the methods of [MCPSDKService] it calls) *)

Module ChatbotInitializationService.

(** [MCPSDKService.addServerConfiguration] *)
Definition addServerConfiguration (config : MCPServerConfig) (m : MCPSDKService) : MCPSDKService :=
  MCP.configureServer config m.

(** [MCPSDKService.connect]: its answer is "connected" whatever the
    connection did *)
Definition connect (W : World) (config : MCPServerConfig) (m : MCPSDKService) : MCPSDKService :=
  (MCP.initializeConnection W (MCP.configureServer config m)).2.

Definition initializeMCPServers (W : World) (m : MCPSDKService) : MCPSDKService :=
  let predefinedServers := predefinedMCPServers W in
  match predefinedServers with
  | [] => m
  | _ =>
      let added := fold_left (fun m serverConfig => addServerConfiguration serverConfig m)
                             predefinedServers m in
      let enabledServers := List.filter server_enabled predefinedServers in
      fold_left (fun m serverConfig => connect W serverConfig m) enabledServers added
  end.

Record State : Type := mkState {
  isInitialized : bool;
  mcp : MCPSDKService
}.

Definition initialize (W : World) (st : State) : State :=
  if isInitialized st then st
  else {| isInitialized := true; mcp := initializeMCPServers W (mcp st) |}.

Definition reinitialize (W : World) (st : State) : State :=
  initialize W {| isInitialized := false; mcp := mcp st |}.

End ChatbotInitializationService.

(** A world with two tool servers, the second of which is switched off *)
Definition X_two_servers : World :=
  {| JSON_parse := Demo.parse;
     JSON_stringify := Demo.stringify;
     http_post := Demo.reply [];
     baseSite := None;
     window_origin := None;
     access_token := None;
     activeCart_code := None;
     predefinedMCPServers :=
       [ {| server_id := "first"; server_name := "First"; server_url := Some "http://a/mcp";
            server_enabled := true |};
         {| server_id := "second"; server_name := "Second"; server_url := Some "http://b/mcp";
            server_enabled := true |};
         {| server_id := "third"; server_name := "Third"; server_url := Some "http://c/mcp";
            server_enabled := false |} ];
     sdk_connect := fun _ => true;
     sdk_listTools := Some [Demo.searchTool];
     sdk_callTool := fun _ _ => SdkThrows None;
     stringify_part := fun _ => "{}" |}.

(** A call of a cart tool for which the model made up a cart and a token *)
Definition X_cartCall : MCPToolCall :=
  {| call_name := "get-cart-totals";
     call_arguments := {[ "cartId" := JStr "guessed"; "access_token" := JStr "made-up";
                          "currency" := JStr "USD" ]};
     call_serverId := "default" |}.
(** * Properties *)

(** ** Strings *)



Lemma append_cons c a b : String c a +:+ b = String c (a +:+ b).
Proof. reflexivity. Qed.



Lemma includes_prefix s p : String.prefix p s = true -> Str.includes s p = true.
Proof. intros H. destruct s; cbn [Str.includes]; rewrite H; reflexivity. Qed.

Lemma includes_append_r p a b : Str.includes b p = true -> Str.includes (a +:+ b) p = true.
Proof.
  intros H. induction a as [|c a IH]; [exact H|].
  rewrite append_cons. cbn [Str.includes]. rewrite IH. apply orb_true_r.
Qed.

Lemma prefix_append_l p a b : String.prefix p a = true -> String.prefix p (a +:+ b) = true.
Proof.
  revert a. induction p as [|c p IH]; intros a H.
  - destruct (a +:+ b); reflexivity.
  - destruct a as [|d a]; [discriminate|]. rewrite append_cons. cbn in H |- *.
    destruct (ascii_dec c d); [auto | discriminate].
Qed.

Lemma includes_append_l p a b : Str.includes a p = true -> Str.includes (a +:+ b) p = true.
Proof.
  induction a as [|c a IH]; cbn [Str.includes]; intros H.
  - apply orb_true_iff in H as [H|H]; [|discriminate].
    destruct p; [|discriminate]. destruct b; reflexivity.
  - apply orb_true_iff in H as [H|H].
    + apply includes_prefix, prefix_append_l, H.
    + rewrite append_cons. cbn [Str.includes]. rewrite (IH H). apply orb_true_r.
Qed.

(** ** Frames: what a computation leaves alone *)

Lemma frames_weaken (R R' : relation LLMService) {A} (m : M A) :
  (forall s s', R s s' -> R' s s') -> frames R m -> frames R' m.
Proof. intros H Hm s. apply H, Hm. Qed.

Section Frames.

Context (R : relation LLMService) `{!PreOrder R}.

#[local] Abbreviation frames := (frames R).

Lemma frames_ret {A} (a : A) : frames (ret a).
Proof. intros s. reflexivity. Qed.

Lemma frames_throwError {A} e : frames (@throwError A e).
Proof. intros s. reflexivity. Qed.

Lemma frames_gets {A} (f : LLMService -> A) : frames (gets f).
Proof. intros s. reflexivity. Qed.

Lemma frames_modify f : (forall s, R s (f s)) -> frames (modify f).
Proof. intros H s. apply H. Qed.

Lemma frames_bind {A B} (m : M A) (k : A -> M B) :
  frames m -> (forall a, frames (k a)) -> frames (bind m k).
Proof.
  intros Hm Hk s. unfold bind. specialize (Hm s).
  destruct (m s) as [[a|e] s1]; cbn in *; [|exact Hm].
  etransitivity; [exact Hm | apply Hk].
Qed.

Lemma frames_catchError {A} (m : M A) (h : string -> M A) :
  frames m -> (forall e, frames (h e)) -> frames (catchError m h).
Proof.
  intros Hm Hh s. unfold catchError. specialize (Hm s).
  destruct (m s) as [[a|e] s1]; cbn in *; [exact Hm|].
  etransitivity; [exact Hm | apply Hh].
Qed.

Lemma frames_mapM {A B} (f : A -> M B) l :
  (forall a, frames (f a)) -> frames (mapM f l).
Proof.
  intros Hf. induction l as [|a l IH]; cbn [mapM].
  - apply frames_ret.
  - apply frames_bind; [apply Hf|]. intros b.
    apply frames_bind; [apply IH|]. intros bs. apply frames_ret.
Qed.

Lemma frames_if {A} (b : bool) (m1 m2 : M A) :
  frames m1 -> frames m2 -> frames (if b then m1 else m2).
Proof. destruct b; auto. Qed.

End Frames.

#[global] Instance untouched_preorder : PreOrder untouched.
Proof.
  split.
  - intros s. unfold untouched. tauto.
  - intros s1 s2 s3 H12 H23. unfold untouched in *.
    destruct H12 as (?&?&?&?&?&?&?&?), H23 as (?&?&?&?&?&?&?&?).
    repeat split; congruence.
Qed.

Lemma untouched_emit e s : untouched s (emit e s).
Proof. unfold untouched. cbn. tauto. Qed.

Lemma untouched_set_mcpService m s : untouched s (set_mcpService m s).
Proof. unfold untouched. cbn. tauto. Qed.

Lemma untouched_emits events s : untouched s (fold_left (fun s e => emit e s) events s).
Proof.
  revert s. induction events as [|e events IH]; intros s; cbn.
  - reflexivity.
  - etransitivity; [apply (untouched_emit e)|apply IH].
Qed.

Ltac frames_step :=
  first
    [ apply frames_ret; exact _ | apply frames_throwError; exact _
    | apply frames_gets; exact _
    | apply frames_bind; [exact _| |intros ?]
    | apply frames_catchError; [exact _| |intros ?]
    | apply frames_mapM; [exact _|intros ?] ].

Section OrchestratorFrames.

Context (W : World).

Lemma provider_generateResponse_untouched p messages tools :
  frames untouched (provider_generateResponse W p messages tools).
Proof.
  intros s. unfold provider_generateResponse.
  destruct p; cbn; try apply untouched_emit. reflexivity.
Qed.

Lemma ensureMCPConnection_untouched : frames untouched (ensureMCPConnection W).
Proof.
  unfold ensureMCPConnection. frames_step; [frames_step|].
  destruct a; [frames_step|].
  intros s. unfold reinitializeMCPConnection.
  destruct (predefinedMCPServers W); [reflexivity|].
  destruct (MCP.initializeConnection _ _). apply untouched_set_mcpService.
Qed.

Lemma mcp_callTool_untouched toolCall : frames untouched (mcp_callTool W toolCall).
Proof.
  intros s. unfold mcp_callTool.
  destruct (MCP.callTool W (mcpService s) toolCall). apply untouched_emits.
Qed.

Lemma executeMCPTool_untouched toolCall : frames untouched (executeMCPTool W toolCall).
Proof.
  unfold executeMCPTool.
  apply frames_if; [frames_step|].
  frames_step; [apply ensureMCPConnection_untouched|].
  apply frames_if; [frames_step|].
  frames_step; [apply mcp_callTool_untouched|].
  frames_step; [|frames_step].
  apply frames_if; [|frames_step].
  apply frames_modify. intros s. apply untouched_emit.
Qed.

Lemma toolExecution_untouched now toolCall : frames untouched (toolExecution W now toolCall).
Proof.
  unfold toolExecution. frames_step; [|frames_step].
  frames_step; [apply executeMCPTool_untouched|frames_step].
Qed.

Lemma executeToolCalls_untouched now toolCalls messages originalResponse :
  frames untouched (executeToolCalls W now toolCalls messages originalResponse).
Proof.
  unfold executeToolCalls.
  frames_step; [frames_step; apply toolExecution_untouched|].
  frames_step; [frames_step|].
  apply frames_if; [frames_step|].
  frames_step; [|frames_step].
  frames_step; [apply provider_generateResponse_untouched|frames_step].
Qed.

Lemma handleLLMResponse_untouched now response messages :
  frames untouched (handleLLMResponse W now response messages).
Proof.
  unfold handleLLMResponse.
  destruct (resp_tool_calls response) as [[|tc tcs]|];
    [frames_step | apply executeToolCalls_untouched | frames_step].
Qed.

Lemma tryFallbackProvider_untouched messages fallbackType :
  frames untouched (tryFallbackProvider W messages fallbackType).
Proof.
  unfold tryFallbackProvider. apply frames_if; [frames_step|].
  frames_step; [|frames_step].
  frames_step; [apply provider_generateResponse_untouched|frames_step].
Qed.

Lemma generateResponse_untouched now userMessage history :
  frames untouched (generateResponse W now userMessage history).
Proof.
  unfold generateResponse. frames_step; [frames_step|].
  destruct a as [cfg|]; [|frames_step].
  frames_step; [frames_step|].
  apply frames_if; [frames_step|].
  frames_step.
  - frames_step; [apply ensureMCPConnection_untouched|].
    frames_step; [frames_step|].
    frames_step.
    + frames_step; [apply provider_generateResponse_untouched|].
      apply handleLLMResponse_untouched.
    + destruct (fallbackProvider cfg); [|frames_step].
      apply frames_if; [apply tryFallbackProvider_untouched|frames_step].
  - frames_step; [|frames_step].
    frames_step; [apply provider_generateResponse_untouched|].
    apply handleLLMResponse_untouched.
Qed.

End OrchestratorFrames.

(** ** The conversation history *)

Lemma addToConversationHistory_eq sessionId message s :
  addToConversationHistory sessionId message s =
  (Ok tt,
   set_conversationHistory
     (<[sessionId := trimHistory (pushed (history_of sessionId s) message)]>
        (conversationHistory s)) s).
Proof.
  unfold addToConversationHistory, getConversationHistory, bind, modify, history_of.
  destruct (conversationHistory s !! sessionId) as [h|] eqn:E; cbn.
  - reflexivity.
  - now rewrite insert_insert_eq.
Qed.





#[global] Instance keeps_capped_preorder : PreOrder keeps_capped.
Proof. split; unfold keeps_capped; [intros s; tauto | intros s1 s2 s3; tauto]. Qed.






Lemma clearPendingOrderContext_history sessionId s :
  conversationHistory (clearPendingOrderContext sessionId s) = conversationHistory s.
Proof.
  unfold clearPendingOrderContext.
  destruct (sessionContext s !! sessionId) as [c|]; [|reflexivity].
  destruct (pendingOrderOperation c); reflexivity.
Qed.


Section TurnCapped.

Context (W : World).




End TurnCapped.




(** ** The rule-based responder *)



Section FallbackTurn.

Context (W : World).



End FallbackTurn.



(** ** Tool names *)


Section ToolNames.

Context (W : World).



End ToolNames.



(** ** Tool rounds *)

#[global] Instance same_generations_preorder : PreOrder same_generations.
Proof.
  split; unfold same_generations.
  - intros s. reflexivity.
  - intros s1 s2 s3 H12 H23. congruence.
Qed.

Lemma generations_emit e s :
  generations (emit e s) = (generations s ++ if is_generate e then [e] else [])%list.
Proof.
  unfold generations. cbn [trace emit]. rewrite List.filter_app. cbn.
  destruct (is_generate e); reflexivity.
Qed.

Lemma same_generations_emit e s : is_generate e = false -> same_generations s (emit e s).
Proof. intros H. unfold same_generations. rewrite generations_emit, H. apply app_nil_r. Qed.

Section ToolRound.

Context (W : World).

Lemma executeMCPTool_same_generations toolCall :
  frames same_generations (executeMCPTool W toolCall).
Proof.
  unfold executeMCPTool.
  apply frames_if; [frames_step|].
  frames_step.
  { unfold ensureMCPConnection. frames_step; [frames_step|].
    destruct a; [frames_step|].
    intros s. unfold reinitializeMCPConnection.
    destruct (predefinedMCPServers W); [reflexivity|].
    destruct (MCP.initializeConnection _ _). reflexivity. }
  apply frames_if; [frames_step|].
  frames_step.
  { intros s. unfold mcp_callTool, MCP.callTool.
    destruct (negb (client (mcpService s))); cbn; [reflexivity|].
    now apply same_generations_emit. }
  frames_step; [|frames_step].
  apply frames_if; [|frames_step].
  apply frames_modify. intros s. now apply same_generations_emit.
Qed.

Lemma batch_total now toolCalls : forall s,
  exists toolResults s',
    mapM (toolExecution W now) toolCalls s = (Ok toolResults, s') /\
    batch W now s toolCalls toolResults s'.
Proof.
  induction toolCalls as [|toolCall toolCalls IH]; intros s.
  - exists [], s. split; [reflexivity | constructor].
  - cbn [mapM]. unfold bind at 1, toolExecution at 1, catchError, bind at 1.
    destruct (executeMCPTool W toolCall s) as [[result|error] s1] eqn:E;
      cbn [ret]; destruct (IH s1) as (toolResults & s2 & Hmap & Hbatch);
      unfold bind at 1; rewrite Hmap; cbn [ret];
      eexists _, s2; (split; [reflexivity|]).
    + eapply batch_result; eauto.
    + eapply batch_error; eauto.
Qed.


Lemma batch_frame now s toolCalls toolResults s' :
  batch W now s toolCalls toolResults s' ->
  untouched s s' /\ same_generations s s'.
Proof.
  induction 1 as [s | s tc r s1 tcs ms s2 E Hb [IH1 IH2] | s tc e s1 tcs ms s2 E Hb [IH1 IH2]].
  - split; reflexivity.
  - pose proof (executeMCPTool_untouched W tc s) as H1.
    pose proof (executeMCPTool_same_generations tc s) as H2.
    rewrite E in H1, H2. cbn [snd] in H1, H2.
    split; etransitivity; eauto.
  - pose proof (executeMCPTool_untouched W tc s) as H1.
    pose proof (executeMCPTool_same_generations tc s) as H2.
    rewrite E in H1, H2. cbn [snd] in H1, H2.
    split; etransitivity; eauto.
Qed.

Lemma provider_generateResponse_eq p messages tools s :
  providers_has p = true ->
  provider_generateResponse W p messages tools s =
  ((provider_generateResponse W p messages tools s).1, emit (EvGenerate p messages tools) s).
Proof. intros H. destruct p; try discriminate; reflexivity. Qed.

End ToolRound.


(** ** The terms decision *)

Lemma pendingOrder_of_clear sessionId s :
  pendingOrder_of sessionId (clearPendingOrderContext sessionId s) = None.
Proof.
  unfold clearPendingOrderContext, pendingOrder_of.
  destruct (sessionContext s !! sessionId) as [context|] eqn:E; cbn.
  - destruct (pendingOrderOperation context) eqn:Ep; cbn.
    + now rewrite lookup_insert_eq.
    + now rewrite E.
  - now rewrite E.
Qed.

Lemma clearPendingOrderContext_trace sessionId s :
  trace (clearPendingOrderContext sessionId s) = trace s.
Proof.
  unfold clearPendingOrderContext.
  destruct (sessionContext s !! sessionId) as [context|]; [|reflexivity].
  destruct (pendingOrderOperation context); reflexivity.
Qed.

Lemma addToConversationHistory_snd sessionId message s :
  sessionContext (addToConversationHistory sessionId message s).2 = sessionContext s /\
  trace (addToConversationHistory sessionId message s).2 = trace s.
Proof. rewrite addToConversationHistory_eq. split; reflexivity. Qed.

Section TermsDecision.

Context (W : World).


Lemma handleTerms_decline now userMessage sessionId s pendingOrder :
  pendingOrder_of sessionId s = Some pendingOrder ->
  isAccepted userMessage = false ->
  handleTermsAcceptanceResponse W now userMessage sessionId s =
  (Ok {| response := refusal; sessionId := sessionId |},
   (addToConversationHistory sessionId (mk_msg assistant refusal now)
      (addToConversationHistory sessionId (mk_msg user userMessage now)
         (clearPendingOrderContext sessionId s)).2).2).
Proof.
  intros Hp Hacc. unfold handleTermsAcceptanceResponse, bind at 1, gets at 1.
  rewrite Hp, Hacc. unfold bind, modify.
  rewrite !addToConversationHistory_eq. reflexivity.
Qed.

Lemma handleTerms_accept now userMessage sessionId s pendingOrder parsed :
  pendingOrder_of sessionId s = Some pendingOrder ->
  isAccepted userMessage = true ->
  JSON_parse W (fn_arguments (originalToolCall pendingOrder)) = Some parsed ->
  let s0 := (addToConversationHistory sessionId (mk_msg user userMessage now)
               (clearPendingOrderContext sessionId s)).2 in
  let retry := executeMCPTool W (termsCheckedCall W (originalToolCall pendingOrder) parsed) s0 in
  handleTermsAcceptanceResponse W now userMessage sessionId s =
  (Ok {| response := acceptanceText W retry.1; sessionId := sessionId |},
   (addToConversationHistory sessionId (mk_msg assistant (acceptanceText W retry.1) now)
      retry.2).2).
Proof.
  intros Hp Hacc Hparse s0 retry.
  unfold handleTermsAcceptanceResponse, bind at 1, gets at 1.
  rewrite Hp, Hacc. unfold bind at 1, modify at 1. unfold bind at 1.
  rewrite addToConversationHistory_eq. rewrite Hparse.
  fold (termsCheckedCall W (originalToolCall pendingOrder) parsed).
  unfold catchError, bind at 1.
  subst retry s0. rewrite addToConversationHistory_eq. cbn [snd].
  destruct (executeMCPTool W _ _) as [[result|error] s1]; cbn [fst snd acceptanceText];
    unfold bind; rewrite !addToConversationHistory_eq; reflexivity.
Qed.

(** The accept branch parses the stored arguments unguarded: when they
   are not JSON the turn leaves with the exception, the interrupt
   already cleared and the user message already stored. *)
Lemma handleTerms_accept_syntax_error now userMessage sessionId s pendingOrder :
  pendingOrder_of sessionId s = Some pendingOrder ->
  isAccepted userMessage = true ->
  JSON_parse W (fn_arguments (originalToolCall pendingOrder)) = None ->
  handleTermsAcceptanceResponse W now userMessage sessionId s =
  (Err "SyntaxError",
   (addToConversationHistory sessionId (mk_msg user userMessage now)
      (clearPendingOrderContext sessionId s)).2).
Proof.
  intros Hp Hacc Hparse.
  unfold handleTermsAcceptanceResponse, bind at 1, gets at 1.
  rewrite Hp, Hacc. unfold bind at 1, modify at 1. unfold bind at 1.
  rewrite addToConversationHistory_eq, Hparse. reflexivity.
Qed.

End TermsDecision.



(** A tool round whose follow-up response carries tool calls again:
    its text is the answer, and the providers were asked once. *)
Example executeToolCalls_follow_up_calls_not_run :
  let W := Demo.world [Demo.searchCall] in
  let round := executeToolCalls W 1000 [Demo.placeOrderCall; Demo.unprefixedCall] [] C6_response
                 Demo.connected in
  round.1 = Ok "Your order needs your consent." /\
  length (generations round.2) = 1%nat /\
  dispatched round.2 = ["place-order"] /\
  (exists request, http_post W request =
     HttpOK {| choices0_content := Some "Your order needs your consent.";
               choices0_tool_calls := Some [Demo.searchCall];
               choices0_finish_reason := Some "stop";
               payload_model := None; payload_response := None; payload_done := true;
               candidates0_text := None; candidates0_finishReason := None |}).
Proof.
  cbn zeta. split; [vm_compute; reflexivity|]. split; [vm_compute; reflexivity|].
  split; [vm_compute; reflexivity|].
  exists (OpenAIProvider.request OpenAIProvider.default_config [mk_tool_msg "" "" 0] None).
  reflexivity.
Qed.


(** ** The terms interrupt is never raised *)

#[global] Instance no_new_interrupt_preorder : PreOrder no_new_interrupt.
Proof.
  split; unfold no_new_interrupt.
  - intros s sid H. exact H.
  - intros s1 s2 s3 H12 H23 sid H. auto.
Qed.

Lemma same_context_no_new_interrupt s s' :
  sessionContext s' = sessionContext s -> no_new_interrupt s s'.
Proof.
  intros H sid. unfold isWaitingForTermsAcceptance, pendingOrder_of. now rewrite H.
Qed.

Lemma untouched_no_new_interrupt s s' : untouched s s' -> no_new_interrupt s s'.
Proof. intros H. apply same_context_no_new_interrupt, H. Qed.

Lemma addToConversationHistory_no_new_interrupt sessionId message :
  frames no_new_interrupt (addToConversationHistory sessionId message).
Proof. intros s. apply same_context_no_new_interrupt, addToConversationHistory_snd. Qed.

Lemma getConversationHistory_no_new_interrupt sessionId :
  frames no_new_interrupt (getConversationHistory sessionId).
Proof.
  intros s. apply same_context_no_new_interrupt. unfold getConversationHistory.
  destruct (conversationHistory s !! sessionId); reflexivity.
Qed.

Lemma clearPendingOrderContext_no_new_interrupt sessionId s :
  no_new_interrupt s (clearPendingOrderContext sessionId s).
Proof.
  intros sid. unfold isWaitingForTermsAcceptance.
  destruct (decide (sid = sessionId)) as [->|Hne].
  - now rewrite pendingOrder_of_clear.
  - unfold clearPendingOrderContext, pendingOrder_of.
    destruct (sessionContext s !! sessionId) as [context|]; [|auto].
    destruct (pendingOrderOperation context); [|auto].
    cbn. now rewrite lookup_insert_ne by congruence.
Qed.

Lemma pendingOrder_of_initializeOrderFlow sessionId sid s :
  pendingOrder_of sid (initializeOrderFlow sessionId s) = pendingOrder_of sid s.
Proof.
  unfold initializeOrderFlow, set_orderFlow, pendingOrder_of, context_or_new. cbn.
  destruct (decide (sessionId = sid)) as [->|Hne].
  - rewrite lookup_insert_eq. cbn. destruct (sessionContext s !! sid); reflexivity.
  - now rewrite lookup_insert_ne.
Qed.

Lemma initializeOrderFlow_no_new_interrupt sessionId s :
  no_new_interrupt s (initializeOrderFlow sessionId s).
Proof.
  intros sid. unfold isWaitingForTermsAcceptance.
  now rewrite pendingOrder_of_initializeOrderFlow.
Qed.

Section NoInterrupt.

Context (W : World).

Lemma ordinaryTurn_no_new_interrupt now userMessage sessionId :
  frames no_new_interrupt (ordinaryTurn W now userMessage sessionId).
Proof.
  unfold ordinaryTurn.
  frames_step.
  { apply frames_if; [|frames_step].
    frames_step; [frames_step|].
    apply frames_if; [frames_step|].
    apply frames_modify, initializeOrderFlow_no_new_interrupt. }
  frames_step; [apply getConversationHistory_no_new_interrupt|].
  frames_step; [apply addToConversationHistory_no_new_interrupt|].
  frames_step; [frames_step|].
  frames_step.
  - frames_step.
    + eapply frames_weaken; [apply untouched_no_new_interrupt|].
      apply generateResponse_untouched.
    + frames_step; [apply addToConversationHistory_no_new_interrupt|frames_step].
  - frames_step; [apply addToConversationHistory_no_new_interrupt|frames_step].
Qed.

Lemma handleTermsAcceptanceResponse_no_new_interrupt now userMessage sessionId :
  frames no_new_interrupt (handleTermsAcceptanceResponse W now userMessage sessionId).
Proof.
  unfold handleTermsAcceptanceResponse.
  frames_step; [frames_step|].
  destruct a as [pendingOrder|]; [|apply ordinaryTurn_no_new_interrupt].
  apply frames_if.
  - frames_step; [apply frames_modify, clearPendingOrderContext_no_new_interrupt|].
    frames_step; [apply addToConversationHistory_no_new_interrupt|].
    destruct (JSON_parse W _); [|frames_step].
    frames_step.
    + frames_step.
      * eapply frames_weaken; [apply untouched_no_new_interrupt|].
        apply executeMCPTool_untouched.
      * frames_step; [apply addToConversationHistory_no_new_interrupt|frames_step].
    + frames_step; [apply addToConversationHistory_no_new_interrupt|frames_step].
  - frames_step; [apply frames_modify, clearPendingOrderContext_no_new_interrupt|].
    frames_step; [apply addToConversationHistory_no_new_interrupt|].
    frames_step; [apply addToConversationHistory_no_new_interrupt|frames_step].
Qed.

Lemma generateResponseWithSession_no_new_interrupt now rnd userMessage given :
  frames no_new_interrupt (generateResponseWithSession W now rnd userMessage given).
Proof.
  unfold generateResponseWithSession.
  frames_step; [frames_step|].
  apply frames_if.
  - apply handleTermsAcceptanceResponse_no_new_interrupt.
  - apply ordinaryTurn_no_new_interrupt.
Qed.

End NoInterrupt.

(** C1 (the code falls short of it): a turn never raises the terms
    interrupt.  In the run below the model calls the order-placement
    tool, the tool answers with the error "Order requires terms and
    conditions acceptance", [executeMCPTool] detects it (the log entry
    is in the record), and the session still does not await a decision
    after the turn: no pending operation is stored.  In general a
    session awaits a decision after a turn only if it did before. *)
Theorem C1_interrupt_not_raised :
  let W := Demo.world [Demo.placeOrderCall] in
  let turn := generateResponseWithSession W 1000 "r" "please place my order" (Some "s1")
                Demo.connected in
  (In (EvCallTool "place-order"
         (MCP.enhancedArguments W
            {| call_name := "place-order";
               call_arguments := {[ "baseSiteId" := JStr "powertools-spa" ]};
               call_serverId := "default" |})) (trace turn.2) /\
   In (EvLogTermsDetected "place-order") (trace turn.2) /\
   pendingOrder_of "s1" turn.2 = None /\
   isWaitingForTermsAcceptance "s1" turn.2 = false) /\
  (forall (W : World) now rnd userMessage given s sessionId,
     isWaitingForTermsAcceptance sessionId s = false ->
     isWaitingForTermsAcceptance sessionId
       (generateResponseWithSession W now rnd userMessage given s).2 = false).
Proof.
  cbn zeta. split.
  - split; [vm_compute; tauto|]. split; [vm_compute; tauto|]. split; vm_compute; reflexivity.
  - intros W now rnd userMessage given s sessionId H.
    destruct (isWaitingForTermsAcceptance sessionId
                (generateResponseWithSession W now rnd userMessage given s).2) eqn:E;
      [|reflexivity].
    apply (generateResponseWithSession_no_new_interrupt W now rnd userMessage given s) in E.
    congruence.
Qed.

(** C1 at the run of the failing order placement *)
Lemma C1_interrupt_not_raised_witness :
  isWaitingForTermsAcceptance "s1" Demo.connected = false /\
  isWaitingForTermsAcceptance "s1"
    (generateResponseWithSession (Demo.world [Demo.placeOrderCall]) 1000 "r"
       "please place my order" (Some "s1") Demo.connected).2 = false.
Proof.
  split; [reflexivity|].
  apply (proj2 C1_interrupt_not_raised). reflexivity.
Defined.

(** ** The order flow *)

Lemma orderFlow_of_set_orderFlow sessionId context flow s :
  orderFlow_of sessionId (set_orderFlow sessionId context flow s) = flow.
Proof. unfold orderFlow_of, set_orderFlow. cbn. now rewrite lookup_insert_eq. Qed.

Lemma advancedStep_eq st :
  advancedStep st = if decide (st = complete) then None else Some (nextStep st).
Proof. destruct st; vm_compute; reflexivity. Qed.

Lemma advanceOrderStep_flow sessionId s flow :
  orderFlow_of sessionId s = Some flow ->
  orderFlow_of sessionId (advanceOrderStep sessionId s) =
  Some {| isActive := isActive flow; currentStep := nextStep (currentStep flow);
          collectedData := collectedData flow; availableOptions := availableOptions flow |}.
Proof.
  unfold orderFlow_of at 1, advanceOrderStep.
  destruct (sessionContext s !! sessionId) as [context|] eqn:E; [|discriminate].
  cbn [mbind option_bind]. intros Hflow. rewrite Hflow, advancedStep_eq.
  case_decide as Hst.
  - unfold orderFlow_of. rewrite E. cbn [mbind option_bind]. rewrite Hflow.
    destruct flow as [active step data options]. cbn in Hst. subst step. reflexivity.
  - apply orderFlow_of_set_orderFlow.
Qed.

Lemma advanceOrderStep_no_flow sessionId s :
  orderFlow_of sessionId s = None ->
  orderFlow_of sessionId (advanceOrderStep sessionId s) = None.
Proof.
  unfold orderFlow_of at 1, advanceOrderStep. intros H.
  destruct (sessionContext s !! sessionId) as [context|] eqn:E.
  - cbn in H. rewrite H. unfold orderFlow_of. now rewrite E.
  - unfold orderFlow_of. now rewrite E.
Qed.

Lemma updateOrderFlowData_step sessionId data s :
  getCurrentOrderStep sessionId (updateOrderFlowData sessionId data s) =
  getCurrentOrderStep sessionId s.
Proof.
  unfold getCurrentOrderStep, updateOrderFlowData, orderFlow_of at 2.
  destruct (sessionContext s !! sessionId) as [context|] eqn:E.
  - cbn. destruct (orderFlow context) as [flow|] eqn:Ef.
    + now rewrite orderFlow_of_set_orderFlow.
    + unfold orderFlow_of. rewrite E. cbn. now rewrite Ef.
  - unfold orderFlow_of. now rewrite E.
Qed.

Lemma clearOrderFlow_flow sessionId s :
  orderFlow_of sessionId (clearOrderFlow sessionId s) = None.
Proof.
  unfold clearOrderFlow.
  destruct (sessionContext s !! sessionId) as [context|] eqn:E.
  - destruct (orderFlow context) eqn:Ef.
    + apply orderFlow_of_set_orderFlow.
    + unfold orderFlow_of. rewrite E. exact Ef.
  - unfold orderFlow_of. now rewrite E.
Qed.

Lemma clearConversationHistory_flow sessionId s :
  orderFlow_of sessionId (clearConversationHistory sessionId s) = None /\
  pendingOrder_of sessionId (clearConversationHistory sessionId s) = None /\
  conversationHistory (clearConversationHistory sessionId s) !! sessionId = None.
Proof.
  unfold orderFlow_of, pendingOrder_of, clearConversationHistory. cbn.
  now rewrite !lookup_delete_eq.
Qed.

Lemma rank_nextStep st : (rank st <= rank (nextStep st) <= rank st + 1)%nat.
Proof. destruct st; cbn; lia. Qed.

(** Without a restart, a step after an operation comes from a step
    before it, at most one place behind. *)
Lemma applyOp_step sessionId op s b :
  is_start op = false ->
  getCurrentOrderStep sessionId (applyOp sessionId op s) = Some b ->
  exists a, getCurrentOrderStep sessionId s = Some a /\
            (rank a <= rank b <= rank a + 1)%nat.
Proof.
  intros Hop. destruct op; try discriminate; cbn [applyOp].
  - unfold getCurrentOrderStep.
    destruct (orderFlow_of sessionId s) as [flow|] eqn:E.
    + rewrite (advanceOrderStep_flow _ _ _ E). cbn. intros [= <-].
      exists (currentStep flow). split; [reflexivity | apply rank_nextStep].
    + now rewrite (advanceOrderStep_no_flow _ _ E).
  - rewrite updateOrderFlowData_step. intros H. exists b. split; [exact H | lia].
  - unfold getCurrentOrderStep, cancelOrderFlow. now rewrite clearOrderFlow_flow.
  - unfold getCurrentOrderStep.
    now rewrite (proj1 (clearConversationHistory_flow sessionId s)).
Qed.

Lemma applyOps_step sessionId ops : forall s b,
  forallb (fun op => negb (is_start op)) ops = true ->
  getCurrentOrderStep sessionId (applyOps sessionId ops s) = Some b ->
  exists a, getCurrentOrderStep sessionId s = Some a /\ (rank a <= rank b)%nat.
Proof.
  induction ops as [|op ops IH]; intros s b Hops H.
  - exists b. split; [exact H | lia].
  - cbn in Hops. apply andb_true_iff in Hops as [Hop Hops].
    apply negb_true_iff in Hop.
    destruct (IH _ _ Hops H) as (m & Hm & Hle).
    destruct (applyOp_step _ _ _ _ Hop Hm) as (a & Ha & Hle').
    exists a. split; [exact Ha | lia].
Qed.

#[global] Instance keeps_active_flows_preorder : PreOrder keeps_active_flows.
Proof.
  split; unfold keeps_active_flows.
  - intros s sid H. reflexivity.
  - intros s1 s2 s3 H12 H23 sid H.
    rewrite <- (H12 sid H). apply H23.
    unfold hasActiveOrderFlow in *. now rewrite (H12 sid H).
Qed.

Lemma same_context_keeps_active_flows s s' :
  sessionContext s' = sessionContext s -> keeps_active_flows s s'.
Proof. intros H sid _. unfold orderFlow_of. now rewrite H. Qed.

Lemma clearPendingOrderContext_orderFlow sessionId sid s :
  orderFlow_of sid (clearPendingOrderContext sessionId s) = orderFlow_of sid s.
Proof.
  unfold clearPendingOrderContext, orderFlow_of.
  destruct (sessionContext s !! sessionId) as [context|] eqn:E; [|reflexivity].
  destruct (pendingOrderOperation context); [|reflexivity].
  cbn. destruct (decide (sessionId = sid)) as [->|Hne].
  - rewrite lookup_insert_eq, E. reflexivity.
  - now rewrite lookup_insert_ne.
Qed.

Section TurnFlows.

Context (W : World).

Lemma ordinaryTurn_keeps_active_flows now userMessage sessionId :
  frames keeps_active_flows (ordinaryTurn W now userMessage sessionId).
Proof.
  unfold ordinaryTurn.
  frames_step.
  { apply frames_if; [|frames_step].
    intros s. unfold bind, gets.
    destruct (hasActiveOrderFlow sessionId s) eqn:E; cbn; [reflexivity|].
    intros sid Hsid. unfold initializeOrderFlow, set_orderFlow, orderFlow_of. cbn.
    rewrite lookup_insert_ne; [reflexivity|]. intros ->. congruence. }
  frames_step.
  { intros s. apply same_context_keeps_active_flows. unfold getConversationHistory.
    destruct (conversationHistory s !! sessionId); reflexivity. }
  assert (Hadd : forall m, frames keeps_active_flows (addToConversationHistory sessionId m)).
  { intros m s. apply same_context_keeps_active_flows, addToConversationHistory_snd. }
  frames_step; [apply Hadd|].
  frames_step; [frames_step|].
  frames_step.
  - frames_step.
    + eapply frames_weaken; [|apply generateResponse_untouched].
      intros s s' H. apply same_context_keeps_active_flows, H.
    + frames_step; [apply Hadd|frames_step].
  - frames_step; [apply Hadd|frames_step].
Qed.

Lemma generateResponseWithSession_keeps_active_flows now rnd userMessage given :
  frames keeps_active_flows (generateResponseWithSession W now rnd userMessage given).
Proof.
  unfold generateResponseWithSession.
  set (sessionId := effectiveSessionId now rnd given).
  assert (Hadd : forall m, frames keeps_active_flows (addToConversationHistory sessionId m)).
  { intros m s. apply same_context_keeps_active_flows, addToConversationHistory_snd. }
  assert (Hclear : frames keeps_active_flows (modify (clearPendingOrderContext sessionId))).
  { intros s sid _. apply clearPendingOrderContext_orderFlow. }
  frames_step; [frames_step|].
  apply frames_if; [|apply ordinaryTurn_keeps_active_flows].
  unfold handleTermsAcceptanceResponse.
  frames_step; [frames_step|].
  destruct a0 as [pendingOrder|]; [|apply ordinaryTurn_keeps_active_flows].
  apply frames_if.
  - frames_step; [apply Hclear|].
    frames_step; [apply Hadd|].
    destruct (JSON_parse W _); [|frames_step].
    frames_step.
    + frames_step.
      * eapply frames_weaken; [|apply executeMCPTool_untouched].
        intros s s' H. apply same_context_keeps_active_flows, H.
      * frames_step; [apply Hadd|frames_step].
    + frames_step; [apply Hadd|frames_step].
  - frames_step; [apply Hclear|].
    frames_step; [apply Hadd|].
    frames_step; [apply Hadd|frames_step].
Qed.

End TurnFlows.

(** C8 as stated fails: starting the order flow of a session whose flow
    is at [address] puts it back to [payment]. *)
Lemma C8_restart_goes_backwards :
  ~ (forall sessionId op s, step_monotone sessionId op s).
Proof.
  intros H.
  specialize (H "s1" OpStart C8_at_address address payment eq_refl eq_refl).
  cbn in H. lia.
Qed.

(** C8, amended: the step-advance operation moves the step of a flow
    one place forward in payment, address, delivery, confirmation,
    complete, and leaves [complete] as it is; under any sequence of
    advance, data-update, cancel and session-clear operations the step
    never moves backwards, and no single one of them takes it over a
    step; a turn leaves every active flow as it is; the flow is gone
    after a cancel and after a session clear.  Starting the order flow
    again is the one operation that moves the step back: it replaces
    the flow by a new one at [payment]. *)
Theorem C8_order_flow_steps (W : World) (sessionId : string) (s : LLMService) :
  (forall flow,
     orderFlow_of sessionId s = Some flow ->
     getCurrentOrderStep sessionId (advanceOrderStep sessionId s) =
       Some (nextStep (currentStep flow))) /\
  nextStep payment = address /\ nextStep complete = complete /\
  (forall st, rank (nextStep st) = Nat.min (rank st + 1) 4) /\
  (forall op, is_start op = false -> step_monotone sessionId op s) /\
  (forall ops a b,
     forallb (fun op => negb (is_start op)) ops = true ->
     getCurrentOrderStep sessionId s = Some a ->
     getCurrentOrderStep sessionId (applyOps sessionId ops s) = Some b ->
     (rank a <= rank b)%nat) /\
  (forall now rnd userMessage given,
     hasActiveOrderFlow sessionId s = true ->
     orderFlow_of sessionId (generateResponseWithSession W now rnd userMessage given s).2 =
     orderFlow_of sessionId s) /\
  orderFlow_of sessionId (cancelOrderFlow sessionId s) = None /\
  orderFlow_of sessionId (clearConversationHistory sessionId s) = None /\
  orderFlow_of sessionId (startOrderFlow sessionId s) =
    Some {| isActive := true; currentStep := payment;
            collectedData := ∅; availableOptions := ∅ |}.
Proof.
  split.
  { intros flow Hflow. unfold getCurrentOrderStep.
    now rewrite (advanceOrderStep_flow _ _ _ Hflow). }
  split; [reflexivity|]. split; [reflexivity|].
  split; [intros []; reflexivity|].
  split.
  { intros op Hop a b Ha Hb.
    destruct (applyOp_step _ _ _ _ Hop Hb) as (a' & Ha' & Hle).
    rewrite Ha in Ha'. injection Ha' as <-. exact Hle. }
  split.
  { intros ops a b Hops Ha Hb.
    destruct (applyOps_step _ _ _ _ Hops Hb) as (a' & Ha' & Hle).
    rewrite Ha in Ha'. injection Ha' as <-. exact Hle. }
  split.
  { intros now rnd userMessage given Hactive.
    apply (generateResponseWithSession_keeps_active_flows W now rnd userMessage given s).
    exact Hactive. }
  split; [apply clearOrderFlow_flow|].
  split; [apply clearConversationHistory_flow|].
  apply orderFlow_of_set_orderFlow.
Qed.

(** C8 at a flow that was started and advanced *)
Lemma C8_order_flow_steps_witness :
  orderFlow_of "s1" (startOrderFlow "s1" initial) =
    Some {| isActive := true; currentStep := payment;
            collectedData := ∅; availableOptions := ∅ |} /\
  getCurrentOrderStep "s1" (advanceOrderStep "s1" (startOrderFlow "s1" initial)) = Some address /\
  (is_start OpAdvance = false /\ step_monotone "s1" OpAdvance C8_at_address) /\
  (forallb (fun op => negb (is_start op)) [OpAdvance; OpUpdate ∅; OpAdvance] = true /\
   getCurrentOrderStep "s1" C8_at_address = Some address /\
   getCurrentOrderStep "s1" (applyOps "s1" [OpAdvance; OpUpdate ∅; OpAdvance] C8_at_address) =
     Some confirmation /\
   (rank address <= rank confirmation)%nat) /\
  (hasActiveOrderFlow "s1" C8_at_address = true /\
   orderFlow_of "s1"
     (generateResponseWithSession (Demo.world []) 5 "r" "checkout" (Some "s1") C8_at_address).2 =
   orderFlow_of "s1" C8_at_address).
Proof.
  split; [reflexivity|].
  split; [apply (proj1 (C8_order_flow_steps (Demo.world []) "s1" (startOrderFlow "s1" initial)) _
                   eq_refl)|].
  split.
  { split; [reflexivity|].
    apply (C8_order_flow_steps (Demo.world []) "s1" C8_at_address). reflexivity. }
  split.
  { split; [reflexivity|]. split; [reflexivity|]. split; [reflexivity|].
    apply (proj1 (proj2 (proj2 (proj2 (proj2 (proj2
             (C8_order_flow_steps (Demo.world []) "s1" C8_at_address))))))
             [OpAdvance; OpUpdate ∅; OpAdvance] address confirmation); reflexivity. }
  split; [reflexivity|].
  apply (C8_order_flow_steps (Demo.world []) "s1" C8_at_address). reflexivity.
Defined.

(** ** Availability checks *)

(** C4 (the code falls short of it): two checks of a provider within
    the 30 seconds of the cache make one probe, but the second caller,
    arriving while the probe is in flight, does not share its result:
    the cached entry of the flight is fresh, so the second caller is
    answered at once with its temporary value [false].  Below the probe
    then finds the provider available: the first caller sees [true],
    the second has seen [false]. *)
Theorem C4_in_flight_check_answers_false :
  let first := checkProviderAvailabilityWithCache local 0 initial in
  let second := checkProviderAvailabilityWithCache local 1000 first.2 in
  let settled := availabilitySettled local true 2000 second.2 in
  let outcome := fun _ : nat => true in
  first.1 = Shared 0 /\
  second.1 = Immediate false /\
  probes settled = [(local, 0%nat)] /\
  observed first.1 outcome = true /\
  observed second.1 outcome = false /\
  (checkProviderAvailabilityWithCache local 3000 settled).1 = Immediate true.
Proof. cbn zeta. repeat split; vm_compute; reflexivity. Qed.

(** The branch that shares the flight is reached only once the entry
    of the flight has grown old. *)
Lemma in_flight_shared_only_when_stale providerType now s c obs :
  availabilityCache s !! providerType = Some c ->
  observable c = Some obs ->
  checkProviderAvailabilityWithCache providerType now s =
  (if now - lastCheck c <? CACHE_DURATION then Immediate (available c) else Shared obs, s).
Proof.
  intros Hc Hobs. unfold checkProviderAvailabilityWithCache. rewrite Hc, Hobs.
  destruct (now - lastCheck c <? CACHE_DURATION); reflexivity.
Qed.

(** Whatever the state, a second check of a provider that comes less
    than 30 seconds after the check that started its probe is answered
    [false] at once, and makes no probe. *)
Lemma in_flight_check_within_ttl providerType now1 now2 s :
  providers_has providerType = true ->
  availabilityCache s !! providerType = None ->
  now2 - now1 < CACHE_DURATION ->
  let first := checkProviderAvailabilityWithCache providerType now1 s in
  let second := checkProviderAvailabilityWithCache providerType now2 first.2 in
  first.1 = Shared (length (probes s)) /\
  second.1 = Immediate false /\
  probes second.2 = (probes s ++ [(providerType, length (probes s))])%list.
Proof.
  intros Hp Hc Hlt. cbn zeta.
  assert (Hfirst : checkProviderAvailabilityWithCache providerType now1 s =
                   freshAvailabilityCheck providerType now1 s).
  { unfold checkProviderAvailabilityWithCache. now rewrite Hc. }
  rewrite Hfirst. unfold freshAvailabilityCheck. rewrite Hp. cbn [fst snd].
  unfold checkProviderAvailabilityWithCache. cbn [availabilityCache set_availabilityCache].
  rewrite lookup_insert_eq. cbn [lastCheck available].
  destruct (Z.ltb_spec (now2 - now1) CACHE_DURATION) as [_|H]; [|lia].
  cbn [fst snd]. split; [reflexivity|]. split; [reflexivity|].
  unfold probes. cbn [trace emit set_availabilityCache]. rewrite omap_app. reflexivity.
Qed.

(** ** The sweep *)

Lemma cleanupOldSessions_history now s sessionId :
  conversationHistory (cleanupOldSessions now s) !! sessionId =
  match conversationHistory s !! sessionId with
  | Some history => if expired now history then None else Some history
  | None => None
  end.
Proof.
  unfold cleanupOldSessions. cbn [conversationHistory set_conversationHistory].
  rewrite map_lookup_filter.
  destruct (conversationHistory s !! sessionId) as [history|]; [|reflexivity].
  cbn. destruct (expired now history); [|reflexivity].
  rewrite option_guard_False; [reflexivity | discriminate].
Qed.


Lemma cleanupOldSessions_context now s :
  sessionContext (cleanupOldSessions now s) = sessionContext s.
Proof. reflexivity. Qed.

(** C9 (the code falls short of it): the sweep removes the history of
    an expired session and nothing else.  Below a session is made by a
    turn that starts an order flow; thirty minutes and a millisecond
    later the sweep deletes its history and leaves its order flow in the
    session contexts, where an explicit session clear removes both.  In
    general the sweep leaves the session contexts as they are. *)
Theorem C9_sweep_leaves_session_context :
  let swept := cleanupOldSessions C9_later C9_session in
  let cleared := clearConversationHistory "s1" C9_session in
  expired C9_later (history_of "s1" C9_session) = true /\
  conversationHistory swept !! "s1" = None /\
  orderFlow_of "s1" swept =
    Some {| isActive := true; currentStep := payment;
            collectedData := ∅; availableOptions := ∅ |} /\
  hasActiveOrderFlow "s1" swept = true /\
  conversationHistory cleared !! "s1" = None /\
  sessionContext cleared !! "s1" = None /\
  (forall now s, sessionContext (cleanupOldSessions now s) = sessionContext s).
Proof.
  cbn zeta. repeat split; try (vm_compute; reflexivity).
Qed.

(** ** What the adapters tell the backend about the tools *)

Lemma includes_refl s : Str.includes s s = true.
Proof.
  apply includes_prefix. induction s as [|c s IH]; [reflexivity|].
  cbn. destruct (ascii_dec c c); [exact IH | congruence].
Qed.

Lemma includes_join sep (l : list string) x :
  In x l -> Str.includes (Str.join sep l) x = true.
Proof.
  induction l as [|y l IH]; [intros []|].
  intros [->|Hin].
  - destruct l as [|z l]; cbn [Str.join]; [apply includes_refl|].
    apply includes_append_l, includes_refl.
  - destruct l as [|z l]; [destruct Hin|].
    cbn [Str.join]. apply includes_append_r, includes_append_r, IH, Hin.
Qed.

(** The OpenAI adapter and the local adapter in its OpenAI-compatible
    mode hand the definitions over as they are; the local adapter in its
    Ollama mode writes a line with the name and the description of every
    tool into the prompt. *)
Lemma sibling_adapters_surface_tools cfg messages t tools :
  structured_tools (OpenAIProvider.request cfg messages (Some (t :: tools))) = Some (t :: tools) /\
  structured_tools (LocalLLMProvider.openAICompatibleRequest cfg messages (Some (t :: tools))) =
    Some (t :: tools) /\
  structured_tools (LocalLLMProvider.ollamaRequest cfg messages (Some (t :: tools))) = None /\
  (forall t', In t' (t :: tools) ->
     text_mentions (LocalLLMProvider.ollamaRequest cfg messages (Some (t :: tools)))
       ("- " +:+ fd_name t' +:+ ": " +:+ fd_description t') = true).
Proof.
  split; [reflexivity|]. split; [reflexivity|]. split; [reflexivity|].
  intros t' Hin. unfold text_mentions, LocalLLMProvider.ollamaRequest. cbn [request_texts req_body].
  cbn [existsb ol_prompt]. rewrite orb_false_r.
  unfold LocalLLMProvider.ollama_prompt.
  do 5 apply includes_append_r. apply includes_append_l.
  unfold LocalLLMProvider.toolsInfo.
  apply includes_join. change (In (LocalLLMProvider.toolLine t') (map LocalLLMProvider.toolLine (t :: tools))).
  apply in_map, Hin.
Qed.

(** C7 (the code falls short of it): the Gemini adapter builds its
    request from the messages and the configuration alone.  With the two
    tools of the demo at hand, its request carries no structured
    definition, and no text of it holds the name or the description of a
    tool; the reply is read for its text only. *)
Theorem C7_gemini_drops_tools :
  (forall cfg messages tools,
     GeminiProvider.request cfg messages tools = GeminiProvider.request cfg messages None /\
     structured_tools (GeminiProvider.request cfg messages tools) = None) /\
  has_tools (Some C7_tools) = true /\
  map fd_name C7_tools = ["mcp_place-order"; "mcp_search-products"] /\
  (let request := GeminiProvider.request C7_gemini C7_messages (Some C7_tools) in
   forallb (fun t => negb (text_mentions request (fd_name t)) &&
                     negb (text_mentions request (fd_description t))) C7_tools = true) /\
  (forall (W : World) cfg messages tools response,
     GeminiProvider.generateResponse W cfg messages tools = Ok response ->
     resp_tool_calls response = None).
Proof.
  split; [intros; split; reflexivity|].
  split; [reflexivity|]. split; [reflexivity|]. split; [vm_compute; reflexivity|].
  intros W cfg messages tools response. unfold GeminiProvider.generateResponse.
  destruct (negb (opt_truthy (apiKey cfg))); [discriminate|].
  destruct (http_post W _); [|discriminate].
  intros [= <-]. reflexivity.
Qed.

(** C7 at the request of the demo *)
Lemma C7_gemini_drops_tools_witness :
  GeminiProvider.generateResponse (Demo.world []) C7_gemini C7_messages (Some C7_tools) =
    Ok {| resp_content := "Your order is on its way."; resp_model := Some "gemini-pro";
          resp_finish_reason := Some "STOP"; resp_tool_calls := None |} /\
  forall response,
    GeminiProvider.generateResponse (Demo.world []) C7_gemini C7_messages (Some C7_tools) =
      Ok response ->
    resp_tool_calls response = None.
Proof.
  split; [reflexivity|].
  intros response. apply (proj2 (proj2 (proj2 (proj2 C7_gemini_drops_tools)))).
Defined.


(** * Further properties *)

(** ** The shape of a trimmed history *)

Lemma slice_last_app {A} (n : nat) (l : list A) :
  exists front, l = (front ++ slice_last n l)%list.
Proof. exists (take (length l - n) l). unfold slice_last. now rewrite take_drop. Qed.

Lemma length_slice_last_eq {A} (n : nat) (l : list A) :
  (n <= length l)%nat -> length (slice_last n l) = n.
Proof. intros H. unfold slice_last. rewrite length_skipn. lia. Qed.

Lemma last_slice_last {A} (n : nat) (l : list A) :
  (0 < n)%nat -> last (slice_last n l) = last l.
Proof.
  intros Hn. destruct (slice_last_app n l) as [front Hl].
  destruct (slice_last n l) as [|x r] eqn:E.
  - assert (Hlen : length (slice_last n l) = 0%nat) by now rewrite E.
    unfold slice_last in Hlen. rewrite length_skipn in Hlen.
    destruct l; [reflexivity | cbn in Hlen; lia].
  - rewrite Hl, last_app.
    destruct (last (x :: r)) eqn:El; [reflexivity|].
    apply last_None in El. discriminate.
Qed.

Lemma last_trimHistory history message :
  last (trimHistory (pushed history message)) = Some message.
Proof.
  unfold trimHistory, pushed.
  destruct (MAX_CONVERSATION_LENGTH <? length (history ++ [message]))%nat eqn:E;
    [|apply last_snoc].
  assert (Hl : last (slice_last (MAX_CONVERSATION_LENGTH - 1) (history ++ [message])) =
               Some message).
  { rewrite last_slice_last by (unfold MAX_CONVERSATION_LENGTH; lia). apply last_snoc. }
  destruct (find_system _); [|exact Hl].
  rewrite last_cons, Hl. reflexivity.
Qed.

Lemma In_trimHistory history m : In m (trimHistory history) -> In m history.
Proof.
  unfold trimHistory.
  destruct (MAX_CONVERSATION_LENGTH <? length history)%nat; [|auto].
  assert (Hs : In m (slice_last (MAX_CONVERSATION_LENGTH - 1) history) -> In m history).
  { destruct (slice_last_app (MAX_CONVERSATION_LENGTH - 1) history) as [front Hl].
    intros H. rewrite Hl. apply in_or_app. now right. }
  destruct (find_system history) as [sys|] eqn:E; [|exact Hs].
  intros [<-|H]; [|auto].
  unfold find_system in E. now apply List.find_some in E.
Qed.

(** X1: when a pushed history is longer than 20, what is stored is the
    last 19 messages in their order, behind the first system message if
    there is one: 20 messages then, 19 otherwise; the newest message
    stays last.  A system message that is itself among the last 19 is
    stored twice. *)
Theorem trimHistory_shape (history : list LLMMessage) :
  (MAX_CONVERSATION_LENGTH < length history)%nat ->
  let recent := slice_last (MAX_CONVERSATION_LENGTH - 1) history in
  (exists older, history = (older ++ recent)%list) /\
  length recent = 19%nat /\
  last (trimHistory history) = last history /\
  match find_system history with
  | Some systemMessage =>
      trimHistory history = systemMessage :: recent /\
      length (trimHistory history) = 20%nat /\
      (In systemMessage recent ->
       exists l1 l2, trimHistory history = (systemMessage :: l1 ++ systemMessage :: l2)%list)
  | None =>
      trimHistory history = recent /\ length (trimHistory history) = 19%nat
  end.
Proof.
  intros Hlong recent.
  assert (Hlen : length recent = 19%nat).
  { apply length_slice_last_eq. unfold MAX_CONVERSATION_LENGTH in *. lia. }
  assert (Hlast : last recent = last history).
  { apply last_slice_last. unfold MAX_CONVERSATION_LENGTH. lia. }
  assert (Htrim : trimHistory history =
                  match find_system history with
                  | Some systemMessage => systemMessage :: recent
                  | None => recent
                  end).
  { unfold trimHistory. apply Nat.ltb_lt in Hlong. now rewrite Hlong. }
  split; [apply slice_last_app|]. split; [exact Hlen|]. split.
  - rewrite Htrim. destruct (find_system history); [|exact Hlast].
    rewrite last_cons, Hlast. destruct (last history) eqn:E; [reflexivity|].
    apply last_None in E. subst history. cbn in Hlong. lia.
  - rewrite Htrim. destruct (find_system history) as [systemMessage|].
    + split; [reflexivity|]. split; [cbn; now rewrite Hlen|].
      intros Hin. apply in_split in Hin as (l1 & l2 & ->). now exists l1, l2.
    + split; [reflexivity | exact Hlen].
Qed.

(** X1 at a history that holds its system message late *)
Lemma trimHistory_shape_witness :
  (MAX_CONVERSATION_LENGTH < length X_late_system)%nat /\
  find_system X_late_system = Some C3_system /\
  length (trimHistory X_late_system) = 20%nat /\
  exists l1 l2, trimHistory X_late_system = (C3_system :: l1 ++ C3_system :: l2)%list.
Proof.
  assert (Hlong : (MAX_CONVERSATION_LENGTH < length X_late_system)%nat) by (vm_compute; lia).
  split; [exact Hlong|]. split; [reflexivity|].
  pose proof (trimHistory_shape X_late_system Hlong) as (_ & _ & _ & H).
  change (find_system X_late_system) with (Some C3_system) in H.
  destruct H as (_ & Hlen & Hdup). split; [exact Hlen|].
  apply Hdup. vm_compute. tauto.
Defined.

(** ** Frames of the orchestrator, for any relation that the record of
       calls and the tool client do not touch *)

Section WorldFrames.

Context (W : World) (R : relation LLMService) `{!PreOrder R}.
Hypothesis R_emit : forall e s, R s (emit e s).
Hypothesis R_mcp : forall m s, R s (set_mcpService m s).

Lemma R_emits events : forall s, R s (fold_left (fun s e => emit e s) events s).
Proof.
  induction events as [|e events IH]; intros s; cbn; [reflexivity|].
  etransitivity; [apply (R_emit e) | apply IH].
Qed.

Lemma provider_generateResponse_frames p messages tools :
  frames R (provider_generateResponse W p messages tools).
Proof.
  intros s. unfold provider_generateResponse.
  destruct p; cbn; try apply R_emit. reflexivity.
Qed.

Lemma ensureMCPConnection_frames : frames R (ensureMCPConnection W).
Proof.
  unfold ensureMCPConnection. frames_step; [frames_step|].
  destruct a; [frames_step|].
  intros s. unfold reinitializeMCPConnection.
  destruct (predefinedMCPServers W); [reflexivity|].
  destruct (MCP.initializeConnection _ _). apply R_mcp.
Qed.

Lemma executeMCPTool_frames toolCall : frames R (executeMCPTool W toolCall).
Proof.
  unfold executeMCPTool.
  apply frames_if; [frames_step|].
  frames_step; [apply ensureMCPConnection_frames|].
  apply frames_if; [frames_step|].
  frames_step.
  { intros s. unfold mcp_callTool. destruct (MCP.callTool W (mcpService s) _). apply R_emits. }
  frames_step; [|frames_step].
  apply frames_if; [|frames_step].
  apply frames_modify. intros s. apply R_emit.
Qed.

Lemma executeToolCalls_frames now toolCalls messages originalResponse :
  frames R (executeToolCalls W now toolCalls messages originalResponse).
Proof.
  unfold executeToolCalls.
  frames_step.
  { frames_step. unfold toolExecution. frames_step; [|frames_step].
    frames_step; [apply executeMCPTool_frames|frames_step]. }
  frames_step; [frames_step|].
  apply frames_if; [frames_step|].
  frames_step; [|frames_step].
  frames_step; [apply provider_generateResponse_frames|frames_step].
Qed.

Lemma handleLLMResponse_frames now response messages :
  frames R (handleLLMResponse W now response messages).
Proof.
  unfold handleLLMResponse.
  destruct (resp_tool_calls response) as [[|tc tcs]|];
    [frames_step | apply executeToolCalls_frames | frames_step].
Qed.

Lemma tryFallbackProvider_frames messages fallbackType :
  frames R (tryFallbackProvider W messages fallbackType).
Proof.
  unfold tryFallbackProvider. apply frames_if; [frames_step|].
  frames_step; [|frames_step].
  frames_step; [apply provider_generateResponse_frames|frames_step].
Qed.

Lemma generateResponse_frames now userMessage history :
  frames R (generateResponse W now userMessage history).
Proof.
  unfold generateResponse. frames_step; [frames_step|].
  destruct a as [cfg|]; [|frames_step].
  frames_step; [frames_step|].
  apply frames_if; [frames_step|].
  frames_step.
  - frames_step; [apply ensureMCPConnection_frames|].
    frames_step; [frames_step|].
    frames_step.
    + frames_step; [apply provider_generateResponse_frames|].
      apply handleLLMResponse_frames.
    + destruct (fallbackProvider cfg); [|frames_step].
      apply frames_if; [apply tryFallbackProvider_frames|frames_step].
  - frames_step; [|frames_step].
    frames_step; [apply provider_generateResponse_frames|].
    apply handleLLMResponse_frames.
Qed.

(** The turn, for a relation that also bears what a turn does to the
    stores of its session *)

Context (sessionId : string).
Hypothesis R_start : forall s, hasActiveOrderFlow sessionId s = false ->
                               R s (initializeOrderFlow sessionId s).
Hypothesis R_get : frames R (getConversationHistory sessionId).
Hypothesis R_add : forall r c now, is_dialogue (mk_msg r c now) = true ->
                     frames R (addToConversationHistory sessionId (mk_msg r c now)).
Hypothesis R_clear : forall s, R s (clearPendingOrderContext sessionId s).

Lemma orderDetection_frames userMessage : frames R (orderDetection userMessage sessionId).
Proof.
  unfold orderDetection. apply frames_if; [|frames_step].
  intros s. unfold bind, gets.
  destruct (hasActiveOrderFlow sessionId s) eqn:E; cbn; [reflexivity|].
  apply R_start, E.
Qed.

Lemma conversationStep_frames now userMessage :
  frames R (conversationStep W now userMessage sessionId).
Proof.
  unfold conversationStep.
  frames_step; [apply R_get|].
  frames_step; [now apply R_add|].
  frames_step; [frames_step|].
  frames_step.
  - frames_step; [apply generateResponse_frames|].
    frames_step; [now apply R_add|frames_step].
  - frames_step; [now apply R_add|frames_step].
Qed.

Lemma ordinaryTurn_split now userMessage :
  ordinaryTurn W now userMessage sessionId =
  (orderDetection userMessage sessionId ;; conversationStep W now userMessage sessionId).
Proof. reflexivity. Qed.

Lemma ordinaryTurn_frames now userMessage :
  frames R (ordinaryTurn W now userMessage sessionId).
Proof.
  rewrite ordinaryTurn_split.
  frames_step; [apply orderDetection_frames | apply conversationStep_frames].
Qed.

Lemma handleTermsAcceptanceResponse_frames now userMessage :
  frames R (handleTermsAcceptanceResponse W now userMessage sessionId).
Proof.
  unfold handleTermsAcceptanceResponse.
  frames_step; [frames_step|].
  destruct a as [pendingOrder|]; [|apply ordinaryTurn_frames].
  apply frames_if.
  - frames_step; [apply frames_modify, R_clear|].
    frames_step; [now apply R_add|].
    destruct (JSON_parse W _); [|frames_step].
    frames_step.
    + frames_step; [apply executeMCPTool_frames|].
      frames_step; [now apply R_add|frames_step].
    + frames_step; [now apply R_add|frames_step].
  - frames_step; [apply frames_modify, R_clear|].
    frames_step; [now apply R_add|].
    frames_step; [now apply R_add|frames_step].
Qed.

Lemma generateResponseWithSession_frames now rnd userMessage given :
  effectiveSessionId now rnd given = sessionId ->
  frames R (generateResponseWithSession W now rnd userMessage given).
Proof.
  intros Hid. unfold generateResponseWithSession. rewrite Hid.
  frames_step; [frames_step|].
  apply frames_if.
  - apply handleTermsAcceptanceResponse_frames.
  - apply ordinaryTurn_frames.
Qed.

End WorldFrames.

(** ** Computations that return *)

Lemma succeeds_ret {A} (a : A) : succeeds (ret a).
Proof. intros s. now exists a. Qed.

Lemma succeeds_gets {A} (f : LLMService -> A) : succeeds (gets f).
Proof. intros s. now exists (f s). Qed.

Lemma succeeds_modify f : succeeds (modify f).
Proof. intros s. now exists tt. Qed.

Lemma succeeds_bind {A B} (m : M A) (k : A -> M B) :
  succeeds m -> (forall a, succeeds (k a)) -> succeeds (bind m k).
Proof.
  intros Hm Hk s. unfold bind. destruct (Hm s) as [a Ha].
  destruct (m s) as [[a'|e] s1]; cbn in Ha; [|discriminate]. apply Hk.
Qed.

Lemma succeeds_catchError {A} (m : M A) (h : string -> M A) :
  (forall e, succeeds (h e)) -> succeeds (catchError m h).
Proof.
  intros Hh s. unfold catchError. destruct (m s) as [[a|e] s1]; [now exists a | apply Hh].
Qed.

Lemma succeeds_addToConversationHistory sessionId message :
  succeeds (addToConversationHistory sessionId message).
Proof. intros s. rewrite addToConversationHistory_eq. now exists tt. Qed.

Lemma succeeds_getConversationHistory sessionId :
  succeeds (getConversationHistory sessionId).
Proof.
  intros s. unfold getConversationHistory.
  destruct (conversationHistory s !! sessionId) as [h|]; eauto.
Qed.

Ltac succeeds_step :=
  first
    [ apply succeeds_ret | apply succeeds_gets | apply succeeds_modify
    | apply succeeds_addToConversationHistory | apply succeeds_getConversationHistory
    | apply succeeds_catchError; intros ?
    | apply succeeds_bind; [|intros ?] ].

Section TurnReturns.

Context (W : World).

Lemma succeeds_generateResponse now userMessage history :
  succeeds (generateResponse W now userMessage history).
Proof.
  unfold generateResponse. succeeds_step; [succeeds_step|].
  destruct a as [cfg|]; [|succeeds_step].
  succeeds_step; [succeeds_step|].
  destruct (negb (providers_has a)); [succeeds_step|].
  succeeds_step. succeeds_step. succeeds_step.
Qed.

Lemma succeeds_ordinaryTurn now userMessage sessionId :
  succeeds (ordinaryTurn W now userMessage sessionId).
Proof.
  unfold ordinaryTurn. succeeds_step.
  { destruct (isOrderRequest userMessage); [|succeeds_step].
    succeeds_step; [succeeds_step|]. destruct a; succeeds_step. }
  succeeds_step; [succeeds_step|].
  succeeds_step; [succeeds_step|].
  succeeds_step. succeeds_step; succeeds_step.
Qed.

End TurnReturns.

(** X2: a turn lets one exception out only, the syntax error of the
    accept branch: the session awaits the terms decision, the utterance
    is an acceptance, and the arguments of the stored call are not JSON.
    Every other turn returns an answer, whatever the providers and the
    tool server do. *)
Theorem turn_fails_only_on_stored_arguments (W : World) (now : Z) (rnd userMessage : string)
    (given : option string) (s : LLMService) (error : string) :
  (generateResponseWithSession W now rnd userMessage given s).1 = Err error ->
  let sessionId := effectiveSessionId now rnd given in
  error = "SyntaxError" /\
  isAccepted userMessage = true /\
  exists pendingOrder,
    pendingOrder_of sessionId s = Some pendingOrder /\
    waitingForTermsAcceptance pendingOrder = true /\
    JSON_parse W (fn_arguments (originalToolCall pendingOrder)) = None.
Proof.
  intros Herr sessionId. revert Herr.
  unfold generateResponseWithSession, bind at 1, gets at 1. fold sessionId.
  destruct (isWaitingForTermsAcceptance sessionId s) eqn:Hw.
  - unfold isWaitingForTermsAcceptance in Hw.
    destruct (pendingOrder_of sessionId s) as [pendingOrder|] eqn:Hp; [|discriminate].
    destruct (isAccepted userMessage) eqn:Hacc.
    + destruct (JSON_parse W (fn_arguments (originalToolCall pendingOrder))) as [parsed|] eqn:Hj.
      * rewrite (handleTerms_accept W _ _ _ _ _ _ Hp Hacc Hj). discriminate.
      * rewrite (handleTerms_accept_syntax_error W _ _ _ _ _ Hp Hacc Hj).
        intros [= <-]. split; [reflexivity|]. split; [reflexivity|]. eauto.
    + rewrite (handleTerms_decline W _ _ _ _ _ Hp Hacc). discriminate.
  - destruct (succeeds_ordinaryTurn W now userMessage sessionId s) as [a Ha].
    rewrite Ha. discriminate.
Qed.

(** X2 at an acceptance of a stored call with malformed arguments *)
Lemma turn_fails_only_on_stored_arguments_witness :
  (generateResponseWithSession (Demo.world []) 2000 "r" "yes" (Some "s1")
     X_waiting_malformed).1 = Err "SyntaxError" /\
  isAccepted "yes" = true /\
  exists pendingOrder,
    pendingOrder_of "s1" X_waiting_malformed = Some pendingOrder /\
    waitingForTermsAcceptance pendingOrder = true /\
    JSON_parse (Demo.world []) (fn_arguments (originalToolCall pendingOrder)) = None.
Proof.
  assert (H : (generateResponseWithSession (Demo.world []) 2000 "r" "yes" (Some "s1")
                 X_waiting_malformed).1 = Err "SyntaxError") by reflexivity.
  split; [exact H|].
  apply (turn_fails_only_on_stored_arguments (Demo.world []) 2000 "r" "yes" (Some "s1")
           X_waiting_malformed "SyntaxError" H).
Defined.

(** ** Sessions do not share *)

#[global] Instance others_same_preorder sessionId : PreOrder (others_same sessionId).
Proof.
  split; unfold others_same.
  - intros s other _. split; reflexivity.
  - intros s1 s2 s3 H12 H23 other Hne.
    destruct (H12 other Hne) as [Ha Hb], (H23 other Hne) as [Hc Hd].
    split; congruence.
Qed.

Lemma others_same_context sessionId context s :
  others_same sessionId s
    (set_sessionContext (<[sessionId := context]> (sessionContext s)) s).
Proof.
  intros other Hne. cbn. split; [reflexivity|]. now rewrite lookup_insert_ne.
Qed.

Lemma others_same_history sessionId history s :
  others_same sessionId s
    (set_conversationHistory (<[sessionId := history]> (conversationHistory s)) s).
Proof.
  intros other Hne. cbn. split; [|reflexivity]. now rewrite lookup_insert_ne.
Qed.

Lemma others_same_clearPending sessionId s :
  others_same sessionId s (clearPendingOrderContext sessionId s).
Proof.
  unfold clearPendingOrderContext.
  destruct (sessionContext s !! sessionId) as [context|]; [|reflexivity].
  destruct (pendingOrderOperation context); [|reflexivity].
  apply others_same_context.
Qed.

Lemma others_same_get sessionId : frames (others_same sessionId) (getConversationHistory sessionId).
Proof.
  intros s. unfold getConversationHistory.
  destruct (conversationHistory s !! sessionId); cbn [snd]; [reflexivity|].
  apply others_same_history.
Qed.

Lemma others_same_add sessionId message :
  frames (others_same sessionId) (addToConversationHistory sessionId message).
Proof. intros s. rewrite addToConversationHistory_eq. apply others_same_history. Qed.

(** X3: a turn writes the history and the context of its own session
    only: those of every other session are after the turn what they
    were before, whether the turn returns or throws. *)
Theorem turn_leaves_other_sessions (W : World) (now : Z) (rnd userMessage : string)
    (given : option string) (s : LLMService) (other : string) :
  other <> effectiveSessionId now rnd given ->
  let s' := (generateResponseWithSession W now rnd userMessage given s).2 in
  conversationHistory s' !! other = conversationHistory s !! other /\
  sessionContext s' !! other = sessionContext s !! other.
Proof.
  intros Hne. cbn zeta.
  assert (H : frames (others_same (effectiveSessionId now rnd given))
                (generateResponseWithSession W now rnd userMessage given)).
  { apply generateResponseWithSession_frames with (sessionId := effectiveSessionId now rnd given);
      try reflexivity; try exact _.
    - intros e s0 o _. split; reflexivity.
    - intros m s0 o _. split; reflexivity.
    - intros s0 _. apply others_same_context.
    - apply others_same_get.
    - intros r c t _. apply others_same_add.
    - apply others_same_clearPending. }
  apply (H s other Hne).
Qed.

(** X3 at a turn of session s2 beside the waiting session s1 *)
Lemma turn_leaves_other_sessions_witness :
  "s1" <> effectiveSessionId 10 "r" (Some "s2") /\
  sessionContext X_two_sessions !! "s1" = sessionContext C2_waiting !! "s1" /\
  isWaitingForTermsAcceptance "s1" X_two_sessions = true /\
  hasActiveOrderFlow "s2" X_two_sessions = true.
Proof.
  assert (Hne : "s1" <> effectiveSessionId 10 "r" (Some "s2")) by discriminate.
  split; [exact Hne|]. split.
  - apply (turn_leaves_other_sessions (Demo.world []) 10 "r" "checkout please" (Some "s2")
             C2_waiting "s1" Hne).
  - split; reflexivity.
Defined.

(** ** What a turn stores *)

#[global] Instance keeps_only_dialogue_preorder : PreOrder keeps_only_dialogue.
Proof. split; unfold keeps_only_dialogue; [intros s; tauto | intros s1 s2 s3; tauto]. Qed.

Lemma only_dialogue_same_history s s' :
  conversationHistory s' = conversationHistory s -> keeps_only_dialogue s s'.
Proof. intros H Hd sid h. rewrite H. apply Hd. Qed.

Lemma forallb_trimHistory (P : LLMMessage -> bool) history :
  forallb P history = true -> forallb P (trimHistory history) = true.
Proof.
  rewrite !forallb_forall. intros H m Hin. apply H, In_trimHistory, Hin.
Qed.

Lemma only_dialogue_add sessionId message :
  is_dialogue message = true ->
  frames keeps_only_dialogue (addToConversationHistory sessionId message).
Proof.
  intros Hm s Hd sid h. rewrite addToConversationHistory_eq. cbn.
  rewrite lookup_insert. case_decide as Hsid; [|apply Hd].
  intros [= <-]. apply forallb_trimHistory. unfold pushed.
  rewrite forallb_app. cbn. rewrite Hm. rewrite !andb_true_r.
  unfold history_of. destruct (conversationHistory s !! sessionId) as [h0|] eqn:E; [|reflexivity].
  apply (Hd _ _ E).
Qed.

Lemma only_dialogue_get sessionId :
  frames keeps_only_dialogue (getConversationHistory sessionId).
Proof.
  intros s Hd sid h. unfold getConversationHistory.
  destruct (conversationHistory s !! sessionId) eqn:E; cbn; [apply Hd|].
  rewrite lookup_insert. case_decide; [|apply Hd]. now intros [= <-].
Qed.

(** X4: a turn stores user and assistant messages only.  The system
    prompt and the order-flow context are made for the request and never
    stored, so the summary of a session never reports a system prompt. *)
Theorem turns_store_dialogue_only (W : World) (now : Z) (rnd userMessage : string)
    (given : option string) (s : LLMService) :
  only_dialogue s ->
  let s' := (generateResponseWithSession W now rnd userMessage given s).2 in
  only_dialogue s' /\
  forall sessionId, systemPrompt (getConversationSummary sessionId s') = false.
Proof.
  intros Hd. cbn zeta.
  assert (Hd' : only_dialogue (generateResponseWithSession W now rnd userMessage given s).2).
  { assert (H : frames keeps_only_dialogue
                  (generateResponseWithSession W now rnd userMessage given)).
    { apply generateResponseWithSession_frames with (sessionId := effectiveSessionId now rnd given);
        try reflexivity; try exact _.
      - intros e s0. now apply only_dialogue_same_history.
      - intros m s0. now apply only_dialogue_same_history.
      - intros s0 _. now apply only_dialogue_same_history.
      - apply only_dialogue_get.
      - intros r c t Hm. now apply only_dialogue_add.
      - intros s0. apply only_dialogue_same_history, clearPendingOrderContext_history. }
    apply (H s Hd). }
  split; [exact Hd'|].
  intros sessionId. unfold getConversationSummary. cbn [systemPrompt].
  destruct (conversationHistory _ !! sessionId) as [h|] eqn:E; [|reflexivity].
  cbn [default]. specialize (Hd' _ _ E).
  apply not_true_is_false. intros Hex. apply existsb_exists in Hex as (m & Hin & Hsys).
  rewrite forallb_forall in Hd'. specialize (Hd' m Hin).
  unfold is_dialogue in Hd'. unfold is_system in Hsys. destruct (role m); discriminate.
Qed.

Lemma only_dialogue_initial : only_dialogue initial.
Proof. intros sid h. cbn. rewrite lookup_empty. discriminate. Qed.

(** X4 at the first turn of the service *)
Lemma turns_store_dialogue_only_witness :
  only_dialogue initial /\
  systemPrompt (getConversationSummary "s1"
    (generateResponseWithSession (Demo.world []) 5 "r" "checkout" (Some "s1") initial).2) = false /\
  messageCount (getConversationSummary "s1"
    (generateResponseWithSession (Demo.world []) 5 "r" "checkout" (Some "s1") initial).2) = 2%nat.
Proof.
  split; [apply only_dialogue_initial|]. split.
  - apply (turns_store_dialogue_only (Demo.world []) 5 "r" "checkout" (Some "s1") initial
             only_dialogue_initial).
  - reflexivity.
Defined.

(** ** Triples *)

Lemma triple_bind {A B} P (m : M A) (k : A -> M B) Q1 Q E :
  triple P m Q1 E -> (forall a, triple (Q1 a) (k a) Q E) -> triple P (bind m k) Q E.
Proof.
  intros Hm Hk s HP. unfold bind. specialize (Hm s HP).
  destruct (m s) as [[a|e] s1]; [apply (Hk a s1 Hm) | exact Hm].
Qed.

Lemma triple_catchError {A} P (m : M A) (h : string -> M A) Q E1 E :
  triple P m Q E1 -> (forall e, triple (E1 e) (h e) Q E) -> triple P (catchError m h) Q E.
Proof.
  intros Hm Hh s HP. unfold catchError. specialize (Hm s HP).
  destruct (m s) as [[a|e] s1]; [exact Hm | apply (Hh e s1 Hm)].
Qed.

Lemma triple_frames {A} (R : relation LLMService) P (m : M A) :
  frames R m -> (forall s s', P s -> R s s' -> P s') ->
  triple P m (fun _ => P) (fun _ => P).
Proof.
  intros Hm Hstable s HP. specialize (Hm s).
  destruct (m s) as [[a|e] s1]; cbn in Hm; eauto.
Qed.

Lemma triple_weaken {A} (P P' : LLMService -> Prop) (m : M A) Q E :
  (forall s, P' s -> P s) -> triple P m Q E -> triple P' m Q E.
Proof. intros H Hm s HP. apply Hm, H, HP. Qed.

(** ** The utterance and its answer end the stored history *)

Lemma trimHistory_ends tail history :
  (length tail <= MAX_CONVERSATION_LENGTH - 1)%nat ->
  (exists front, history = (front ++ tail)%list) ->
  exists front, trimHistory history = (front ++ tail)%list.
Proof.
  intros Hlen [front ->]. unfold trimHistory.
  destruct (Nat.ltb_spec MAX_CONVERSATION_LENGTH (length (front ++ tail))) as [Hlong|_];
    [|now exists front].
  assert (Hs : slice_last (MAX_CONVERSATION_LENGTH - 1) (front ++ tail) =
               (drop (length (front ++ tail) - (MAX_CONVERSATION_LENGTH - 1)) front ++ tail)%list).
  { unfold slice_last. apply drop_app_le.
    rewrite length_app in *. unfold MAX_CONVERSATION_LENGTH in *. lia. }
  rewrite Hs. destruct (find_system _) as [sys|].
  - eexists (sys :: _). reflexivity.
  - eexists. reflexivity.
Qed.

Lemma history_ends_add sessionId tail message s :
  (length tail + 1 <= MAX_CONVERSATION_LENGTH - 1)%nat ->
  history_ends sessionId tail s ->
  history_ends sessionId (tail ++ [message])
    (addToConversationHistory sessionId message s).2.
Proof.
  intros Hlen [front Hh]. rewrite addToConversationHistory_eq. cbn [snd].
  unfold history_ends, history_of at 1. cbn. rewrite lookup_insert_eq. cbn.
  apply trimHistory_ends; [rewrite length_app; cbn [length]; lia|].
  exists front. unfold pushed. rewrite Hh. now rewrite <- app_assoc.
Qed.

Lemma history_ends_untouched sessionId tail s s' :
  history_ends sessionId tail s -> untouched s s' -> history_ends sessionId tail s'.
Proof.
  intros [front H] Hun. exists front. unfold history_of in *.
  destruct Hun as (_&_&_&_&_&_&Hh&_). now rewrite Hh.
Qed.

Section AnswerStored.

Context (W : World) (now : Z) (userMessage session : string).

#[local] Abbreviation asked := (history_ends session [mk_msg user userMessage now]).

Lemma answer_stored text E :
  triple asked
    (addToConversationHistory session (mk_msg assistant text now) ;;
     ret {| response := text; sessionId := session |})
    (answered now userMessage session) E.
Proof.
  intros s Hs. unfold bind. rewrite addToConversationHistory_eq. cbn [ret].
  split; [reflexivity|].
  assert (Hlen : (length [mk_msg user userMessage now] + 1 <= MAX_CONVERSATION_LENGTH - 1)%nat)
    by (unfold MAX_CONVERSATION_LENGTH; cbn; lia).
  pose proof (history_ends_add session _ (mk_msg assistant text now) s Hlen Hs) as H.
  rewrite addToConversationHistory_eq in H. exact H.
Qed.

Lemma asked_after_utterance s :
  asked (addToConversationHistory session (mk_msg user userMessage now) s).2.
Proof.
  apply (history_ends_add session [] (mk_msg user userMessage now) s);
    [unfold MAX_CONVERSATION_LENGTH; cbn; lia|].
  exists (history_of session s). now rewrite app_nil_r.
Qed.

Lemma conversationStep_answered :
  triple (fun _ => True) (conversationStep W now userMessage session)
    (answered now userMessage session) (fun _ _ => True).
Proof.
  unfold conversationStep.
  eapply triple_bind with (Q1 := fun _ _ => True).
  { intros s _. destruct (getConversationHistory session s) as [[h|e] s1]; exact I. }
  intros h.
  eapply triple_bind with (Q1 := fun _ => asked).
  { intros s _. pose proof (asked_after_utterance s) as H.
    rewrite addToConversationHistory_eq in *. exact H. }
  intros _.
  eapply triple_bind with (Q1 := fun _ => asked).
  { intros s Hs. exact Hs. }
  intros flow.
  eapply triple_catchError with (E1 := fun _ => asked).
  - eapply triple_bind with (Q1 := fun _ => asked).
    + apply (triple_frames untouched); [apply generateResponse_untouched|].
      intros s s'. apply history_ends_untouched.
    + intros text. apply answer_stored.
  - intros e. apply answer_stored.
Qed.

Lemma ordinaryTurn_answered :
  triple (fun _ => True) (ordinaryTurn W now userMessage session)
    (answered now userMessage session) (fun _ _ => True).
Proof.
  rewrite ordinaryTurn_split.
  eapply triple_bind with (Q1 := fun _ _ => True); [|intros _; apply conversationStep_answered].
  intros s _. destruct (orderDetection userMessage session s) as [[u|e] s1]; exact I.
Qed.

Lemma handleTermsAcceptanceResponse_answered :
  triple (fun _ => True) (handleTermsAcceptanceResponse W now userMessage session)
    (answered now userMessage session) (fun _ _ => True).
Proof.
  intros s _.
  destruct (pendingOrder_of session s) as [pendingOrder|] eqn:Hp.
  - destruct (isAccepted userMessage) eqn:Hacc.
    + destruct (JSON_parse W (fn_arguments (originalToolCall pendingOrder))) as [parsed|] eqn:Hj.
      * rewrite (handleTerms_accept W _ _ _ _ _ _ Hp Hacc Hj).
        split; [reflexivity|].
        apply (history_ends_add session [mk_msg user userMessage now]);
          [unfold MAX_CONVERSATION_LENGTH; cbn; lia|].
        eapply history_ends_untouched; [apply asked_after_utterance|].
        apply executeMCPTool_untouched.
      * rewrite (handleTerms_accept_syntax_error W _ _ _ _ _ Hp Hacc Hj). exact I.
    + rewrite (handleTerms_decline W _ _ _ _ _ Hp Hacc).
      split; [reflexivity|].
      apply (history_ends_add session [mk_msg user userMessage now]);
        [unfold MAX_CONVERSATION_LENGTH; cbn; lia|].
      apply asked_after_utterance.
  - assert (E : handleTermsAcceptanceResponse W now userMessage session s =
                ordinaryTurn W now userMessage session s).
    { unfold handleTermsAcceptanceResponse, bind at 1, gets at 1. now rewrite Hp. }
    rewrite E. now apply ordinaryTurn_answered.
Qed.

End AnswerStored.

(** X5: whenever a turn returns, its result names the session of the
    turn (the given one, or the new one), and the stored history of that
    session ends with the user's utterance followed by the answer that
    was returned, trimmed or not. *)
Theorem turn_stores_utterance_and_answer (W : World) (now : Z) (rnd userMessage : string)
    (given : option string) (s : LLMService) (r : TurnResult) :
  (generateResponseWithSession W now rnd userMessage given s).1 = Ok r ->
  let session := effectiveSessionId now rnd given in
  let s' := (generateResponseWithSession W now rnd userMessage given s).2 in
  sessionId r = session /\
  (exists earlier,
     history_of session s' =
     (earlier ++ [mk_msg user userMessage now; mk_msg assistant (response r) now])%list) /\
  lastActivity (getConversationSummary session s') = Some now.
Proof.
  intros Hr session s'.
  assert (H : answered now userMessage session r s').
  { subst s'. revert Hr. unfold generateResponseWithSession, bind at 1 2, gets at 1 2.
    fold session.
    destruct (isWaitingForTermsAcceptance session s).
    - pose proof (handleTermsAcceptanceResponse_answered W now userMessage session s I) as H.
      destruct (handleTermsAcceptanceResponse W now userMessage session s) as [[r'|e] s1];
        [|discriminate].
      now intros [= <-].
    - pose proof (ordinaryTurn_answered W now userMessage session s I) as H.
      destruct (ordinaryTurn W now userMessage session s) as [[r'|e] s1]; [|discriminate].
      now intros [= <-]. }
  destruct H as [Hid [earlier Hh]].
  split; [exact Hid|]. split; [now exists earlier|].
  unfold getConversationSummary. cbn [lastActivity].
  fold (history_of session s'). rewrite Hh.
  rewrite (last_app earlier). reflexivity.
Qed.

(** X5 at a first turn without session id *)
Lemma turn_stores_utterance_and_answer_witness :
  let turn := generateResponseWithSession (Demo.world []) 1000 "k3x9" "hello" None initial in
  turn.1 = Ok {| response := greeting; sessionId := "session_1000_k3x9" |} /\
  history_of "session_1000_k3x9" turn.2 =
    [mk_msg user "hello" 1000; mk_msg assistant greeting 1000] /\
  lastActivity (getConversationSummary "session_1000_k3x9" turn.2) = Some 1000.
Proof.
  cbn zeta.
  assert (H : (generateResponseWithSession (Demo.world []) 1000 "k3x9" "hello" None initial).1 =
              Ok {| response := greeting; sessionId := "session_1000_k3x9" |}) by reflexivity.
  split; [exact H|]. split; [reflexivity|].
  apply (turn_stores_utterance_and_answer (Demo.world []) 1000 "k3x9" "hello" None initial _ H).
Defined.

(** ** The first request of a turn *)

#[global] Instance trace_extends_preorder : PreOrder trace_extends.
Proof.
  split; unfold trace_extends.
  - intros s. exists []. now rewrite app_nil_r.
  - intros s1 s2 s3 [e1 H1] [e2 H2]. exists (e1 ++ e2)%list.
    now rewrite H2, H1, app_assoc.
Qed.

Lemma trace_extends_emit e s : trace_extends s (emit e s).
Proof. now exists [e]. Qed.

Lemma trace_extends_same s s' : trace s' = trace s -> trace_extends s s'.
Proof. intros H. exists []. now rewrite app_nil_r. Qed.

Lemma requested_stable base p messages s s' :
  requested base p messages s -> trace_extends s s' -> requested base p messages s'.
Proof.
  intros (tools & events & H) [more Hm]. exists tools, (events ++ more)%list.
  rewrite Hm, H. now rewrite <- app_assoc.
Qed.

Lemma triple_post {A} P (m : M A) (Q Q' : A -> LLMService -> Prop)
    (E E' : string -> LLMService -> Prop) :
  (forall a s, Q a s -> Q' a s) -> (forall e s, E e s -> E' e s) ->
  triple P m Q E -> triple P m Q' E'.
Proof.
  intros HQ HE Hm s HP. specialize (Hm s HP).
  destruct (m s) as [[a|e] s1]; auto.
Qed.

Lemma orderDetection_eq userMessage sessionId s :
  orderDetection userMessage sessionId s = (Ok tt, afterDetection userMessage sessionId s).
Proof.
  unfold orderDetection, afterDetection.
  destruct (isOrderRequest userMessage); [|reflexivity].
  unfold bind, gets. destruct (hasActiveOrderFlow sessionId s); reflexivity.
Qed.

Lemma afterDetection_fields userMessage sessionId s :
  let s1 := afterDetection userMessage sessionId s in
  config s1 = config s /\ currentProvider s1 = currentProvider s /\
  trace s1 = trace s /\ conversationHistory s1 = conversationHistory s /\
  mcpService s1 = mcpService s.
Proof.
  unfold afterDetection.
  destruct (isOrderRequest userMessage && negb (hasActiveOrderFlow sessionId s));
    cbn; tauto.
Qed.

Section FirstRequest.

Context (W : World) (now : Z) (userMessage : string).

Lemma conversationStep_eq session s :
  conversationStep W now userMessage session s =
  catchError
    (response <- generateResponse W now userMessage
                   (enhancedHistory W now
                      (pushed (history_of session s) (mk_msg user userMessage now))
                      (orderFlow_of session s)) ;;
     addToConversationHistory session (mk_msg assistant response now) ;;
     ret {| response := response; sessionId := session |})
    (fun error =>
       addToConversationHistory session
         (mk_msg assistant (getFallbackResponse userMessage (Some error)) now) ;;
       ret {| response := getFallbackResponse userMessage (Some error);
              sessionId := session |})
    (addToConversationHistory session (mk_msg user userMessage now) s).2.
Proof.
  unfold conversationStep, bind at 1.
  assert (Hget : exists s0, getConversationHistory session s = (Ok (history_of session s), s0) /\
                   addToConversationHistory session (mk_msg user userMessage now) s0 =
                   addToConversationHistory session (mk_msg user userMessage now) s).
  { unfold getConversationHistory, history_of.
    destruct (conversationHistory s !! session) as [h|] eqn:E.
    - eexists. split; reflexivity.
    - eexists. split; [reflexivity|].
      rewrite !addToConversationHistory_eq. unfold history_of. cbn.
      rewrite lookup_insert_eq, E, insert_insert_eq. reflexivity. }
  destruct Hget as (s0 & -> & Hadd).
  unfold bind at 1. rewrite Hadd, addToConversationHistory_eq.
  unfold bind at 1, gets at 1. reflexivity.
Qed.

Lemma ensureMCPConnection_trace base :
  triple (fun s => trace s = base /\ True) (ensureMCPConnection W)
    (fun _ s => trace s = base) (fun _ _ => False).
Proof.
  intros s [Ht _]. unfold ensureMCPConnection, bind, gets.
  destruct (MCP.isReady (mcpService s)); [exact Ht|].
  unfold reinitializeMCPConnection.
  destruct (predefinedMCPServers W); [exact Ht|].
  destruct (MCP.initializeConnection _ _). exact Ht.
Qed.

Lemma generateResponse_first_request history cfg p s :
  config s = Some cfg -> currentProvider s = p -> providers_has p = true ->
  let messages := (createSystemPrompt W now :: history ++ [mk_msg user userMessage now])%list in
  requested (trace s) p messages (generateResponse W now userMessage history s).2.
Proof.
  intros Hc Hp Hprov messages.
  assert (H : match generateResponse W now userMessage history s with
              | (Ok _, s') | (Err _, s') => requested (trace s) p messages s'
              end).
  { unfold generateResponse, bind at 1, gets at 1. rewrite Hc.
    unfold bind at 1, gets at 1. rewrite Hp, Hprov. cbn [negb].
    fold messages.
    refine (triple_catchError (fun s0 => trace s0 = trace s) _ _
              (fun _ => requested (trace s) p messages)
              (fun _ => requested (trace s) p messages)
              (fun _ => requested (trace s) p messages) _ _ s eq_refl).
    - eapply triple_bind with (Q1 := fun _ s0 => trace s0 = trace s).
      { eapply triple_post; [| |eapply triple_weaken; [|apply (ensureMCPConnection_trace (trace s))]];
          cbn; [auto | intros _ _ [] | auto]. }
      intros _.
      eapply triple_bind with (Q1 := fun _ s0 => trace s0 = trace s).
      { intros s0 H0. exact H0. }
      intros tools.
      eapply triple_catchError with (E1 := fun _ => requested (trace s) p messages).
      + eapply triple_bind with (Q1 := fun _ => requested (trace s) p messages).
        * intros s0 H0. rewrite provider_generateResponse_eq by exact Hprov.
          assert (Hr : requested (trace s) p messages (emit (EvGenerate p messages (Some tools)) s0)).
          { exists tools, []. cbn. now rewrite H0. }
          destruct (provider_generateResponse W p messages (Some tools) s0).1; exact Hr.
        * intros response.
          apply (triple_frames trace_extends);
            [|intros s0 s'; apply requested_stable].
          apply handleLLMResponse_frames; [exact _ | apply trace_extends_emit|].
          intros m s0. now apply trace_extends_same.
      + intros error. apply (triple_frames trace_extends);
          [|intros s0 s'; apply requested_stable].
        destruct (fallbackProvider cfg); [|apply frames_ret; exact _].
        apply frames_if; [|apply frames_ret; exact _].
        apply tryFallbackProvider_frames; [exact _ | apply trace_extends_emit].
    - intros error. apply (triple_frames trace_extends);
        [|intros s0 s'; apply requested_stable].
      apply frames_catchError; [exact _| |intros ?; apply frames_ret; exact _].
      apply frames_bind; [exact _| |intros ?].
      + apply provider_generateResponse_frames; [exact _ | apply trace_extends_emit].
      + apply handleLLMResponse_frames; [exact _ | apply trace_extends_emit|].
        intros m s0. now apply trace_extends_same. }
  destruct (generateResponse W now userMessage history s) as [[r|e] s']; exact H.
Qed.

End FirstRequest.

(** X6: in a turn that goes to a provider, the first request carries,
    in this order: the system prompt, the stored history of the session,
    the user's utterance (the stored array was pushed to before it was
    handed over), the order-flow context while a flow is active, and the
    utterance once more.  Without an active flow the request thus ends
    with the utterance twice; an overlong history is sent untrimmed. *)
Theorem first_request_of_turn (W : World) (now : Z) (rnd userMessage : string)
    (given : option string) (s : LLMService) (cfg : LLMServiceConfig) :
  config s = Some cfg ->
  providers_has (currentProvider s) = true ->
  let session := effectiveSessionId now rnd given in
  isWaitingForTermsAcceptance session s = false ->
  let flow := orderFlow_of session (afterDetection userMessage session s) in
  let userMsg := mk_msg user userMessage now in
  requested (trace s) (currentProvider s)
    (requestMessages W now userMessage (history_of session s) flow)
    (generateResponseWithSession W now rnd userMessage given s).2 /\
  (hasActiveOrderFlow session (afterDetection userMessage session s) = false ->
   requestMessages W now userMessage (history_of session s) flow =
   (createSystemPrompt W now :: history_of session s ++ [userMsg; userMsg])%list) /\
  (forall f, flow = Some f -> isActive f = true ->
   requestMessages W now userMessage (history_of session s) flow =
   (createSystemPrompt W now :: history_of session s ++
      [userMsg; orderContextMessage W now f; userMsg])%list).
Proof.
  intros Hc Hp session Hw flow userMsg.
  pose proof (afterDetection_fields userMessage session s) as (Hc1 & Hp1 & Ht1 & Hh1 & _).
  set (s1 := afterDetection userMessage session s) in *.
  split; [|split].
  - unfold generateResponseWithSession, bind at 1, gets at 1. fold session. rewrite Hw.
    rewrite ordinaryTurn_split. unfold bind at 1. rewrite orderDetection_eq. fold s1.
    rewrite conversationStep_eq.
    set (s2 := (addToConversationHistory session (mk_msg user userMessage now) s1).2).
    assert (Hs2 : config s2 = Some cfg /\ currentProvider s2 = currentProvider s /\
                  trace s2 = trace s).
    { subst s2. rewrite addToConversationHistory_eq. cbn. rewrite Hc1, Hp1, Ht1. auto. }
    destruct Hs2 as (Hc2 & Hp2 & Ht2).
    assert (Hhist : history_of session s1 = history_of session s).
    { unfold history_of. now rewrite Hh1. }
    rewrite Hhist.
    pose proof (generateResponse_first_request W now userMessage
                  (enhancedHistory W now (pushed (history_of session s) userMsg)
                     (orderFlow_of session s1))
                  cfg (currentProvider s) s2 Hc2 Hp2 Hp) as H.
    cbn zeta in H. rewrite Ht2 in H.
    unfold catchError, bind.
    destruct (generateResponse W now userMessage _ s2) as [[r|e] s3]; cbn [snd] in H;
      rewrite addToConversationHistory_eq; cbn [snd ret];
      destruct H as (tools & events & H); exists tools, events; exact H.
  - intros Hinactive. unfold requestMessages, enhancedHistory, pushed. fold userMsg.
    unfold hasActiveOrderFlow in Hinactive. fold flow in Hinactive.
    destruct flow as [f|]; [rewrite Hinactive|]; now rewrite <- app_assoc.
  - intros f -> Hactive. unfold requestMessages, enhancedHistory, pushed. fold userMsg.
    rewrite Hactive. now rewrite <- !app_assoc.
Qed.

(** X6 at an order request with OpenAI active *)
Lemma first_request_of_turn_witness :
  config Demo.connected = Some Demo.serviceConfig /\
  providers_has (currentProvider Demo.connected) = true /\
  isWaitingForTermsAcceptance "s1" Demo.connected = false /\
  requested (trace Demo.connected) openai
    (createSystemPrompt (Demo.world []) 7 ::
     [mk_msg user "checkout" 7;
      orderContextMessage (Demo.world []) 7
        {| isActive := true; currentStep := payment; collectedData := ∅; availableOptions := ∅ |};
      mk_msg user "checkout" 7])
    (generateResponseWithSession (Demo.world []) 7 "r" "checkout" (Some "s1") Demo.connected).2.
Proof.
  split; [reflexivity|]. split; [reflexivity|]. split; [reflexivity|].
  apply (first_request_of_turn (Demo.world []) 7 "r" "checkout" (Some "s1") Demo.connected
           Demo.serviceConfig eq_refl eq_refl eq_refl).
Defined.

(** ** Order flows under turns *)

#[local] Instance same_flows_preorder : PreOrder same_flows.
Proof.
  split; [intros s sid; reflexivity|].
  intros s1 s2 s3 H12 H23 sid. now rewrite H23, H12.
Qed.

Lemma same_context_same_flows s s' :
  sessionContext s' = sessionContext s -> same_flows s s'.
Proof. intros H sid. unfold orderFlow_of. now rewrite H. Qed.

Lemma same_flows_add sessionId message : frames same_flows (addToConversationHistory sessionId message).
Proof. intros s. apply same_context_same_flows. now rewrite addToConversationHistory_eq. Qed.

Lemma same_flows_get sessionId : frames same_flows (getConversationHistory sessionId).
Proof.
  intros s. apply same_context_same_flows. unfold getConversationHistory.
  destruct (conversationHistory s !! sessionId); reflexivity.
Qed.

Lemma conversationStep_same_flows W now userMessage sessionId :
  frames same_flows (conversationStep W now userMessage sessionId).
Proof.
  apply conversationStep_frames; try exact _.
  - intros e s. now apply same_context_same_flows.
  - intros m s. now apply same_context_same_flows.
  - apply same_flows_get.
  - intros r c t _. apply same_flows_add.
Qed.

Lemma ordinaryTurn_flows W now userMessage sessionId s sid :
  orderFlow_of sid (ordinaryTurn W now userMessage sessionId s).2 =
  orderFlow_of sid (afterDetection userMessage sessionId s).
Proof.
  rewrite ordinaryTurn_split. unfold bind at 1. rewrite orderDetection_eq.
  apply (conversationStep_same_flows W now userMessage sessionId).
Qed.

Lemma afterDetection_flow userMessage sessionId s sid :
  orderFlow_of sid (afterDetection userMessage sessionId s) =
  if isOrderRequest userMessage && negb (hasActiveOrderFlow sessionId s) &&
     bool_decide (sid = sessionId)
  then Some freshFlow else orderFlow_of sid s.
Proof.
  unfold afterDetection.
  destruct (isOrderRequest userMessage && negb (hasActiveOrderFlow sessionId s)); [|reflexivity].
  cbn [andb]. case_bool_decide as Hsid.
  - subst sid. apply orderFlow_of_set_orderFlow.
  - unfold initializeOrderFlow, set_orderFlow, orderFlow_of. cbn.
    now rewrite lookup_insert_ne by congruence.
Qed.

Lemma waiting_has_pending sessionId s :
  isWaitingForTermsAcceptance sessionId s = true ->
  exists p, pendingOrder_of sessionId s = Some p.
Proof.
  unfold isWaitingForTermsAcceptance.
  destruct (pendingOrder_of sessionId s) as [p|]; [eauto|discriminate].
Qed.

(** The decision on a pending order, for any relation that the tool
    call, the stored messages and the clearing of the pending order
    respect *)
Section DecisionFrames.

Context (W : World) (R : relation LLMService) `{!PreOrder R} (session : string).
Hypothesis R_tool : forall toolCall, frames R (executeMCPTool W toolCall).
Hypothesis R_add : forall message, frames R (addToConversationHistory session message).
Hypothesis R_clear : forall s, R s (clearPendingOrderContext session s).

Lemma decision_frames now userMessage s p :
  pendingOrder_of session s = Some p ->
  R s (handleTermsAcceptanceResponse W now userMessage session s).2.
Proof.
  intros Hp. unfold handleTermsAcceptanceResponse, bind at 1, gets at 1. rewrite Hp.
  clear Hp. revert s.
  change (frames R
    (if isAccepted userMessage
     then modify (clearPendingOrderContext session) ;;
          addToConversationHistory session (mk_msg user userMessage now) ;;
          match JSON_parse W (fn_arguments (originalToolCall p)) with
          | None => throwError "SyntaxError"
          | Some parsed =>
              catchError
                (result <- executeMCPTool W
                   {| tc_id := tc_id (originalToolCall p);
                      fn_name := fn_name (originalToolCall p);
                      fn_arguments :=
                        JSON_stringify W (<["termsChecked" := JBool true]> parsed) |} ;;
                 addToConversationHistory session
                   (mk_msg assistant
                      ("Thank you for accepting the terms and conditions. " +:+
                       formatToolResult W result) now) ;;
                 ret {| response := "Thank you for accepting the terms and conditions. " +:+
                                    formatToolResult W result;
                        sessionId := session |})
                (fun error =>
                   addToConversationHistory session
                     (mk_msg assistant
                        ("I've processed your acceptance of the terms, but encountered an error while placing the order: "
                         +:+ error) now) ;;
                   ret {| response :=
                            "I've processed your acceptance of the terms, but encountered an error while placing the order: "
                            +:+ error;
                          sessionId := session |})
          end
     else modify (clearPendingOrderContext session) ;;
          addToConversationHistory session (mk_msg user userMessage now) ;;
          addToConversationHistory session (mk_msg assistant refusal now) ;;
          ret {| response := refusal; sessionId := session |})).
  assert (Hclear : frames R (modify (clearPendingOrderContext session))).
  { intros s0. apply R_clear. }
  apply frames_if.
  - frames_step; [apply Hclear|].
    frames_step; [apply R_add|].
    destruct (JSON_parse W _); [|frames_step].
    frames_step.
    + frames_step; [apply R_tool|].
      frames_step; [apply R_add|frames_step].
    + frames_step; [apply R_add|frames_step].
  - frames_step; [apply Hclear|].
    frames_step; [apply R_add|].
    frames_step; [apply R_add|frames_step].
Qed.

End DecisionFrames.

Lemma decision_same_flows W now userMessage sessionId s p :
  pendingOrder_of sessionId s = Some p ->
  same_flows s (handleTermsAcceptanceResponse W now userMessage sessionId s).2.
Proof.
  apply decision_frames; try exact _.
  - intros toolCall. apply executeMCPTool_frames; try exact _.
    + intros e s0. now apply same_context_same_flows.
    + intros m s0. now apply same_context_same_flows.
  - intros message. apply same_flows_add.
  - intros s0 sid. apply clearPendingOrderContext_orderFlow.
Qed.

Lemma generateResponseWithSession_flows (W : World) (now : Z) (rnd userMessage : string)
    (given : option string) (s : LLMService) (sid : string) :
  let session := effectiveSessionId now rnd given in
  orderFlow_of sid (generateResponseWithSession W now rnd userMessage given s).2 =
  if isOrderRequest userMessage && negb (isWaitingForTermsAcceptance session s) &&
     negb (hasActiveOrderFlow session s) && bool_decide (sid = session)
  then Some freshFlow
  else orderFlow_of sid s.
Proof.
  intros session.
  unfold generateResponseWithSession, bind at 1, gets at 1. fold session.
  destruct (isWaitingForTermsAcceptance session s) eqn:Hw.
  - rewrite andb_false_r. cbn [andb].
    destruct (waiting_has_pending _ _ Hw) as [p Hp].
    apply (decision_same_flows W now userMessage session s p Hp).
  - rewrite ordinaryTurn_flows, afterDetection_flow. now rewrite andb_true_r.
Qed.


Lemma afterTurn_fresh W s t :
  only_fresh_flows s -> only_fresh_flows (afterTurn W s t).
Proof.
  intros H sid f. unfold afterTurn. rewrite generateResponseWithSession_flows.
  destruct (_ && _); [congruence | apply H].
Qed.

(** X8: no run of turns takes an order flow beyond its first step.  If
    every stored flow is as it was made (active, at [payment], nothing
    collected, no options), so it is after any number of turns, whatever
    is said in them and whatever the providers and tools answer: the
    step a session reports is [payment] or none. *)
Theorem turns_keep_flows_at_payment (W : World) (inputs : list Turn) (s : LLMService) :
  only_fresh_flows s ->
  only_fresh_flows (runTurns W inputs s) /\
  forall sid, getCurrentOrderStep sid (runTurns W inputs s) = None \/
              getCurrentOrderStep sid (runTurns W inputs s) = Some payment.
Proof.
  intros H.
  assert (Hrun : only_fresh_flows (runTurns W inputs s)).
  { revert s H. unfold runTurns.
    induction inputs as [|t inputs IH]; intros s H; cbn; [exact H|].
    apply IH, afterTurn_fresh, H. }
  split; [exact Hrun|].
  intros sid. unfold getCurrentOrderStep.
  destruct (orderFlow_of sid (runTurns W inputs s)) as [f|] eqn:E; [|now left].
  right. now rewrite (Hrun sid f E).
Qed.

(** X8 at three turns, two of them with an order phrase *)
Lemma turns_keep_flows_at_payment_witness :
  only_fresh_flows (runTurns (Demo.world []) X_three_turns Demo.connected) /\
  forall sid, getCurrentOrderStep sid (runTurns (Demo.world []) X_three_turns Demo.connected) = None \/
              getCurrentOrderStep sid (runTurns (Demo.world []) X_three_turns Demo.connected) = Some payment.
Proof.
  apply (turns_keep_flows_at_payment (Demo.world []) X_three_turns Demo.connected).
  intros sid f. unfold orderFlow_of. cbn. now rewrite lookup_empty.
Defined.

(** ** Failing providers *)

Section Failover.

Context (W : World).

Lemma adapterAnswer_untouched s s' p messages tools :
  untouched s s' -> adapterAnswer W s' p messages tools = adapterAnswer W s p messages tools.
Proof.
  intros (_ & _ & Hl & Ho & Hg & _). unfold adapterAnswer, provider_generateResponse.
  destruct p; cbn; congruence.
Qed.

Lemma adapterAnswer_emit e s p messages tools :
  adapterAnswer W (emit e s) p messages tools = adapterAnswer W s p messages tools.
Proof. unfold adapterAnswer, provider_generateResponse. destruct p; reflexivity. Qed.

Lemma provider_generateResponse_answer p messages tools s :
  providers_has p = true ->
  provider_generateResponse W p messages tools s =
  (adapterAnswer W s p messages tools, emit (EvGenerate p messages tools) s).
Proof. intros H. destruct p; try discriminate; reflexivity. Qed.

Lemma ensureMCPConnection_eq s :
  exists b, ensureMCPConnection W s = (Ok b, (ensureMCPConnection W s).2).
Proof.
  unfold ensureMCPConnection, bind, gets.
  destruct (MCP.isReady (mcpService s)); [eexists; reflexivity|].
  unfold reinitializeMCPConnection.
  destruct (predefinedMCPServers W); [eexists; reflexivity|].
  destruct (MCP.initializeConnection _ _). eexists; reflexivity.
Qed.

Lemma ensureMCPConnection_same_trace s : trace (ensureMCPConnection W s).2 = trace s.
Proof.
  unfold ensureMCPConnection, bind, gets.
  destruct (MCP.isReady (mcpService s)); [reflexivity|].
  unfold reinitializeMCPConnection.
  destruct (predefinedMCPServers W); [reflexivity|].
  destruct (MCP.initializeConnection _ _). reflexivity.
Qed.

Lemma last_content_request (sys userMsg : LLMMessage) history :
  last_content (sys :: history ++ [userMsg]) = content userMsg.
Proof.
  unfold last_content.
  change (sys :: history ++ [userMsg])%list with ((sys :: history) ++ [userMsg])%list.
  now rewrite last_snoc.
Qed.

Lemma tryFallbackProvider_eq messages fallbackType s :
  tryFallbackProvider W messages fallbackType s =
  if providers_has fallbackType
  then (Ok match adapterAnswer W s fallbackType messages None with
           | Ok response => resp_content response
           | Err _ => getFallbackResponse (last_content messages) None
           end,
        emit (EvGenerate fallbackType messages None) s)
  else (Ok (getFallbackResponse (last_content messages) None), s).
Proof.
  unfold tryFallbackProvider.
  destruct (providers_has fallbackType) eqn:H; [|reflexivity].
  cbn [negb]. unfold catchError, bind.
  rewrite provider_generateResponse_answer by exact H.
  destruct (adapterAnswer W s fallbackType messages None); reflexivity.
Qed.

(** The request of [generateResponse], and what follows its failure *)
Lemma generateResponse_failure now userMessage history cfg e s :
  config s = Some cfg ->
  providers_has (currentProvider s) = true ->
  let p := currentProvider s in
  let messages := (createSystemPrompt W now :: history ++ [mk_msg user userMessage now])%list in
  let tools := Some (toolsOffered W s) in
  adapterAnswer W s p messages tools = Err e ->
  generateResponse W now userMessage history s =
  match fallbackProvider cfg with
  | Some fallbackType =>
      if enableFallback cfg && bool_decide (fallbackType ≠ p)
      then tryFallbackProvider W messages fallbackType
      else ret (getFallbackResponse userMessage (Some e))
  | None => ret (getFallbackResponse userMessage (Some e))
  end (emit (EvGenerate p messages tools) (ensureMCPConnection W s).2).
Proof.
  intros Hc Hp p messages tools He. subst p messages tools. unfold toolsOffered in *.
  pose proof (ensureMCPConnection_untouched W s) as Hu.
  destruct (ensureMCPConnection_eq s) as [b Hb].
  set (s1 := (ensureMCPConnection W s).2) in *.
  unfold generateResponse. unfold bind at 1, gets at 1. rewrite Hc.
  unfold bind at 1, gets at 1. rewrite Hp. cbn [negb].
  unfold catchError at 1. unfold bind at 1. rewrite Hb.
  unfold bind at 1, gets at 1. unfold catchError at 1. unfold bind at 1.
  rewrite provider_generateResponse_answer by exact Hp.
  rewrite (adapterAnswer_untouched s s1) by exact Hu.
  rewrite He.
  destruct (fallbackProvider cfg) as [fb|]; [|reflexivity].
  destruct (enableFallback cfg && bool_decide (fb ≠ currentProvider s)); [|reflexivity].
  rewrite tryFallbackProvider_eq. destruct (providers_has fb); reflexivity.
Qed.

End Failover.

(** X9: what follows when the active provider fails the request of a
    turn (the request with the tool definitions).  With another
    registered provider configured to fall back to, that provider is
    asked once, with the same messages and without tools, and its text
    is the answer; if it fails too, or if the configured fallback is the
    built-in one, the answer is the rule-based reply to the utterance,
    which does not mention the failure.  Only without a usable fallback
    is the answer the apology that quotes the utterance.  In every case
    the call returns, and nothing else is asked of a provider. *)
Theorem provider_failure_falls_back (W : World) (now : Z) (userMessage : string)
    (history : list LLMMessage) (cfg : LLMServiceConfig) (e : string) (s : LLMService) :
  config s = Some cfg ->
  providers_has (currentProvider s) = true ->
  let p := currentProvider s in
  let messages := (createSystemPrompt W now :: history ++ [mk_msg user userMessage now])%list in
  let first := EvGenerate p messages (Some (toolsOffered W s)) in
  adapterAnswer W s p messages (Some (toolsOffered W s)) = Err e ->
  let out := generateResponse W now userMessage history s in
  (forall fallbackType,
     fallbackProvider cfg = Some fallbackType -> enableFallback cfg = true ->
     fallbackType <> p -> providers_has fallbackType = true ->
     out.1 = Ok match adapterAnswer W s fallbackType messages None with
                | Ok response => resp_content response
                | Err _ => getFallbackResponse userMessage None
                end /\
     trace out.2 = (trace s ++ [first; EvGenerate fallbackType messages None])%list) /\
  (fallbackProvider cfg = Some fallback -> enableFallback cfg = true ->
     out.1 = Ok (getFallbackResponse userMessage None) /\
     trace out.2 = (trace s ++ [first])%list) /\
  (fallbackProvider cfg = None \/ enableFallback cfg = false \/ fallbackProvider cfg = Some p ->
     out.1 = Ok (getFallbackResponse userMessage (Some e)) /\
     trace out.2 = (trace s ++ [first])%list).
Proof.
  intros Hc Hp p messages first He out.
  pose proof (generateResponse_failure W now userMessage history cfg e s Hc Hp He) as Hout.
  fold p messages first out in Hout.
  pose proof (ensureMCPConnection_same_trace W s) as Ht.
  pose proof (ensureMCPConnection_untouched W s) as Hu.
  set (s1 := (ensureMCPConnection W s).2) in *.
  split; [|split].
  - intros fb Hfb Hen Hne Hhas. rewrite Hfb, Hen in Hout.
    rewrite bool_decide_true in Hout by exact Hne. cbn [andb] in Hout.
    rewrite tryFallbackProvider_eq, Hhas in Hout. rewrite Hout. cbn [fst snd].
    rewrite adapterAnswer_emit, (adapterAnswer_untouched W s s1) by exact Hu.
    unfold messages at 2. rewrite last_content_request. cbn [content mk_msg].
    split; [reflexivity|]. cbn [trace emit]. rewrite Ht. now rewrite <- app_assoc.
  - intros Hfb Hen. rewrite Hfb, Hen in Hout.
    rewrite bool_decide_true in Hout by (intros E; subst p; rewrite <- E in Hp; discriminate).
    cbn [andb] in Hout. rewrite tryFallbackProvider_eq in Hout. cbn [providers_has] in Hout.
    rewrite Hout. cbn [fst snd]. unfold messages. rewrite last_content_request.
    split; [reflexivity|]. cbn [trace emit]. now rewrite Ht.
  - intros Hno.
    assert (Hret : out = (Ok (getFallbackResponse userMessage (Some e)), emit first s1)).
    { rewrite Hout. destruct Hno as [Hno|[Hno|Hno]].
      - now rewrite Hno.
      - rewrite Hno. now destruct (fallbackProvider cfg).
      - rewrite Hno. rewrite bool_decide_false by tauto. now rewrite andb_false_r. }
    rewrite Hret. cbn [fst snd]. split; [reflexivity|]. cbn [trace emit]. now rewrite Ht.
Qed.

(** X9 at a local model that is down, with Gemini to fall back to *)
Lemma provider_failure_falls_back_witness :
  config X_local_active = Some X_failover_config /\
  providers_has (currentProvider X_local_active) = true /\
  adapterAnswer (Demo.world []) X_local_active local
    (createSystemPrompt (Demo.world []) 7 :: [] ++ [mk_msg user "Where is my order?" 7])
    (Some (toolsOffered (Demo.world []) X_local_active)) =
    Err "Local LLM server error. Please check server logs." /\
  (generateResponse (Demo.world []) 7 "Where is my order?" [] X_local_active).1 =
    Ok "Your order is on its way.".
Proof.
  split; [reflexivity|]. split; [reflexivity|]. split; [vm_compute; reflexivity|].
  pose proof (provider_failure_falls_back (Demo.world []) 7 "Where is my order?" []
                X_failover_config "Local LLM server error. Please check server logs."
                X_local_active eq_refl eq_refl) as H.
  cbn zeta in H.
  destruct (H ltac:(vm_compute; reflexivity)) as (Hfb & _).
  destruct (Hfb gemini eq_refl eq_refl ltac:(discriminate) eq_refl) as (Hans & _).
  rewrite Hans. vm_compute. reflexivity.
Defined.

(** ** The number of requests a turn makes of providers *)

Lemma asks_same s s' : same_generations s s' -> asks 0 s s'.
Proof. intros H. exists []. rewrite app_nil_r. split; [exact H | cbn; lia]. Qed.

Lemma asks_trans n m s1 s2 s3 : asks n s1 s2 -> asks m s2 s3 -> asks (n + m) s1 s3.
Proof.
  intros (l1 & H1 & L1) (l2 & H2 & L2). exists (l1 ++ l2)%list.
  rewrite H2, H1, <- app_assoc, length_app. split; [reflexivity | lia].
Qed.

Lemma asks_weaken n m s s' : (n <= m)%nat -> asks n s s' -> asks m s s'.
Proof. intros Hle (l & H & L). exists l. split; [exact H | lia]. Qed.

Lemma asks_emit e s : asks 1 s (emit e s).
Proof.
  exists (if is_generate e then [e] else []). rewrite generations_emit.
  split; [reflexivity|]. destruct (is_generate e); cbn; lia.
Qed.

Lemma same_trace_same_generations s s' : trace s' = trace s -> same_generations s s'.
Proof. intros H. unfold same_generations, generations. now rewrite H. Qed.

Section Requests.

Context (W : World).

Lemma provider_generateResponse_asks p messages tools s :
  asks 1 s (provider_generateResponse W p messages tools s).2.
Proof.
  unfold provider_generateResponse. destruct p; cbn [snd]; try apply asks_emit.
  apply asks_weaken with 0%nat; [lia | now apply asks_same].
Qed.

Lemma succeeds_executeToolCalls now toolCalls messages originalResponse :
  succeeds (executeToolCalls W now toolCalls messages originalResponse).
Proof.
  unfold executeToolCalls. apply succeeds_bind.
  { intros s. destruct (batch_total W now toolCalls s) as (r & s' & H & _).
    exists r. now rewrite H. }
  intros toolResults. succeeds_step; [succeeds_step|].
  destruct (negb (providers_has a)); succeeds_step. succeeds_step.
Qed.

Lemma succeeds_handleLLMResponse now response messages :
  succeeds (handleLLMResponse W now response messages).
Proof.
  unfold handleLLMResponse.
  destruct (resp_tool_calls response) as [[|tc tcs]|];
    [succeeds_step | apply succeeds_executeToolCalls | succeeds_step].
Qed.

Lemma executeToolCalls_asks now toolCalls messages originalResponse s :
  asks 1 s (executeToolCalls W now toolCalls messages originalResponse s).2.
Proof.
  unfold executeToolCalls, bind at 1.
  destruct (batch_total W now toolCalls s) as (toolResults & s1 & Hmap & Hbatch).
  rewrite Hmap. apply batch_frame in Hbatch as [_ Hsame].
  change 1%nat with (0 + 1)%nat. apply asks_trans with s1; [now apply asks_same|].
  unfold bind at 1, gets at 1.
  destruct (negb (providers_has (currentProvider s1))).
  { apply asks_weaken with 0%nat; [lia | now apply asks_same]. }
  unfold catchError, bind.
  pose proof (provider_generateResponse_asks (currentProvider s1)
                ((messages ++ [assistantToolMessage now toolCalls originalResponse]) ++ toolResults)%list
                None s1) as H.
  unfold assistantToolMessage in H.
  destruct (provider_generateResponse W _ _ None s1) as [[r|e] s2]; exact H.
Qed.

Lemma handleLLMResponse_asks now response messages s :
  asks 1 s (handleLLMResponse W now response messages s).2.
Proof.
  unfold handleLLMResponse.
  destruct (resp_tool_calls response) as [[|tc tcs]|];
    try apply executeToolCalls_asks;
    (apply asks_weaken with 0%nat; [lia | now apply asks_same]).
Qed.

Lemma tryFallbackProvider_asks messages fallbackType s :
  asks 1 s (tryFallbackProvider W messages fallbackType s).2.
Proof.
  rewrite tryFallbackProvider_eq. destruct (providers_has fallbackType); cbn [snd].
  - apply asks_emit.
  - apply asks_weaken with 0%nat; [lia | now apply asks_same].
Qed.

Lemma generateResponse_asks now userMessage history s :
  asks 2 s (generateResponse W now userMessage history s).2.
Proof.
  assert (Hzero : forall a : string, asks 2 s (ret a s).2).
  { intros a. apply asks_weaken with 0%nat; [lia | now apply asks_same]. }
  unfold generateResponse. unfold bind at 1, gets at 1.
  destruct (config s) as [cfg|]; [|apply Hzero].
  unfold bind at 1, gets at 1.
  destruct (providers_has (currentProvider s)) eqn:Hp; [|apply Hzero].
  cbn [negb].
  set (messages := (createSystemPrompt W now :: history ++ [mk_msg user userMessage now])%list).
  set (inner := (ensureMCPConnection W ;; _)).
  assert (Hinner : succeeds inner).
  { subst inner. apply succeeds_bind; [|intros b].
    { intros s0. destruct (ensureMCPConnection_eq W s0) as [b Hb]. exists b. now rewrite Hb. }
    apply succeeds_bind; [apply succeeds_gets|intros mcpTools].
    apply succeeds_catchError; intros e.
    destruct (fallbackProvider cfg) as [fb|]; [|succeeds_step].
    destruct (_ && _); [|succeeds_step].
    intros s0. rewrite tryFallbackProvider_eq. destruct (providers_has fb); eexists; reflexivity. }
  unfold catchError at 1. destruct (Hinner s) as [a Ha].
  destruct (inner s) as [[a'|e] s'] eqn:E; cbn [fst] in Ha; [|discriminate].
  cbn [snd]. clear Ha a.
  assert (Hs' : s' = (inner s).2) by now rewrite E.
  rewrite Hs'. clear E Hs'. subst inner.
  unfold bind at 1. destruct (ensureMCPConnection_eq W s) as [b Hb]. rewrite Hb.
  pose proof (ensureMCPConnection_same_trace W s) as Ht.
  set (s1 := (ensureMCPConnection W s).2) in *.
  change 2%nat with (0 + 2)%nat.
  apply asks_trans with s1; [now apply asks_same, same_trace_same_generations|].
  unfold bind at 1, gets at 1. unfold catchError at 1. unfold bind at 1.
  rewrite provider_generateResponse_answer by exact Hp.
  set (s2 := emit _ s1).
  assert (H12 : asks 1 s1 s2) by apply asks_emit.
  change 2%nat with (1 + 1)%nat. apply asks_trans with s2; [exact H12|].
  destruct (adapterAnswer W s1 _ _ _) as [response|e].
  - pose proof (handleLLMResponse_asks now response messages s2) as H.
    destruct (succeeds_handleLLMResponse now response messages s2) as [a Ha].
    destruct (handleLLMResponse W now response messages s2) as [[text|e] s3];
      cbn [fst] in Ha; [exact H | discriminate].
  - destruct (fallbackProvider cfg) as [fb|].
    + destruct (_ && _); [apply tryFallbackProvider_asks|].
      apply asks_weaken with 0%nat; [lia | now apply asks_same].
    + apply asks_weaken with 0%nat; [lia | now apply asks_same].
Qed.

Lemma addToConversationHistory_same_generations sessionId message :
  frames same_generations (addToConversationHistory sessionId message).
Proof.
  intros s. apply same_trace_same_generations. now rewrite addToConversationHistory_eq.
Qed.

Lemma ordinaryTurn_asks now userMessage sessionId s :
  asks 2 s (ordinaryTurn W now userMessage sessionId s).2.
Proof.
  rewrite ordinaryTurn_split. unfold bind at 1. rewrite orderDetection_eq.
  pose proof (afterDetection_fields userMessage sessionId s) as (_ & _ & Ht & _).
  set (s1 := afterDetection userMessage sessionId s) in *.
  change 2%nat with (0 + 2)%nat.
  apply asks_trans with s1; [now apply asks_same, same_trace_same_generations|].
  rewrite conversationStep_eq.
  pose proof (addToConversationHistory_same_generations sessionId
                (mk_msg user userMessage now) s1) as H12.
  set (s2 := (addToConversationHistory sessionId (mk_msg user userMessage now) s1).2) in *.
  change 2%nat with (0 + 2)%nat. apply asks_trans with s2; [now apply asks_same|].
  unfold catchError, bind.
  pose proof (generateResponse_asks now userMessage
                (enhancedHistory W now (pushed (history_of sessionId s1) (mk_msg user userMessage now))
                   (orderFlow_of sessionId s1)) s2) as H.
  destruct (generateResponse W now userMessage _ s2) as [[r|e] s3]; cbn [snd] in H;
    rewrite addToConversationHistory_eq; cbn [snd ret];
    (change 2%nat with (2 + 0)%nat; apply asks_trans with s3; [exact H|]);
    now apply asks_same, same_trace_same_generations.
Qed.

Lemma decision_same_generations now userMessage sessionId s p :
  pendingOrder_of sessionId s = Some p ->
  same_generations s (handleTermsAcceptanceResponse W now userMessage sessionId s).2.
Proof.
  apply decision_frames; try exact _.
  - intros toolCall. apply executeMCPTool_same_generations.
  - intros message. apply addToConversationHistory_same_generations.
  - intros s0. apply same_trace_same_generations. apply clearPendingOrderContext_trace.
Qed.

End Requests.

(** X10: a turn makes at most two requests of providers, whatever the
    answers are: the request with the tool definitions, and then either
    the follow-up of the tool round or the request of the fallback
    provider.  A turn of a session that awaits a terms decision makes
    none: the decision is taken from the words of the utterance. *)
Theorem turn_asks_providers_at_most_twice (W : World) (now : Z) (rnd userMessage : string)
    (given : option string) (s : LLMService) :
  let after := (generateResponseWithSession W now rnd userMessage given s).2 in
  asks 2 s after /\
  (isWaitingForTermsAcceptance (effectiveSessionId now rnd given) s = true ->
   generations after = generations s).
Proof.
  intros after. subst after.
  set (session := effectiveSessionId now rnd given).
  assert (Heq : generateResponseWithSession W now rnd userMessage given s =
                (if isWaitingForTermsAcceptance session s
                 then handleTermsAcceptanceResponse W now userMessage session
                 else ordinaryTurn W now userMessage session) s) by reflexivity.
  rewrite Heq. clear Heq.
  destruct (isWaitingForTermsAcceptance session s) eqn:Hw.
  - destruct (waiting_has_pending _ _ Hw) as [p Hp].
    pose proof (decision_same_generations W now userMessage _ s p Hp) as H.
    split; [|intros _; exact H].
    apply asks_weaken with 0%nat; [lia | now apply asks_same].
  - split; [apply ordinaryTurn_asks | discriminate].
Qed.

(** X10 at a turn with a tool round, and at a decision *)
Lemma turn_asks_providers_at_most_twice_witness :
  length (generations (generateResponseWithSession (Demo.world [Demo.searchCall]) 7 "r"
                         "find me a drill" (Some "s1") Demo.connected).2) = 2%nat /\
  isWaitingForTermsAcceptance (effectiveSessionId 9 "r" (Some "s1")) C2_waiting = true /\
  generations (generateResponseWithSession (Demo.world []) 9 "r" "yes" (Some "s1") C2_waiting).2 =
  generations C2_waiting.
Proof.
  split; [vm_compute; reflexivity|]. split; [reflexivity|].
  apply (turn_asks_providers_at_most_twice (Demo.world []) 9 "r" "yes" (Some "s1") C2_waiting).
  reflexivity.
Defined.

(** ** The session stores *)

Lemma set_conversationHistory_twice h h' s :
  set_conversationHistory h (set_conversationHistory h' s) = set_conversationHistory h s.
Proof. reflexivity. Qed.

Lemma expired_mono t1 t2 history :
  t1 <= t2 -> expired t1 history = true -> expired t2 history = true.
Proof.
  unfold expired. intros Hle.
  destruct (last history) as [lastMessage|]; [|easy].
  destruct (timestamp lastMessage) as [t|]; [|easy].
  rewrite !Z.ltb_lt. lia.
Qed.

Lemma expired_spec now history :
  expired now history = false <->
  forall lastMessage t, last history = Some lastMessage -> timestamp lastMessage = Some t ->
                        now - t <= SESSION_TIMEOUT.
Proof.
  unfold expired. destruct (last history) as [lastMessage|]; [|easy].
  destruct (timestamp lastMessage) as [t|] eqn:Et.
  - rewrite Z.ltb_ge. split.
    + intros H m t' [= <-] Ht'. rewrite Et in Ht'. injection Ht' as <-. exact H.
    + intros H. now apply (H lastMessage t).
  - split; [|easy]. intros _ m t' [= <-] Ht'. congruence.
Qed.

Lemma cleanupOldSessions_store_eq now s s' :
  (forall sessionId, conversationHistory (cleanupOldSessions now s) !! sessionId =
                     conversationHistory s' !! sessionId) ->
  set_conversationHistory (conversationHistory s') s = s' ->
  cleanupOldSessions now s = s'.
Proof.
  intros Hlookup Hs'. rewrite <- Hs'. unfold cleanupOldSessions. f_equal.
  apply map_eq. intros sessionId. specialize (Hlookup sessionId).
  unfold cleanupOldSessions in Hlookup. exact Hlookup.
Qed.

(** X11: the sweep of old sessions.  A stored history survives the
    sweep exactly when it is empty, or its last message bears no time,
    or that message is at most thirty minutes old (a history aged
    thirty minutes to the millisecond stays).  A later sweep leaves
    nothing for an earlier one to do, in either order; so a sweep run
    twice at one time is the sweep run once. *)
Theorem sweep_keeps_recent_sessions (t1 t2 : Z) (s : LLMService) :
  t1 <= t2 ->
  (forall sessionId history,
     conversationHistory (cleanupOldSessions t2 s) !! sessionId = Some history <->
     conversationHistory s !! sessionId = Some history /\
     forall lastMessage t, last history = Some lastMessage -> timestamp lastMessage = Some t ->
                           t2 - t <= 30 * 60 * 1000) /\
  cleanupOldSessions t2 (cleanupOldSessions t1 s) = cleanupOldSessions t2 s /\
  cleanupOldSessions t1 (cleanupOldSessions t2 s) = cleanupOldSessions t2 s.
Proof.
  intros Hle. split; [|split].
  - intros sessionId history. rewrite cleanupOldSessions_history.
    change (30 * 60 * 1000) with SESSION_TIMEOUT. rewrite <- expired_spec.
    destruct (conversationHistory s !! sessionId) as [h|]; [|split; [easy | intros [? _]; easy]].
    destruct (expired t2 h) eqn:E; split.
    + easy.
    + intros [[= ->] H]. congruence.
    + intros [= ->]. easy.
    + intros [H _]. exact H.
  - apply cleanupOldSessions_store_eq; [|reflexivity].
    intros sessionId. rewrite !cleanupOldSessions_history.
    destruct (conversationHistory s !! sessionId) as [h|]; [|reflexivity].
    destruct (expired t1 h) eqn:E1; [|reflexivity].
    now rewrite (expired_mono t1 t2 h Hle E1).
  - apply cleanupOldSessions_store_eq; [|reflexivity].
    intros sessionId. rewrite !cleanupOldSessions_history.
    destruct (conversationHistory s !! sessionId) as [h|]; [|reflexivity].
    destruct (expired t2 h) eqn:E2; [reflexivity|].
    destruct (expired t1 h) eqn:E1; [|reflexivity].
    rewrite (expired_mono t1 t2 h Hle E1) in E2. discriminate.
Qed.

(** X11 at a session whose last message is thirty minutes old, to the
    millisecond and a millisecond more *)
Lemma sweep_keeps_recent_sessions_witness :
  SESSION_TIMEOUT <= C9_later /\
  conversationHistory (cleanupOldSessions SESSION_TIMEOUT C9_session) !! "s1" =
    conversationHistory C9_session !! "s1" /\
  conversationHistory (cleanupOldSessions C9_later C9_session) !! "s1" = None /\
  cleanupOldSessions C9_later (cleanupOldSessions SESSION_TIMEOUT C9_session) =
  cleanupOldSessions C9_later C9_session.
Proof.
  assert (Hle : SESSION_TIMEOUT <= C9_later) by (vm_compute; discriminate).
  split; [exact Hle|]. split; [vm_compute; reflexivity|]. split; [vm_compute; reflexivity|].
  apply (sweep_keeps_recent_sessions SESSION_TIMEOUT C9_later C9_session Hle).
Defined.

Lemma set_orderFlow_twice sessionId context context' flow flow' s :
  pendingOrderOperation context' = pendingOrderOperation context ->
  set_orderFlow sessionId context' flow' (set_orderFlow sessionId context flow s) =
  set_orderFlow sessionId context flow' s.
Proof.
  intros H. unfold set_orderFlow, set_sessionContext. cbn. rewrite H.
  now rewrite insert_insert_eq.
Qed.

(** X12: order data are merged key by key.  Storing [d1] and then [d2]
    is storing their union in which [d2] wins; a stored key keeps its
    value until the same key is stored again; the step of the flow, its
    options and the pending order of the session stay as they are; and
    without a flow nothing is stored at all. *)
Theorem order_data_merge (sessionId : string) (d1 d2 : jobject) (s : LLMService) :
  updateOrderFlowData sessionId d2 (updateOrderFlowData sessionId d1 s) =
    updateOrderFlowData sessionId (d2 ∪ d1) s /\
  (forall flow,
     orderFlow_of sessionId s = Some flow ->
     orderFlow_of sessionId (updateOrderFlowData sessionId d1 s) =
       Some {| isActive := isActive flow; currentStep := currentStep flow;
               collectedData := d1 ∪ collectedData flow;
               availableOptions := availableOptions flow |} /\
     forall key, (d1 ∪ collectedData flow) !! key =
                 match d1 !! key with
                 | Some value => Some value
                 | None => collectedData flow !! key
                 end) /\
  (orderFlow_of sessionId s = None -> updateOrderFlowData sessionId d1 s = s) /\
  pendingOrder_of sessionId (updateOrderFlowData sessionId d1 s) = pendingOrder_of sessionId s.
Proof.
  unfold updateOrderFlowData, orderFlow_of, pendingOrder_of.
  destruct (sessionContext s !! sessionId) as [context|] eqn:E; cbn.
  2:{ rewrite E. cbn. repeat split; try easy. }
  destruct (orderFlow context) as [flow|] eqn:Ef; cbn.
  2:{ rewrite E. cbn. rewrite Ef. repeat split; try easy. }
  rewrite !lookup_insert_eq. cbn. split; [|split; [|split]].
  - rewrite set_orderFlow_twice by reflexivity. now rewrite (assoc_L (∪)).
  - intros f [= <-]. split; [reflexivity|].
    intros key. rewrite lookup_union.
    destruct (d1 !! key), (collectedData flow !! key); reflexivity.
  - discriminate.
  - reflexivity.
Qed.

(** X12 at a flow that is at its second step *)
Lemma order_data_merge_witness :
  getCurrentOrderStep "s1" C8_at_address = Some address /\
  (collectedData <$> orderFlow_of "s1"
     (updateOrderFlowData "s1" {[ "paymentType" := JStr "Card" ]}
        (updateOrderFlowData "s1" {[ "paymentType" := JStr "Account"; "po" := JStr "77" ]}
           C8_at_address))) =
  Some ({[ "paymentType" := JStr "Card"; "po" := JStr "77" ]} : jobject) /\
  getCurrentOrderStep "s1"
    (updateOrderFlowData "s1" {[ "paymentType" := JStr "Card" ]} C8_at_address) = Some address.
Proof.
  split; [reflexivity|].
  destruct (order_data_merge "s1" {[ "paymentType" := JStr "Account"; "po" := JStr "77" ]}
              {[ "paymentType" := JStr "Card" ]} C8_at_address) as (Hmerge & _).
  rewrite Hmerge. split; vm_compute; reflexivity.
Defined.

(** X13: clearing a session forgets all of it, and nothing else.  The
    session is left without messages, without a pending order and
    without an order flow; every other session keeps both its history
    and its context; clearing again changes nothing, and sessions can be
    cleared in any order. *)
Theorem clear_forgets_one_session (sessionId : string) (s : LLMService) :
  let cleared := clearConversationHistory sessionId s in
  getConversationSummary sessionId cleared =
    {| messageCount := 0; systemPrompt := false; lastActivity := None |} /\
  getOrderFlowSummary sessionId cleared =
    {| sum_isActive := false; sum_currentStep := None;
       sum_collectedData := ∅; sum_availableOptions := ∅ |} /\
  isWaitingForTermsAcceptance sessionId cleared = false /\
  others_same sessionId s cleared /\
  clearConversationHistory sessionId cleared = cleared /\
  forall other, clearConversationHistory other cleared =
                clearConversationHistory sessionId (clearConversationHistory other s).
Proof.
  cbn zeta. destruct (clearConversationHistory_flow sessionId s) as (Hf & Hp & Hh).
  split; [|split; [|split; [|split; [|split]]]].
  - unfold getConversationSummary. now rewrite Hh.
  - unfold getOrderFlowSummary. now rewrite Hf.
  - unfold isWaitingForTermsAcceptance. now rewrite Hp.
  - intros other Hne. unfold clearConversationHistory. cbn.
    now rewrite !lookup_delete_ne by congruence.
  - unfold clearConversationHistory, set_sessionContext, set_conversationHistory. cbn.
    now rewrite !delete_delete_eq.
  - intros other. unfold clearConversationHistory, set_sessionContext, set_conversationHistory.
    cbn. f_equal; apply delete_delete.
Qed.

(** ** The tool client *)

Lemma inject_lookup key value args k :
  MCP.inject key value args !! k =
  match value with
  | Some v => if Str.truthy v && bool_decide (k = key) then Some (JStr v) else args !! k
  | None => args !! k
  end.
Proof.
  unfold MCP.inject. destruct value as [v|]; [|reflexivity].
  destruct (Str.truthy v); cbn [andb]; [|reflexivity].
  case_bool_decide as Hk.
  - subst k. apply lookup_insert_eq.
  - apply lookup_insert_ne. congruence.
Qed.

(** X14: the arguments the tool client sends.  The site URL and the
    access token of the session are put in whenever they are there, and
    the id of the active cart for the tools with a cart or checkout
    name; a value put in replaces what the model supplied under that
    key.  Every other key goes out as the model wrote it, and so does a
    model-supplied site URL, token or cart id when the session has none
    to put in its place. *)
Theorem tool_arguments_from_session (W : World) (toolCall : MCPToolCall) :
  let sent := MCP.enhancedArguments W toolCall in
  (forall key, key <> "baseSiteUrl" -> key <> "access_token" -> key <> "cartId" ->
     sent !! key = call_arguments toolCall !! key) /\
  sent !! "baseSiteUrl" =
    match window_origin W with
    | Some origin => if Str.truthy origin then Some (JStr origin)
                     else call_arguments toolCall !! "baseSiteUrl"
    | None => call_arguments toolCall !! "baseSiteUrl"
    end /\
  sent !! "access_token" =
    match access_token W with
    | Some token => if Str.truthy token then Some (JStr token)
                    else call_arguments toolCall !! "access_token"
    | None => call_arguments toolCall !! "access_token"
    end /\
  sent !! "cartId" =
    match activeCart_code W with
    | Some code => if Str.truthy code && MCP.isCartOperation (call_name toolCall)
                   then Some (JStr code)
                   else call_arguments toolCall !! "cartId"
    | None => call_arguments toolCall !! "cartId"
    end.
Proof.
  cbn zeta. unfold MCP.enhancedArguments.
  split; [|split; [|split]].
  - intros key H1 H2 H3.
    destruct (MCP.isCartOperation (call_name toolCall));
      rewrite !inject_lookup;
      repeat match goal with
             | |- context [bool_decide (key = ?k)] => rewrite (bool_decide_false (key = k)) by assumption
             | |- context [andb _ false] => rewrite andb_false_r
             | |- context [match ?o with Some _ => _ | None => _ end] => destruct o
             end; reflexivity.
  - destruct (MCP.isCartOperation (call_name toolCall)); rewrite !inject_lookup;
      destruct (activeCart_code W) as [c|], (access_token W) as [tk|],
               (window_origin W) as [o|];
      repeat match goal with
             | |- context [bool_decide (?a = ?b)] =>
                 first [ rewrite (bool_decide_true (a = b)) by reflexivity
                       | rewrite (bool_decide_false (a = b)) by discriminate ]
             | |- context [andb _ false] => rewrite andb_false_r
             | |- context [andb _ true] => rewrite andb_true_r
             end; reflexivity.
  - destruct (MCP.isCartOperation (call_name toolCall)); rewrite !inject_lookup;
      destruct (activeCart_code W) as [c|], (access_token W) as [tk|],
               (window_origin W) as [o|];
      repeat match goal with
             | |- context [bool_decide (?a = ?b)] =>
                 first [ rewrite (bool_decide_true (a = b)) by reflexivity
                       | rewrite (bool_decide_false (a = b)) by discriminate ]
             | |- context [andb _ false] => rewrite andb_false_r
             | |- context [andb _ true] => rewrite andb_true_r
             end; reflexivity.
  - destruct (MCP.isCartOperation (call_name toolCall)); rewrite ?inject_lookup;
      destruct (activeCart_code W) as [c|], (access_token W) as [tk|],
               (window_origin W) as [o|];
      repeat match goal with
             | |- context [bool_decide (?a = ?b)] =>
                 first [ rewrite (bool_decide_true (a = b)) by reflexivity
                       | rewrite (bool_decide_false (a = b)) by discriminate ]
             | |- context [andb _ false] => rewrite andb_false_r
             | |- context [andb _ true] => rewrite andb_true_r
             end; reflexivity.
Qed.

(** X14 at a cart tool, in a session with a cart and without a token *)
Lemma tool_arguments_from_session_witness :
  MCP.enhancedArguments (Demo.world []) X_cartCall !! "cartId" = Some (JStr "00001") /\
  MCP.enhancedArguments (Demo.world []) X_cartCall !! "access_token" = Some (JStr "made-up") /\
  MCP.enhancedArguments (Demo.world []) X_cartCall !! "currency" = Some (JStr "USD").
Proof.
  destruct (tool_arguments_from_session (Demo.world []) X_cartCall) as (Hother & _ & Htoken & Hcart).
  split; [rewrite Hcart; reflexivity|]. split; [rewrite Htoken; reflexivity|].
  rewrite Hother by discriminate. reflexivity.
Defined.

Section ToolCalls.

Context (W : World).




End ToolCalls.



Lemma discoverTools_tools W serverId m :
  client m = true ->
  availableTools (MCP.discoverTools W serverId m) =
  match sdk_listTools W with
  | Some tools =>
      map (fun t => {| tool_name := tool_name t; tool_description := tool_description t;
                       tool_serverId := serverId; tool_inputSchema := tool_inputSchema t |}) tools
  | None => []
  end.
Proof. intros Hc. unfold MCP.discoverTools. now rewrite Hc. Qed.

(** X16: connecting the tool client.  The answer is true only if the
    client is ready afterwards, and then every tool it knows is one the
    server listed, filed under the id of the configured server.  The
    converse fails: the client object is made before the connection is
    tried and the tools of an earlier connection are not dropped, so
    after a failed connection the method answers false while the client
    still counts as ready with the old tools.  When the server is
    reached and its tool list cannot be read, no tool is left. *)
Theorem connection_answer_and_readiness (W : World) (m : MCPSDKService) :
  let answer := (MCP.initializeConnection W m).1 in
  let after := (MCP.initializeConnection W m).2 in
  serverConfig after = serverConfig m /\
  (answer = true ->
   MCP.isReady after = true /\
   exists cfg listed, serverConfig m = Some cfg /\ sdk_listTools W = Some listed /\
     map tool_name (availableTools after) = map tool_name listed /\
     Forall (fun t => tool_serverId t = server_id cfg) (availableTools after)) /\
  (forall cfg url,
     serverConfig m = Some cfg -> server_url cfg = Some url -> sdk_connect W url = false ->
     answer = false /\ client after = true /\ availableTools after = availableTools m /\
     MCP.isReady after = (0 <? length (availableTools m))%nat) /\
  (forall cfg url,
     serverConfig m = Some cfg -> server_url cfg = Some url -> sdk_connect W url = true ->
     sdk_listTools W = None ->
     answer = false /\ availableTools after = [] /\ MCP.isReady after = false) /\
  (serverConfig m = None -> answer = false /\ after = m).
Proof.
  cbn zeta. unfold MCP.initializeConnection.
  destruct (serverConfig m) as [cfg|] eqn:Ecfg; cbn.
  2:{ rewrite Ecfg. repeat split; intros; simplify_eq; easy. }
  destruct (server_url cfg) as [url|] eqn:Eurl; cbn.
  2:{ repeat split; intros; simplify_eq; easy. }
  destruct (sdk_connect W url) eqn:Econn; cbn.
  2:{ repeat split; intros; simplify_eq; try congruence; try easy; reflexivity. }
  unfold MCP.discoverTools. cbn [client].
  split; [reflexivity|]. split; [|split; [|split; [|easy]]].
  - intros Hanswer. cbn in Hanswer |- *. unfold MCP.isReady. cbn. split; [exact Hanswer|].
    destruct (sdk_listTools W) as [listed|]; [|discriminate].
    exists cfg, listed. split; [reflexivity|]. split; [reflexivity|]. split.
    + rewrite map_map. reflexivity.
    + clear. induction listed as [|t listed IH]; cbn; constructor; [reflexivity | exact IH].
  - intros; simplify_eq; congruence.
  - intros cfg' url' _ _ _ Hlist. rewrite Hlist. repeat split.
Qed.

(** X16 at a reconnection that fails while old tools are known *)
Lemma connection_answer_and_readiness_witness :
  (MCP.initializeConnection X_unreachable X_stale).1 = false /\
  MCP.isReady (MCP.initializeConnection X_unreachable X_stale).2 = true.
Proof.
  destruct (connection_answer_and_readiness X_unreachable X_stale) as (_ & _ & H & _).
  destruct (H _ "https://mcp.example" eq_refl eq_refl eq_refl) as (Ha & _ & _ & Hr).
  split; [exact Ha|]. rewrite Hr. reflexivity.
Defined.


Lemma not_ready_no_tools m :
  tools_need_client m -> MCP.isReady m = false -> availableTools m = [].
Proof.
  unfold tools_need_client, MCP.isReady. intros Hinv Hr.
  destruct (client m); [|now apply Hinv].
  cbn in Hr. destruct (availableTools m); [reflexivity | discriminate].
Qed.

Lemma initializeConnection_configured W cfg m :
  availableTools m = [] ->
  let out := MCP.initializeConnection W (MCP.configureServer cfg m) in
  out.1 = MCP.isReady out.2 /\ client out.2 = true /\ serverConfig out.2 = Some cfg.
Proof.
  intros Hno. cbn zeta. unfold MCP.initializeConnection, MCP.configureServer. cbn.
  destruct (server_url cfg) as [url|]; cbn; [|now rewrite Hno].
  destruct (sdk_connect W url); cbn; [|now rewrite Hno].
  unfold MCP.discoverTools, MCP.isReady. cbn. easy.
Qed.

(** X17: the connection check that precedes every request and every
    tool call.  A ready client is left alone.  Otherwise the client is
    configured for the first of the predefined servers, and for no
    other, and connected anew.  The check answers true only if the
    client is ready afterwards; for a client that knows no tools without
    a client object, as it is at the start and as the check leaves it,
    the answer is exactly the readiness afterwards, and after the answer
    false no tool is offered to the model.  Nothing but the tool client
    changes, and the check itself asks nothing of a provider or tool. *)
Theorem connection_check_answer (W : World) (s : LLMService) :
  let answer := (ensureMCPConnection W s).1 in
  let after := (ensureMCPConnection W s).2 in
  untouched s after /\ trace after = trace s /\
  (MCP.isReady (mcpService s) = true -> answer = Ok true /\ after = s) /\
  (answer = Ok true -> MCP.isReady (mcpService after) = true) /\
  (MCP.isReady (mcpService s) = false ->
   match predefinedMCPServers W with
   | [] => answer = Ok false /\ after = s
   | first :: _ => serverConfig (mcpService after) = Some first
   end) /\
  (tools_need_client (mcpService s) ->
   answer = Ok (MCP.isReady (mcpService after)) /\
   tools_need_client (mcpService after) /\
   (answer = Ok false -> toolsOffered W s = [])).
Proof.
  cbn zeta.
  split; [apply (ensureMCPConnection_untouched W s)|].
  split; [apply ensureMCPConnection_same_trace|].
  unfold toolsOffered, ensureMCPConnection, bind, gets.
  destruct (MCP.isReady (mcpService s)) eqn:Hr; cbn [ret fst snd].
  { split; [easy|]. split; [easy|]. split; [easy|]. intros Hinv.
    rewrite Hr. split; [reflexivity|]. split; [exact Hinv | discriminate]. }
  split; [discriminate|].
  unfold reinitializeMCPConnection.
  destruct (predefinedMCPServers W) as [|first rest]; cbn [fst snd].
  { split; [discriminate|]. split; [easy|]. intros Hinv. rewrite Hr.
    split; [reflexivity|]. split; [exact Hinv|]. intros _.
    unfold MCP.getToolsForLLM. now rewrite (not_ready_no_tools _ Hinv Hr). }
  destruct (MCP.initializeConnection W (MCP.configureServer first (mcpService s)))
    as [success m] eqn:E. cbn [fst snd mcpService set_mcpService].
  assert (Hcfg : serverConfig m = Some first).
  { pose proof (f_equal snd E) as Hm. cbn [snd] in Hm. rewrite <- Hm.
    unfold MCP.initializeConnection, MCP.configureServer. cbn.
    destruct (server_url first) as [url|]; cbn; [|reflexivity].
    destruct (sdk_connect W url); cbn; [|reflexivity].
    unfold MCP.discoverTools. reflexivity. }
  assert (Htrue : success = true -> MCP.isReady m = true).
  { intros ->. pose proof (f_equal snd E) as Hm. pose proof (f_equal fst E) as Ha.
    cbn [fst snd] in Hm, Ha. rewrite <- Hm. revert Ha.
    unfold MCP.initializeConnection, MCP.configureServer. cbn.
    destruct (server_url first) as [url|]; cbn; [|discriminate].
    destruct (sdk_connect W url); cbn; [|discriminate].
    unfold MCP.discoverTools, MCP.isReady. cbn. easy. }
  split; [intros [= Hs]; now apply Htrue|]. split; [intros _; exact Hcfg|].
  intros Hinv.
  destruct (initializeConnection_configured W first (mcpService s)
              (not_ready_no_tools _ Hinv Hr)) as (Hans & Hclient & _).
  rewrite E in Hans, Hclient. cbn [fst snd] in Hans, Hclient.
  split; [now rewrite Hans|]. split; [intros H; congruence|].
  intros [= Hfalse]. rewrite Hans in Hfalse.
  unfold MCP.isReady in Hfalse. rewrite Hclient in Hfalse. cbn in Hfalse.
  unfold MCP.getToolsForLLM. destruct (availableTools m); [reflexivity | discriminate].
Qed.

(** X17 at a service whose tool client was never connected, and whose
    tool server cannot be reached *)
Lemma connection_check_answer_witness :
  tools_need_client (mcpService X_disconnected) /\
  (ensureMCPConnection X_unreachable X_disconnected).1 = Ok false /\
  toolsOffered X_unreachable X_disconnected = [].
Proof.
  assert (Hinv : tools_need_client (mcpService X_disconnected)) by (intros _; reflexivity).
  split; [exact Hinv|].
  destruct (connection_check_answer X_unreachable X_disconnected) as (_ & _ & _ & _ & _ & H).
  destruct (H Hinv) as (Hans & _ & Hno).
  assert (Hfalse : (ensureMCPConnection X_unreachable X_disconnected).1 = Ok false).
  { rewrite Hans. reflexivity. }
  split; [exact Hfalse | exact (Hno Hfalse)].
Defined.

(** ** The availability cache *)

Lemma probes_emit_probe p obs s : probes (emit (EvProbe p obs) s) = (probes s ++ [(p, obs)])%list.
Proof. unfold probes. cbn [trace emit]. now rewrite omap_app. Qed.

(** X18: the life of a cached availability.  Once the probe of a
    registered provider has delivered its result, every check within
    thirty seconds answers that result at once and asks nothing; from
    thirty seconds on, and at any time after the entry of the provider
    or the whole cache was cleared, a check starts a new probe, numbered
    after all earlier ones, and caches it with the temporary answer
    false.  The entries of the other providers are not touched by any of
    this. *)
Theorem cached_availability_life (p : LLMProviderType) (result : bool) (t now : Z)
    (s : LLMService) :
  providers_has p = true ->
  let settled := availabilitySettled p result t s in
  let fresh (s0 : LLMService) :=
    (Shared (length (probes s0)),
     set_availabilityCache
       (<[p := {| available := false; lastCheck := now;
                  observable := Some (length (probes s0)) |}]> (availabilityCache s0))
       (emit (EvProbe p (length (probes s0))) s0)) in
  (now - t < 30000 ->
   checkProviderAvailabilityWithCache p now settled = (Immediate result, settled)) /\
  (30000 <= now - t ->
   checkProviderAvailabilityWithCache p now settled = fresh settled) /\
  checkProviderAvailabilityWithCache p now (clearProviderAvailabilityCache p settled) =
    fresh (clearProviderAvailabilityCache p settled) /\
  checkProviderAvailabilityWithCache p now (clearAvailabilityCache settled) =
    fresh (clearAvailabilityCache settled) /\
  probes (fresh settled).2 = (probes s ++ [(p, length (probes s))])%list /\
  (forall q, q <> p ->
     availabilityCache settled !! q = availabilityCache s !! q /\
     availabilityCache (fresh settled).2 !! q = availabilityCache s !! q /\
     availabilityCache (clearProviderAvailabilityCache p settled) !! q = availabilityCache s !! q).
Proof.
  intros Hp settled fresh.
  assert (Hfresh : forall s0, freshAvailabilityCheck p now s0 = fresh s0).
  { intros s0. unfold freshAvailabilityCheck. now rewrite Hp. }
  assert (Hentry : availabilityCache settled !! p =
                   Some {| available := result; lastCheck := t; observable := None |}).
  { subst settled. unfold availabilitySettled. cbn. apply lookup_insert_eq. }
  split; [|split; [|split; [|split; [|split]]]].
  - intros Hlt. unfold checkProviderAvailabilityWithCache. rewrite Hentry.
    cbn [lastCheck available]. unfold CACHE_DURATION.
    destruct (Z.ltb_spec (now - t) 30000); [reflexivity | lia].
  - intros Hge. unfold checkProviderAvailabilityWithCache. rewrite Hentry.
    cbn [lastCheck available observable]. unfold CACHE_DURATION.
    destruct (Z.ltb_spec (now - t) 30000); [lia | apply Hfresh].
  - unfold checkProviderAvailabilityWithCache.
    unfold clearProviderAvailabilityCache at 1. cbn [availabilityCache set_availabilityCache].
    rewrite lookup_delete_eq. apply Hfresh.
  - unfold checkProviderAvailabilityWithCache.
    unfold clearAvailabilityCache at 1. cbn [availabilityCache set_availabilityCache].
    rewrite lookup_empty. apply Hfresh.
  - subst fresh. cbn [snd]. unfold probes. cbn. now rewrite omap_app.
  - intros q Hq. subst fresh settled. unfold availabilitySettled, clearProviderAvailabilityCache.
    cbn. rewrite ?lookup_delete_ne, ?lookup_insert_ne by congruence. easy.
Qed.

(** X18 at a check of OpenAI that delivered true at time 1000 *)
Lemma cached_availability_life_witness :
  providers_has openai = true /\
  checkProviderAvailabilityWithCache openai 30999 (availabilitySettled openai true 1000 initial) =
    (Immediate true, availabilitySettled openai true 1000 initial) /\
  (checkProviderAvailabilityWithCache openai 31000
     (availabilitySettled openai true 1000 initial)).1 = Shared 0.
Proof.
  split; [reflexivity|].
  destruct (cached_availability_life openai true 1000 30999 initial eq_refl) as (Hhit & _).
  destruct (cached_availability_life openai true 1000 31000 initial eq_refl) as (_ & Hmiss & _).
  split; [apply Hhit; lia|]. rewrite Hmiss by lia. reflexivity.
Defined.

(** ** What the text-only adapters pass on *)

Lemma gemini_convertMessages_dialogue messages :
  GeminiProvider.convertMessages (List.filter is_dialogue messages) =
  GeminiProvider.convertMessages messages.
Proof.
  induction messages as [|m messages IH]; [reflexivity|].
  cbn [List.filter GeminiProvider.convertMessages]. unfold is_dialogue at 1.
  destruct (role m) eqn:E; cbn [GeminiProvider.convertMessages]; rewrite ?E, IH; reflexivity.
Qed.

Lemma local_convertMessages_dialogue messages :
  LocalLLMProvider.convertMessages (List.filter is_dialogue messages) =
  LocalLLMProvider.convertMessages messages.
Proof.
  induction messages as [|m messages IH]; [reflexivity|].
  cbn [List.filter LocalLLMProvider.convertMessages]. unfold is_dialogue at 1.
  destruct (role m) eqn:E; cbn [LocalLLMProvider.convertMessages]; rewrite ?E, IH; reflexivity.
Qed.

Lemma filter_dialogue_all messages :
  forallb is_dialogue messages = true -> List.filter is_dialogue messages = messages.
Proof.
  induction messages as [|m messages IH]; [reflexivity|].
  cbn. intros [Hm Hrest]%andb_true_iff. rewrite Hm. now rewrite IH.
Qed.

Lemma filter_dialogue_tools toolResults :
  Forall (fun m => role m = tool) toolResults -> List.filter is_dialogue toolResults = [].
Proof.
  induction 1 as [|m l Hm _ IH]; [reflexivity|].
  cbn. unfold is_dialogue at 1. now rewrite Hm.
Qed.

(** X19: the Gemini adapter and the Ollama branch of the local adapter
    pass on the dialogue only.  Messages of the roles system and tool
    are left out of what they send, so the request is the one for the
    user and assistant messages alone.  Of the first request of a turn
    they send the stored dialogue and the utterance twice: neither the
    system prompt with the site context nor the order-flow context
    reaches the model.  Of the follow-up request of a tool round they
    send the first request's dialogue and the assistant's message: no
    tool result reaches the model. *)
Theorem text_adapters_send_dialogue_only (W : World) (cfg : LLMConfig) (now : Z)
    (userMessage : string) (stored toolResults : list LLMMessage) (flow : option OrderFlow)
    (tools : option (list LLMFunctionDefinition)) (assistantMessage : LLMMessage) :
  forallb is_dialogue stored = true ->
  role assistantMessage = assistant ->
  Forall (fun m => role m = tool) toolResults ->
  let userMsg := mk_msg user userMessage now in
  let first := requestMessages W now userMessage stored flow in
  let followup := ((first ++ [assistantMessage]) ++ toolResults)%list in
  (forall messages,
     GeminiProvider.request cfg messages tools =
       GeminiProvider.request cfg (List.filter is_dialogue messages) None /\
     LocalLLMProvider.ollamaRequest cfg messages tools =
       LocalLLMProvider.ollamaRequest cfg (List.filter is_dialogue messages) tools) /\
  List.filter is_dialogue first = (stored ++ [userMsg; userMsg])%list /\
  List.filter is_dialogue followup = (stored ++ [userMsg; userMsg; assistantMessage])%list /\
  GeminiProvider.generateResponse W cfg first tools =
    GeminiProvider.generateResponse W cfg (stored ++ [userMsg; userMsg])%list None /\
  GeminiProvider.generateResponse W cfg followup None =
    GeminiProvider.generateResponse W cfg (stored ++ [userMsg; userMsg; assistantMessage])%list None.
Proof.
  intros Hstored Hrole Htools userMsg first followup.
  assert (Hreq : forall messages,
     GeminiProvider.request cfg messages tools =
       GeminiProvider.request cfg (List.filter is_dialogue messages) None /\
     LocalLLMProvider.ollamaRequest cfg messages tools =
       LocalLLMProvider.ollamaRequest cfg (List.filter is_dialogue messages) tools).
  { intros messages. split.
    - unfold GeminiProvider.request, GeminiProvider.convertMessagesToGeminiFormat.
      now rewrite gemini_convertMessages_dialogue.
    - unfold LocalLLMProvider.ollamaRequest, LocalLLMProvider.ollama_prompt,
        LocalLLMProvider.convertMessagesToPrompt.
      now rewrite local_convertMessages_dialogue. }
  assert (Hfirst : List.filter is_dialogue first = (stored ++ [userMsg; userMsg])%list).
  { subst first. unfold requestMessages, enhancedHistory, pushed. fold userMsg.
    cbn [List.filter]. change (is_dialogue (createSystemPrompt W now)) with false. cbn iota.
    destruct flow as [f|]; [destruct (isActive f)|];
      rewrite ?List.filter_app, (filter_dialogue_all stored Hstored); cbn;
      now rewrite <- ?app_assoc. }
  assert (Hfollow : List.filter is_dialogue followup =
                    (stored ++ [userMsg; userMsg; assistantMessage])%list).
  { subst followup. rewrite !List.filter_app, Hfirst, (filter_dialogue_tools _ Htools).
    cbn. unfold is_dialogue at 1. rewrite Hrole, app_nil_r. now rewrite <- app_assoc. }
  assert (Hgen : forall messages tools',
     GeminiProvider.generateResponse W cfg messages tools' =
     GeminiProvider.generateResponse W cfg (List.filter is_dialogue messages) None).
  { intros messages tools'. unfold GeminiProvider.generateResponse.
    unfold GeminiProvider.request, GeminiProvider.convertMessagesToGeminiFormat.
    now rewrite gemini_convertMessages_dialogue. }
  split; [exact Hreq|]. split; [exact Hfirst|]. split; [exact Hfollow|]. split.
  - rewrite Hgen, Hfirst. reflexivity.
  - rewrite Hgen, Hfollow. reflexivity.
Qed.

(** X19 at a first turn while an order flow is active *)
Lemma text_adapters_send_dialogue_only_witness :
  GeminiProvider.generateResponse (Demo.world []) C7_gemini
    (requestMessages (Demo.world []) 7 "checkout" [] (Some freshFlow)) (Some C7_tools) =
  GeminiProvider.generateResponse (Demo.world []) C7_gemini
    [mk_msg user "checkout" 7; mk_msg user "checkout" 7] None.
Proof.
  apply (text_adapters_send_dialogue_only (Demo.world []) C7_gemini 7 "checkout" [] []
           (Some freshFlow) (Some C7_tools) (mk_msg assistant "" 7)
           eq_refl eq_refl (List.Forall_nil _)).
Defined.

(** ** Words in utterances *)

Lemma prefix_decompose p : forall s, String.prefix p s = true -> exists b, s = p +:+ b.
Proof.
  induction p as [|c p IH]; intros s H.
  - exists s. reflexivity.
  - destruct s as [|d s]; [discriminate|]. cbn in H.
    destruct (ascii_dec c d) as [->|]; [|discriminate].
    destruct (IH s H) as [b ->]. exists b. reflexivity.
Qed.

Lemma includes_decompose p s :
  Str.includes s p = true -> exists a b, s = a +:+ p +:+ b.
Proof.
  induction s as [|c s IH]; cbn [Str.includes]; intros H.
  - apply orb_true_iff in H as [H|H]; [|discriminate].
    destruct (prefix_decompose _ _ H) as [b Hb]. exists "", b. exact Hb.
  - apply orb_true_iff in H as [H|H].
    + destruct (prefix_decompose _ _ H) as [b Hb]. exists "", b. exact Hb.
    + destruct (IH H) as (a & b & ->). exists (String c a), b. reflexivity.
Qed.

Lemma includes_trans s p q :
  Str.includes s p = true -> Str.includes p q = true -> Str.includes s q = true.
Proof.
  intros [a [b ->]]%includes_decompose Hq.
  apply includes_append_r, includes_append_l, Hq.
Qed.

Lemma includes_nonempty s p : Str.includes s p = true -> p <> "" -> s <> "".
Proof. intros H Hp ->. cbn in H. destruct p; [congruence | discriminate]. Qed.

Lemma trimStart_includes p s :
  starts_nonspace p = true -> Str.includes s p = true ->
  Str.includes (Str.trimStart s) p = true.
Proof.
  intros Hp. destruct p as [|c p]; [discriminate|]. cbn in Hp.
  induction s as [|d s IH]; [easy|].
  cbn [Str.trimStart]. destruct (Str.is_space d) eqn:Hd; [|easy].
  cbn [Str.includes]. intros [H|H]%orb_true_iff; [|exact (IH H)].
  cbn in H. destruct (ascii_dec c d) as [->|]; [|discriminate].
  rewrite Hd in Hp. discriminate.
Qed.

Lemma trimEnd_cons c s :
  Str.trimEnd s <> "" -> Str.trimEnd (String c s) = String c (Str.trimEnd s).
Proof. intros H. cbn [Str.trimEnd]. destruct (Str.trimEnd s); [congruence | reflexivity]. Qed.

Lemma trimEnd_prefix p : forall s,
  ends_nonspace p = true -> String.prefix p s = true ->
  String.prefix p (Str.trimEnd s) = true.
Proof.
  induction p as [|c p IH]; intros s Hp H; [discriminate|].
  destruct s as [|d s]; [discriminate|]. cbn in H.
  destruct (ascii_dec c d) as [<-|]; [|discriminate].
  destruct p as [|c' p].
  - cbn in Hp. cbn [Str.trimEnd].
    destruct (Str.trimEnd s); [destruct (Str.is_space c); [discriminate|]|];
      cbn; destruct (ascii_dec c c); congruence.
  - assert (Hp' : ends_nonspace (String c' p) = true) by exact Hp.
    specialize (IH s Hp' H).
    rewrite trimEnd_cons.
    + cbn. destruct (ascii_dec c c); [exact IH | congruence].
    + intros E. rewrite E in IH. discriminate.
Qed.

Lemma trimEnd_includes p s :
  ends_nonspace p = true -> Str.includes s p = true ->
  Str.includes (Str.trimEnd s) p = true.
Proof.
  intros Hp. assert (Hne : p <> "") by (intros ->; discriminate).
  induction s as [|d s IH]; cbn [Str.includes]; intros H.
  - apply orb_true_iff in H as [H|H]; [|discriminate]. destruct p; [congruence|discriminate].
  - apply orb_true_iff in H as [H|H].
    + apply includes_prefix, trimEnd_prefix; assumption.
    + specialize (IH H). rewrite trimEnd_cons by exact (includes_nonempty _ _ IH Hne).
      cbn [Str.includes]. rewrite IH. apply orb_true_r.
Qed.

Lemma trim_includes p s :
  starts_nonspace p = true -> ends_nonspace p = true ->
  Str.includes s p = true -> Str.includes (Str.trim s) p = true.
Proof.
  intros H1 H2 H. unfold Str.trim. now apply trimEnd_includes, trimStart_includes.
Qed.

Lemma isAccepted_word userMessage word :
  In word acceptanceWords ->
  Str.includes (Str.toLowerCase userMessage) word = true ->
  isAccepted userMessage = true.
Proof.
  intros Hin H. unfold isAccepted.
  assert (Ht : Str.includes (Str.trim (Str.toLowerCase userMessage)) word = true).
  { apply trim_includes; [| |exact H];
      cbn in Hin; destruct Hin as [<-|[<-|[<-|[<-|[]]]]]; reflexivity. }
  cbn in Hin. destruct Hin as [<-|[<-|[<-|[<-|[]]]]]; rewrite Ht; cbn;
    rewrite ?orb_true_r; reflexivity.
Qed.

(** X20: the terms decision is taken by substring.  An utterance that
    holds "yes", "accept", "agree" or "ok" anywhere, in any case, inside
    a longer word or after a negation, is an acceptance: in a session
    that awaits the decision, the stored order call is then run again
    with the terms checked, and the answer is the text of the accept
    branch. *)
Theorem acceptance_by_substring (W : World) (now : Z) (rnd userMessage word : string)
    (given : option string) (s : LLMService) (pendingOrder : PendingOrderOperation)
    (parsed : jobject) :
  In word acceptanceWords ->
  Str.includes (Str.toLowerCase userMessage) word = true ->
  let session := effectiveSessionId now rnd given in
  pendingOrder_of session s = Some pendingOrder ->
  waitingForTermsAcceptance pendingOrder = true ->
  JSON_parse W (fn_arguments (originalToolCall pendingOrder)) = Some parsed ->
  let asked := (addToConversationHistory session (mk_msg user userMessage now)
                  (clearPendingOrderContext session s)).2 in
  let retry := executeMCPTool W (termsCheckedCall W (originalToolCall pendingOrder) parsed) asked in
  isAccepted userMessage = true /\
  (generateResponseWithSession W now rnd userMessage given s).1 =
    Ok {| response := acceptanceText W retry.1; sessionId := session |}.
Proof.
  intros Hin Hword session Hp Hw Hparse asked retry.
  pose proof (isAccepted_word userMessage word Hin Hword) as Hacc.
  split; [exact Hacc|].
  unfold generateResponseWithSession, bind at 1, gets at 1. fold session.
  unfold isWaitingForTermsAcceptance. rewrite Hp, Hw.
  now rewrite (handleTerms_accept W now userMessage session s pendingOrder parsed Hp Hacc Hparse).
Qed.

(** X20 at the answer "I disagree" *)
Lemma acceptance_by_substring_witness :
  In "agree" acceptanceWords /\
  Str.includes (Str.toLowerCase "I disagree") "agree" = true /\
  pendingOrder_of "s1" C2_waiting =
    Some {| originalToolCall := Demo.placeOrderCall; waitingForTermsAcceptance := true;
            termsMessage := Some Demo.termsError |} /\
  isAccepted "I disagree" = true /\
  dispatched (generateResponseWithSession (Demo.world []) 9 "r" "I disagree" (Some "s1")
                C2_waiting).2 = ["place-order"].
Proof.
  assert (Hin : In "agree" acceptanceWords) by (cbn; tauto).
  assert (Hword : Str.includes (Str.toLowerCase "I disagree") "agree" = true) by reflexivity.
  split; [exact Hin|]. split; [exact Hword|]. split; [reflexivity|].
  destruct (acceptance_by_substring (Demo.world []) 9 "r" "I disagree" "agree" (Some "s1")
              C2_waiting _ ∅ Hin Hword eq_refl eq_refl eq_refl) as [Hacc _].
  split; [exact Hacc | vm_compute; reflexivity].
Defined.

Ltac responder_test k :=
  destruct (Str.includes _ k) eqn:?; cbn [orb];
  [try (let H := fresh in intros H; vm_compute in H; discriminate)|].

(** X21: a rule of the rule-based responder that never decides.  The
    greeting is tried first and asks for "hi" anywhere in the utterance,
    so every utterance that mentions "shipping", or any other word in
    which "hi" occurs, is answered with the greeting.  The answer on
    orders and deliveries is therefore given for the words "order" and
    "delivery" only, and only to utterances free of "hi". *)
Theorem greeting_shadows_shipping (userMessage : string) :
  let message := Str.toLowerCase userMessage in
  (forall word, Str.includes word "hi" = true -> Str.includes message word = true ->
     getFallbackResponse userMessage None = greeting) /\
  (Str.includes message "shipping" = true ->
   getFallbackResponse userMessage None = greeting) /\
  (getFallbackResponse userMessage None = orderAnswer ->
   Str.includes message "hi" = false /\
   (Str.includes message "order" = true \/ Str.includes message "delivery" = true)).
Proof.
  intros message.
  assert (Hhi : forall word, Str.includes word "hi" = true ->
     Str.includes message word = true ->
     getFallbackResponse userMessage None = greeting).
  { intros word Hw H. unfold getFallbackResponse. cbn [opt_truthy]. fold message.
    rewrite (includes_trans _ _ _ H Hw). now rewrite orb_true_r. }
  split; [exact Hhi|]. split.
  - intros H. apply (Hhi "shipping"); [reflexivity | exact H].
  - unfold getFallbackResponse. cbn [opt_truthy]. fold message.
    responder_test "hello". responder_test "hi". responder_test "help".
    responder_test "product". responder_test "item". responder_test "buy".
    destruct (Str.includes message "order") eqn:Eorder; cbn [orb]; [intros _; split; auto|].
    destruct (Str.includes message "shipping") eqn:Eshipping; cbn [orb].
    { assert (Str.includes message "hi" = true)
        by (apply (includes_trans _ _ _ Eshipping); reflexivity).
      congruence. }
    destruct (Str.includes message "delivery") eqn:Edelivery; cbn [orb]; [intros _; split; auto|].
    responder_test "return". responder_test "refund". responder_test "exchange".
    responder_test "contact". responder_test "support". responder_test "phone".
    responder_test "bye". responder_test "goodbye". responder_test "thanks".
    intros H. vm_compute in H. discriminate.
Qed.

(** X21 at a question about shipping costs *)
Lemma greeting_shadows_shipping_witness :
  Str.includes (Str.toLowerCase "What are your shipping costs?") "shipping" = true /\
  getFallbackResponse "What are your shipping costs?" None = greeting.
Proof.
  split; [reflexivity|].
  apply (greeting_shadows_shipping "What are your shipping costs?"). reflexivity.
Defined.

(** ** The chat window *)

Lemma generateSessionId_truthy now rnd : Str.truthy (generateSessionId now rnd) = true.
Proof. reflexivity. Qed.



Lemma effectiveSessionId_new now rnd given :
  opt_truthy given = false -> effectiveSessionId now rnd given = generateSessionId now rnd.
Proof.
  unfold effectiveSessionId, opt_truthy.
  destruct given as [id|]; [|reflexivity].
  destruct id; [reflexivity | discriminate].
Qed.

Lemma turn_answered W now rnd userMessage given s r :
  (generateResponseWithSession W now rnd userMessage given s).1 = Ok r ->
  answered now userMessage (effectiveSessionId now rnd given) r
    (generateResponseWithSession W now rnd userMessage given s).2.
Proof.
  unfold generateResponseWithSession, bind at 1 2, gets at 1 2.
  set (session := effectiveSessionId now rnd given).
  destruct (isWaitingForTermsAcceptance session s).
  - pose proof (handleTermsAcceptanceResponse_answered W now userMessage session s I) as H.
    destruct (handleTermsAcceptanceResponse W now userMessage session s) as [[r'|e] s1];
      [|discriminate].
    now intros [= <-].
  - pose proof (ordinaryTurn_answered W now userMessage session s I) as H.
    destruct (ordinaryTurn W now userMessage session s) as [[r'|e] s1]; [|discriminate].
    now intros [= <-].
Qed.

(** X22: the answer to the first message of a chat is written over a
    snapshot.  While the chat has no session id, the state is rebuilt
    from the one read when the request was made: whatever happened to
    the chat before the answer arrived (a message sent, the window
    opened or closed) is undone, and the session id of the answer is
    adopted.  Once the chat has a session id, the answer is appended to
    the state as it is on arrival and the session id is left alone.  An
    error is always appended to the state on arrival. *)
Theorem first_answer_overwrites_the_meantime (t : ChatbotService.Moment)
    (currentState arrival : ChatbotService.ChatbotState) (result : TurnResult) (e : string) :
  let arrived := ChatbotService.answerArrived t currentState (Ok result) arrival in
  let failed := ChatbotService.answerArrived t currentState (Err e) arrival in
  (opt_truthy (ChatbotService.state_sessionId currentState) = false ->
   ChatbotService.messages arrived =
     (ChatbotService.messages currentState ++ [ChatbotService.botMessage t result])%list /\
   ChatbotService.isOpen arrived = ChatbotService.isOpen currentState /\
   ChatbotService.state_sessionId arrived = Some (sessionId result) /\
   ChatbotService.isTyping arrived = false) /\
  (opt_truthy (ChatbotService.state_sessionId currentState) = true ->
   ChatbotService.messages arrived =
     (ChatbotService.messages arrival ++ [ChatbotService.botMessage t result])%list /\
   ChatbotService.isOpen arrived = ChatbotService.isOpen arrival /\
   ChatbotService.state_sessionId arrived = ChatbotService.state_sessionId arrival /\
   ChatbotService.isTyping arrived = false) /\
  ChatbotService.messages failed =
    (ChatbotService.messages arrival ++ [ChatbotService.errorMessage t])%list /\
  ChatbotService.state_sessionId failed = ChatbotService.state_sessionId arrival /\
  ChatbotService.isTyping failed = false.
Proof.
  cbn zeta. unfold ChatbotService.answerArrived.
  split; [|split].
  - intros ->. cbn. easy.
  - intros ->. cbn. easy.
  - cbn. easy.
Qed.

(** X22 at a second message sent before the first answer *)
Lemma first_answer_overwrites_the_meantime_witness :
  let t := {| ChatbotService.clock := 1500; ChatbotService.random := "d" |} in
  let first := (ChatbotService.sendMessage (ChatbotService.sent (X_exchange "hello"))
                  "hello" X_opened).1 in
  let second := (ChatbotService.sendMessage t "and one more thing" first).1 in
  let answer := {| response := "Hi!"; sessionId := "session_1010_c" |} in
  opt_truthy (ChatbotService.state_sessionId first) = false /\
  length (ChatbotService.messages second) = 3%nat /\
  map ChatbotService.msg_text
    (ChatbotService.messages (ChatbotService.answerArrived t first (Ok answer) second)) =
  ["Hello! How can I help you today?"; "hello"; "Hi!"].
Proof.
  cbn zeta. split; [reflexivity|]. split; [reflexivity|].
  destruct (first_answer_overwrites_the_meantime
              {| ChatbotService.clock := 1500; ChatbotService.random := "d" |}
              (ChatbotService.sendMessage (ChatbotService.sent (X_exchange "hello"))
                 "hello" X_opened).1
              (ChatbotService.sendMessage
                 {| ChatbotService.clock := 1500; ChatbotService.random := "d" |}
                 "and one more thing"
                 (ChatbotService.sendMessage (ChatbotService.sent (X_exchange "hello"))
                    "hello" X_opened).1).1
              {| response := "Hi!"; sessionId := "session_1010_c" |} "") as (H & _).
  destruct (H eq_refl) as (Hm & _). rewrite Hm. reflexivity.
Defined.



(** X24: clearing the chat starts a new session.  The window shows the
    welcome message alone and has no session id; whether it is open, and
    whether it is typing, stay as they were.  The orchestrator forgets
    the session the chat had, its history, its pending order and its
    order flow, and no other session; a chat without a session id leaves
    the orchestrator alone.  The next exchange that is answered runs in a
    session of a new id, made from the clock and the random source at
    the time of the request. *)
Theorem clearing_starts_a_new_session (W : World) (t : ChatbotService.Moment)
    (x : ChatbotService.Exchange) (currentState : ChatbotService.ChatbotState)
    (llm : LLMService) :
  let cleared := ChatbotService.clearMessages t currentState llm in
  let next := ChatbotService.exchange W x cleared.1 cleared.2 in
  ChatbotService.messages cleared.1 = [ChatbotService.welcomeMessage t] /\
  ChatbotService.state_sessionId cleared.1 = None /\
  ChatbotService.isOpen cleared.1 = ChatbotService.isOpen currentState /\
  ChatbotService.isTyping cleared.1 = ChatbotService.isTyping currentState /\
  (forall session,
     ChatbotService.state_sessionId currentState = Some session -> Str.truthy session = true ->
     history_of session cleared.2 = [] /\
     pendingOrder_of session cleared.2 = None /\
     orderFlow_of session cleared.2 = None /\
     others_same session llm cleared.2) /\
  (opt_truthy (ChatbotService.state_sessionId currentState) = false -> cleared.2 = llm) /\
  (forall result,
     Str.trim (ChatbotService.typed x) <> "" ->
     (generateResponseWithSession W (ChatbotService.clock (ChatbotService.asked x))
        (ChatbotService.random (ChatbotService.asked x)) (Str.trim (ChatbotService.typed x))
        None cleared.2).1 = Ok result ->
     ChatbotService.state_sessionId next.1 =
       Some (generateSessionId (ChatbotService.clock (ChatbotService.asked x))
                               (ChatbotService.random (ChatbotService.asked x)))).
Proof.
  cbn zeta. unfold ChatbotService.clearMessages. cbn [fst snd].
  split; [reflexivity|]. split; [reflexivity|]. split; [reflexivity|]. split; [reflexivity|].
  split; [|split].
  - intros session -> ->.
    destruct (clearConversationHistory_flow session llm) as (Hf & Hp & Hh).
    split; [unfold history_of; now rewrite Hh|]. split; [exact Hp|]. split; [exact Hf|].
    intros other Hne. unfold clearConversationHistory. cbn.
    now rewrite !lookup_delete_ne by congruence.
  - unfold opt_truthy. destruct (ChatbotService.state_sessionId currentState) as [id|];
      [intros ->|]; reflexivity.
  - intros result Hne Hr.
    set (llm1 := match ChatbotService.state_sessionId currentState with
                 | Some id => if Str.truthy id then clearConversationHistory id llm else llm
                 | None => llm
                 end) in *.
    unfold ChatbotService.exchange, ChatbotService.sendMessage.
    assert (Htruthy : Str.truthy (Str.trim (ChatbotService.typed x)) = true).
    { destruct (Str.trim (ChatbotService.typed x)); [congruence | reflexivity]. }
    rewrite Htruthy. cbn [negb]. unfold ChatbotService.generateBotResponse.
    cbn [ChatbotService.state_sessionId ChatbotService.setTyping ChatbotService.addMessage
         ChatbotService.initializeChat fst snd].
    rewrite Hr.
    pose proof (turn_answered W _ _ _ None llm1 result Hr) as [Hid _].
    unfold ChatbotService.answerArrived. cbn. f_equal. exact Hid.
Qed.

(** X24 at a chat whose session awaits a terms decision *)
Lemma clearing_starts_a_new_session_witness :
  let chat := {| ChatbotService.isOpen := true; ChatbotService.messages := [];
                 ChatbotService.isTyping := false;
                 ChatbotService.state_sessionId := Some "s1" |} in
  let t := {| ChatbotService.clock := 2000; ChatbotService.random := "e" |} in
  let cleared := ChatbotService.clearMessages t chat C2_waiting in
  isWaitingForTermsAcceptance "s1" C2_waiting = true /\
  pendingOrder_of "s1" cleared.2 = None /\
  ChatbotService.state_sessionId
    (ChatbotService.exchange (Demo.world []) (X_exchange "yes") cleared.1 cleared.2).1 =
  Some "session_1010_c".
Proof.
  cbn zeta. split; [reflexivity|].
  destruct (clearing_starts_a_new_session (Demo.world [])
              {| ChatbotService.clock := 2000; ChatbotService.random := "e" |}
              (X_exchange "yes")
              {| ChatbotService.isOpen := true; ChatbotService.messages := [];
                 ChatbotService.isTyping := false;
                 ChatbotService.state_sessionId := Some "s1" |} C2_waiting)
    as (_ & _ & _ & _ & Hforget & _ & Hnext).
  destruct (Hforget "s1" eq_refl eq_refl) as (_ & Hp & _).
  split; [exact Hp|].
  rewrite (Hnext {| response := ""; sessionId := "session_1010_c" |});
    [vm_compute; reflexivity | vm_compute; discriminate | vm_compute; reflexivity].
Defined.

(** ** The service as shipped *)

#[global] Instance same_setup_preorder : PreOrder same_setup.
Proof.
  split.
  - intros s. repeat split.
  - intros s1 s2 s3 (A1 & A2 & A3 & A4 & A5) (B1 & B2 & B3 & B4 & B5).
    repeat split; congruence.
Qed.









(** ** Setting up the tool client *)

Lemma initializeConnection_serverConfig W m :
  serverConfig (MCP.initializeConnection W m).2 = serverConfig m.
Proof.
  unfold MCP.initializeConnection.
  destruct (serverConfig m) as [cfg|] eqn:E; cbn; [|exact E].
  destruct (server_url cfg) as [url|]; cbn; [|reflexivity].
  destruct (sdk_connect W url); cbn; [|reflexivity].
  unfold MCP.discoverTools. reflexivity.
Qed.

Lemma connect_serverConfig W config m :
  serverConfig (ChatbotInitializationService.connect W config m) = Some config.
Proof. unfold ChatbotInitializationService.connect. now rewrite initializeConnection_serverConfig. Qed.

Lemma fold_connect_serverConfig W servers : forall m,
  serverConfig (fold_left (fun m c => ChatbotInitializationService.connect W c m) servers m) =
  match last servers with
  | Some c => Some c
  | None => serverConfig m
  end.
Proof.
  induction servers as [|c servers IH] using rev_ind; intros m; [reflexivity|].
  rewrite fold_left_app, last_snoc. cbn. apply connect_serverConfig.
Qed.

Lemma fold_add_serverConfig servers : forall m,
  serverConfig (fold_left (fun m c => ChatbotInitializationService.addServerConfiguration c m)
                  servers m) =
  match last servers with
  | Some c => Some c
  | None => serverConfig m
  end.
Proof.
  induction servers as [|c servers IH] using rev_ind; intros m; [reflexivity|].
  rewrite fold_left_app, last_snoc. reflexivity.
Qed.

(** X26: the two initialisers of the tool client.  The initialisation
    service configures every predefined server in turn and connects the
    enabled ones in turn, on the one client there is: afterwards the
    client is configured for the last enabled server, or for the last
    server when none is enabled.  The orchestrator configures and
    connects the first server only.  With one enabled server, as
    shipped, both leave the same client; the initialisation runs once. *)
Theorem tool_client_initialisers (W : World) (m : MCPSDKService) (s : LLMService) :
  let servers := predefinedMCPServers W in
  let after := ChatbotInitializationService.initializeMCPServers W m in
  (servers = [] -> after = m) /\
  (servers <> [] ->
   serverConfig after =
     match last (List.filter server_enabled servers) with
     | Some lastEnabled => Some lastEnabled
     | None => last servers
     end) /\
  (forall first rest, servers = first :: rest ->
     serverConfig (mcpService (initializeMCPServers W s)) = Some first) /\
  (forall only, servers = [only] -> server_enabled only = true ->
     mcpService (initializeMCPServers W (set_mcpService m s)) = after) /\
  (forall st, ChatbotInitializationService.initialize W
                (ChatbotInitializationService.initialize W st) =
              ChatbotInitializationService.initialize W st).
Proof.
  cbn zeta. unfold ChatbotInitializationService.initializeMCPServers, initializeMCPServers.
  split; [intros ->; reflexivity|]. split; [|split; [|split]].
  - intros Hne. destruct (predefinedMCPServers W) as [|c servers] eqn:E; [congruence|].
    rewrite fold_connect_serverConfig, fold_add_serverConfig.
    destruct (last (List.filter server_enabled (c :: servers))); [reflexivity|].
    destruct (last (c :: servers)) eqn:El; [reflexivity|].
    now apply last_None in El.
  - intros first rest ->. cbn [mcpService set_mcpService].
    now rewrite initializeConnection_serverConfig.
  - intros only -> Hen. cbn. rewrite Hen. cbn.
    unfold ChatbotInitializationService.connect, ChatbotInitializationService.addServerConfiguration.
    reflexivity.
  - intros st. unfold ChatbotInitializationService.initialize.
    destruct (ChatbotInitializationService.isInitialized st) eqn:E; [now rewrite E | reflexivity].
Qed.

(** X26 at three servers, of which the last is switched off *)
Lemma tool_client_initialisers_witness :
  predefinedMCPServers X_two_servers <> [] /\
  (server_id <$> serverConfig (ChatbotInitializationService.initializeMCPServers X_two_servers
                                 (mcpService initial))) = Some "second" /\
  (server_id <$> serverConfig (mcpService (initializeMCPServers X_two_servers initial))) =
    Some "first".
Proof.
  assert (Hne : predefinedMCPServers X_two_servers <> []) by discriminate.
  split; [exact Hne|].
  destruct (tool_client_initialisers X_two_servers (mcpService initial) initial)
    as (_ & Hlast & Hfirst & _).
  rewrite (Hlast Hne). rewrite (Hfirst _ _ eq_refl). split; reflexivity.
Defined.

(** ** Settings of the local adapter *)





(** ** Tool results as text *)



